(** * RTSM MCP test harness: control-channel client and content extraction

    A shallow embedding of [tools/mcp_smoke_test.py] (class [MCPClient]) and
    of [parse_png_size_from_image_content] from
    [tools/mcp_phone_playability.py], followed by the properties of the
    session layer, the diagnostic buffer and the content extractors.

    Conventions of the embedding.
    - Python values that come out of [json.loads] are values of [json];
      Python's [None] is [JNull].
    - A Python [str] is a [string]; its characters are code points below 256.
    - A raised exception is [Raise e]; [MCPError] carries the message of the
      source as a constructor of [mcp_error].
    - [time.monotonic()] and the timeouts are integers (milliseconds).
    - The library functions [json.loads], [json.dumps] and
      [base64.b64decode] are parameters of the development, and so are the
      texts on which [json.loads] and [readline] raise an exception that
      the code has no handler for. *)

From Stdlib Require Import ZArith NArith List String Ascii Bool Lia Sorted.
From Stdlib Require Import Strings.Byte DecimalString.
From Corelib Require Import SpecFloat.
Import ListNotations.
Local Open Scope string_scope.
Local Open Scope Z_scope.

Set Implicit Arguments.
Set Warnings "-register-all".

(** ** Python values and exceptions *)

Module Py.

Inductive json : Type :=
| JNull
| JBool (b : bool)
| JInt (n : Z)
| JFloat (f : spec_float)
| JStr (s : string)
| JArr (items : list json)
| JObj (fields : list (string * json)).

(** The messages of [MCPError], one constructor per raise site. *)
Inductive mcp_error : Type :=
| StdinUnavailable                       (* "MCP stdin is unavailable" *)
| StdoutUnavailable                      (* "MCP stdout is unavailable" *)
| TimedOutWaitingForMessage              (* "Timed out waiting for MCP response" *)
| ServerExited (code : option Z)         (* "MCP server exited unexpectedly (code=...)" *)
| TimedOutWaitingFor (method : string)   (* "Timed out waiting for response to ..." *)
| ToolsCallFailed (name : string) (err : json)     (* "tools/call ... failed: ..." *)
| ToolReturnedError (name : string) (text : string) (* "Tool '...' returned error: ..." *)
| NoImageContent                         (* "No image content returned" *)
| MissingPayload                         (* "Image content missing base64 payload" *)
| InvalidPng.                            (* "Screenshot payload is not a valid PNG" *)

Inductive exn : Type :=
| MCPError (e : mcp_error)
| AttributeError
| TypeError
| ValueError
| StructError
| BrokenPipeError
| RecursionError        (* [json.loads], on deep nesting *)
| UnicodeDecodeError.   (* [readline], on bytes that are not text *)

Inductive result (A : Type) : Type :=
| Ok (a : A)
| Raise (e : exn).

Arguments Ok {A} a.
Arguments Raise {A} e.

Definition rbind {A B} (r : result A) (k : A -> result B) : result B :=
  match r with
  | Ok a => k a
  | Raise e => Raise e
  end.

Notation "x <-- r ;; k" := (rbind r (fun x => k))
  (at level 61, r at next level, right associativity).

(** The newline character and the one-character string made of it. *)
Definition nl_char : ascii := ascii_of_nat 10.
Definition nl : string := String nl_char EmptyString.

(** [sep.join(parts)] on strings. *)
Fixpoint join (sep : string) (parts : list string) : string :=
  match parts with
  | [] => ""
  | [p] => p
  | p :: rest => p ++ sep ++ join sep rest
  end.

(** First binding of a key: what [d[k]] reads in a dict whose keys are
    distinct. *)
Fixpoint assoc (k : string) (fields : list (string * json)) : option json :=
  match fields with
  | [] => None
  | (k', v) :: rest => if String.eqb k k' then Some v else assoc k rest
  end.

(** [d.get(k, default)]; only a dict has the method. *)
Definition dict_get (d : json) (k : string) (default : json) : result json :=
  match d with
  | JObj fields =>
      Ok (match assoc k fields with Some v => v | None => default end)
  | _ => Raise AttributeError
  end.

(** Value of a finite float compared with an integer, exactly. *)
Definition float_eq_int (f : spec_float) (n : Z) : bool :=
  match f with
  | S754_zero _ => n =? 0
  | S754_finite s m e =>
      let sm := if s then Z.neg m else Z.pos m in
      if 0 <=? e then sm * 2 ^ e =? n else sm =? n * 2 ^ (- e)
  | _ => false
  end.

(** [v == n] for an [int] [n]: [True == 1] and [1.0 == 1] hold in Python. *)
Definition py_eq_int (v : json) (n : Z) : bool :=
  match v with
  | JInt m => m =? n
  | JBool b => (if b then 1 else 0) =? n
  | JFloat f => float_eq_int f n
  | _ => false
  end.

(** [v == s] for a [str] [s]. *)
Definition py_eq_str (v : json) (s : string) : bool :=
  match v with
  | JStr t => String.eqb t s
  | _ => false
  end.

(** Truth value of a Python object, as [if v] and [not v] test it. *)
Definition truthy (v : json) : bool :=
  match v with
  | JNull => false
  | JBool b => b
  | JInt n => negb (n =? 0)
  | JFloat (S754_zero _) => false
  | JFloat _ => true
  | JStr s => negb (String.eqb s "")
  | JArr items => match items with [] => false | _ => true end
  | JObj fields => match fields with [] => false | _ => true end
  end.

(** [needle in hay] for two strings. *)
Fixpoint substring_of (needle hay : string) : bool :=
  if String.prefix needle hay then true
  else match hay with
       | EmptyString => false
       | String _ rest => substring_of needle rest
       end.

(** [k in v] for a [str] [k]. *)
Definition py_contains (k : string) (v : json) : result bool :=
  match v with
  | JObj fields => Ok (match assoc k fields with Some _ => true | None => false end)
  | JArr items => Ok (existsb (fun x => py_eq_str x k) items)
  | JStr s => Ok (substring_of k s)
  | _ => Raise TypeError
  end.

(** The items a [for] loop visits. *)
Definition py_iter (v : json) : result (list json) :=
  match v with
  | JArr items => Ok items
  | JObj fields => Ok (map (fun kv => JStr (fst kv)) fields)
  | JStr s => Ok (map (fun c => JStr (String c EmptyString)) (list_ascii_of_string s))
  | _ => Raise TypeError
  end.

(** [sep.join(items)]: every item must be a [str]. *)
Fixpoint as_strings (items : list json) : result (list string) :=
  match items with
  | [] => Ok []
  | JStr s :: rest => ss <-- as_strings rest ;; Ok (s :: ss)
  | _ :: _ => Raise TypeError
  end.

Definition py_join (sep : string) (items : list json) : result string :=
  ss <-- as_strings items ;; Ok (join sep ss).

(** Characters [str.strip()] removes. *)
Definition is_space (c : ascii) : bool :=
  let n := nat_of_ascii c in
  ((9 <=? n) && (n <=? 13) || (28 <=? n) && (n <=? 32)
   || (n =? 133) || (n =? 160))%nat.

Fixpoint lstrip_by (p : ascii -> bool) (s : string) : string :=
  match s with
  | EmptyString => EmptyString
  | String c rest => if p c then lstrip_by p rest else s
  end.

Fixpoint rstrip_by (p : ascii -> bool) (s : string) : string :=
  match s with
  | EmptyString => EmptyString
  | String c rest =>
      match rstrip_by p rest with
      | EmptyString => if p c then EmptyString else String c EmptyString
      | rest' => String c rest'
      end
  end.

Definition strip (s : string) : string := rstrip_by is_space (lstrip_by is_space s).
Definition rstrip (s : string) : string := rstrip_by is_space s.
Definition rstrip_nl (s : string) : string := rstrip_by (Ascii.eqb nl_char) s.

End Py.
Import Py.

(** ** Library interfaces

    [json.loads] returns [None] where Python raises [json.JSONDecodeError],
    the one exception the handlers of this code name ([FaultLib], further
    down, adds the others); [b64decode] returns [None] where Python raises
    [binascii.Error] or [ValueError]. *)

Class JsonLib : Type := {
  json_loads : string -> option json;
  json_dumps : json -> string
}.

Class Base64Lib : Type := {
  b64decode : string -> option (list byte)
}.

(** ** [tools/mcp_smoke_test.py] *)

Module SmokeTest.

(** *** The child process and its pipes *)

(** [collections.deque(maxlen=n)]. *)
Record deque (A : Type) : Type := mkDeque {
  maxlen : nat;
  items : list A
}.

(** [d.append(x)]: the item goes in on the right, and when the deque is
    then longer than [maxlen] one item is dropped on the left. *)
Definition deque_append {A} (d : deque A) (x : A) : deque A :=
  let grown := (items d ++ [x])%list in
  mkDeque (maxlen d)
          (if (maxlen d <? List.length grown)%nat then tl grown else grown).

(** The command stream: the lines written so far, or a pipe whose reader is
    gone. *)
Inductive pipe : Type :=
| PipeOpen (written : list string)
| PipeBroken.

(** What one [select] on the response stream finds: nothing within the
    poll interval, or a line for [readline] ([""] is end of stream). *)
Inductive out_event : Type :=
| NotReady
| Ready (line : string).

(** The process: running ([on_term] is the exit code with which it answers
    a terminate signal within the grace period, if it does), asked to
    terminate, killed and not yet waited for, or exited, which is when
    [returncode] is set. *)
Inductive proc_status : Type :=
| Running (on_term : option Z)
| Terminating (on_term : option Z)
| Killed
| Exited (code : Z).

(** [subprocess.Popen]: [stdin] and [stdout] are [None] when the stream is
    unavailable; [stderr] lists the lines still to be read. *)
Record Popen : Type := mkPopen {
  stdin : option pipe;
  stdout : option (list out_event);
  stderr : list string;
  status : proc_status
}.

Record MCPClient : Type := mkClient {
  server_cmd : string;
  request_timeout : Z;
  verbose : bool;
  _next_id : Z;
  _stderr_lines : deque string;
  process : Popen
}.

(** The client together with its surroundings: the readings
    [time.monotonic()] will return, in order, and what the harness has
    printed. *)
Record session : Type := mkSession {
  self : MCPClient;
  clock : list Z;
  console : list string
}.

Definition with_stdin (p : Popen) (i : option pipe) : Popen :=
  mkPopen i (stdout p) (stderr p) (status p).
Definition with_stdout (p : Popen) (o : option (list out_event)) : Popen :=
  mkPopen (stdin p) o (stderr p) (status p).
Definition with_stderr (p : Popen) (e : list string) : Popen :=
  mkPopen (stdin p) (stdout p) e (status p).
Definition with_status (p : Popen) (st : proc_status) : Popen :=
  mkPopen (stdin p) (stdout p) (stderr p) st.

Definition with_next_id (c : MCPClient) (n : Z) : MCPClient :=
  mkClient (server_cmd c) (request_timeout c) (verbose c) n (_stderr_lines c) (process c).
Definition with_stderr_lines (c : MCPClient) (d : deque string) : MCPClient :=
  mkClient (server_cmd c) (request_timeout c) (verbose c) (_next_id c) d (process c).
Definition with_process (c : MCPClient) (p : Popen) : MCPClient :=
  mkClient (server_cmd c) (request_timeout c) (verbose c) (_next_id c) (_stderr_lines c) p.

Definition with_self (s : session) (c : MCPClient) : session :=
  mkSession c (clock s) (console s).
Definition with_clock (s : session) (ck : list Z) : session :=
  mkSession (self s) ck (console s).
Definition with_console (s : session) (out : list string) : session :=
  mkSession (self s) (clock s) out.

(** *** Computations on a session

    [None] is a run that outlives the modelled surroundings (the clock
    readings are used up); otherwise the run returns or raises, in a new
    session state. *)
Definition M (A : Type) : Type := session -> option (result A * session).

Definition ret {A} (a : A) : M A := fun s => Some (Ok a, s).
Definition raise {A} (e : exn) : M A := fun s => Some (Raise e, s).
Definition lift {A} (r : result A) : M A := fun s => Some (r, s).
Definition bind {A B} (m : M A) (k : A -> M B) : M B := fun s =>
  match m s with
  | Some (Ok a, s') => k a s'
  | Some (Raise e, s') => Some (Raise e, s')
  | None => None
  end.

Notation "x <- m ;; k" := (bind m (fun x => k))
  (at level 61, m at next level, right associativity).
Notation "m ;;; k" := (bind m (fun _ => k))
  (at level 61, right associativity).

Definition get_self : M MCPClient := fun s => Some (Ok (self s), s).
Definition put_self (c : MCPClient) : M unit := fun s => Some (Ok tt, with_self s c).
Definition put_process (p : Popen) : M unit := fun s =>
  Some (Ok tt, with_self s (with_process (self s) p)).

(** [time.monotonic()]. *)
Definition monotonic : M Z := fun s =>
  match clock s with
  | [] => None
  | t :: rest => Some (Ok t, with_clock s rest)
  end.

(** [print(text)]. *)
Definition print (text : string) : M unit := fun s =>
  Some (Ok tt, with_console s (console s ++ [text])%list).

(** [if cond: body]. *)
Definition when (cond : bool) (body : M unit) : M unit :=
  if cond then body else ret tt.

(** [Popen.poll()]. *)
Definition poll (p : Popen) : option Z :=
  match status p with
  | Exited code => Some code
  | _ => None
  end.

(** [Popen.terminate()]. *)
Definition terminate (p : Popen) : Popen :=
  match status p with
  | Running b => with_status p (Terminating b)
  | _ => p
  end.

(** [Popen.wait(timeout=...)]: [false] is [subprocess.TimeoutExpired],
    raised for a process that does not exit within the timeout. A killed
    process is collected here, with the exit code of a killed process,
    [-9]. *)
Definition wait (p : Popen) : bool * Popen :=
  match status p with
  | Terminating (Some code) => (true, with_status p (Exited code))
  | Killed => (true, with_status p (Exited (-9)))
  | Exited _ => (true, p)
  | _ => (false, p)
  end.

(** [Popen.kill()] sends the signal and returns: nothing waits for the
    process here, so [returncode] stays unset and [poll], called right
    after, still answers [None]. *)
Definition kill (p : Popen) : Popen :=
  match status p with
  | Exited _ => p
  | _ => with_status p Killed
  end.

(** *** [class MCPClient] *)

Section Client.

Context {lib : JsonLib}.

(** [MCPClient.__init__]: [spawned] is the process [subprocess.Popen]
    returns. *)
Definition init (cmd : string) (timeout : Z) (verb : bool) (spawned : Popen)
  : MCPClient :=
  mkClient cmd timeout verb 1 (mkDeque 200 []) spawned.

(** [self.process.stderr.readline()]: [""] at end of stream. *)
Definition stderr_readline : M string := fun s =>
  let p := process (self s) in
  match stderr p with
  | [] => Some (Ok "", s)
  | line :: rest => Some (Ok line, with_self s (with_process (self s) (with_stderr p rest)))
  end.

Definition stderr_append (line : string) : M unit := fun s =>
  Some (Ok tt, with_self s (with_stderr_lines (self s)
                             (deque_append (_stderr_lines (self s)) line))).

Fixpoint drain_loop (fuel : nat) : M unit :=
  match fuel with
  | O => fun _ => None
  | S fuel' =>
      line <- stderr_readline ;;
      if String.eqb line "" then ret tt
      else
        stderr_append (rstrip_nl line) ;;;
        (c <- get_self ;;
         when (verbose c) (print ("[mcp-stderr] " ++ rstrip line))) ;;;
        drain_loop fuel'
  end.

(** [MCPClient._drain_stderr]. *)
Definition _drain_stderr : M unit := fun s =>
  drain_loop (S (List.length (stderr (process (self s))))) s.

(** [MCPClient._send]. *)
Definition _send (payload : json) : M unit :=
  c <- get_self ;;
  match stdin (process c) with
  | None => raise (MCPError StdinUnavailable)
  | Some PipeBroken => raise BrokenPipeError
  | Some (PipeOpen written) =>
      put_process (with_stdin (process c)
                     (Some (PipeOpen (written ++ [(json_dumps payload ++ nl)%string])%list)))
  end.

(** [select.select([stdout], [], [], timeout)]: is a line ready? The time
    spent waiting shows in the clock readings that follow. *)
Definition select (timeout : Z) : M bool := fun s =>
  let p := process (self s) in
  match stdout p with
  | Some (NotReady :: rest) =>
      Some (Ok false, with_self s (with_process (self s) (with_stdout p (Some rest))))
  | Some (Ready _ :: _) => Some (Ok true, s)
  | _ => Some (Ok false, s)
  end.

(** [self.process.stdout.readline()], called when a line is ready, where it
    returns the line ([Uncaught.readline] adds the lines it raises on). *)
Definition readline : M string := fun s =>
  let p := process (self s) in
  match stdout p with
  | Some (Ready line :: rest) =>
      Some (Ok line, with_self s (with_process (self s) (with_stdout p (Some rest))))
  | _ => None
  end.

Fixpoint read_loop (fuel : nat) (deadline : Z) : M json :=
  match fuel with
  | O => fun _ => None
  | S fuel' =>
      now <- monotonic ;;
      let remaining := deadline - now in
      if remaining <=? 0 then raise (MCPError TimedOutWaitingForMessage)
      else
        ready <- select (Z.min 200 remaining) ;;
        if negb ready then read_loop fuel' deadline
        else
          line <- readline ;;
          if String.eqb line "" then
            c <- get_self ;;
            raise (MCPError (ServerExited (poll (process c))))
          else
            let line := strip line in
            if String.eqb line "" then read_loop fuel' deadline
            else
              match json_loads line with
              | None =>
                  (c <- get_self ;;
                   when (verbose c)
                        (print ("[mcp-stdout] Non-JSON line ignored: " ++ line))) ;;;
                  read_loop fuel' deadline
              | Some message =>
                  (c <- get_self ;;
                   if verbose c then
                     has_id <- lift (py_contains "id" message) ;;
                     when (negb has_id) (print ("[mcp-notify] " ++ line))
                   else ret tt) ;;;
                  ret message
              end
  end.

(** The [while True] loop of [_read_message], run until it leaves. *)
Definition read_until (deadline : Z) : M json := fun s =>
  read_loop (S (List.length (clock s))) deadline s.

(** [MCPClient._read_message]. *)
Definition _read_message (timeout : Z) : M json :=
  c <- get_self ;;
  match stdout (process c) with
  | None => raise (MCPError StdoutUnavailable)
  | Some _ =>
      now <- monotonic ;;
      read_until (now + timeout)
  end.

Fixpoint request_loop (fuel : nat) (request_id : Z) (method : string)
  (started limit : Z) : M json :=
  match fuel with
  | O => fun _ => None
  | S fuel' =>
      now <- monotonic ;;
      let elapsed := now - started in
      let remaining := limit - elapsed in
      if remaining <=? 0 then raise (MCPError (TimedOutWaitingFor method))
      else
        msg <- _read_message remaining ;;
        id <- lift (dict_get msg "id" JNull) ;;
        if py_eq_int id request_id then ret msg
        else request_loop fuel' request_id method started limit
  end.

(** The [while True] loop of [request], run until it leaves. *)
Definition await_response (request_id : Z) (method : string)
  (started limit : Z) : M json := fun s =>
  request_loop (S (List.length (clock s))) request_id method started limit s.

(** [params or {}]. *)
Definition or_empty (params : json) : json :=
  if truthy params then params else JObj [].

Definition request_payload (request_id : Z) (method : string) (params : json)
  : json :=
  JObj [("jsonrpc", JStr "2.0"); ("id", JInt request_id);
        ("method", JStr method); ("params", or_empty params)].

Definition notify_payload (method : string) (params : json) : json :=
  JObj [("jsonrpc", JStr "2.0"); ("method", JStr method);
        ("params", or_empty params)].

(** [MCPClient.request]; [params] and [timeout] default to [None]. *)
Definition request (method : string) (params : json) (timeout : option Z)
  : M json :=
  c <- get_self ;;
  let request_id := _next_id c in
  put_self (with_next_id c (request_id + 1)) ;;;
  _send (request_payload request_id method params) ;;;
  started <- monotonic ;;
  c <- get_self ;;
  let limit := match timeout with Some t => t | None => request_timeout c end in
  await_response request_id method started limit.

(** [MCPClient.notify]. *)
Definition notify (method : string) (params : json) : M unit :=
  _send (notify_payload method params).

Fixpoint text_parts_of (parts : list json) : result (list json) :=
  match parts with
  | [] => Ok []
  | part :: rest =>
      ty <-- dict_get part "type" JNull ;;
      if py_eq_str ty "text" then
        t <-- dict_get part "text" (JStr "") ;;
        ts <-- text_parts_of rest ;;
        Ok (t :: ts)
      else text_parts_of rest
  end.

(** [MCPClient.text_from_content]. *)
Definition text_from_content (content : json) : result string :=
  parts <-- py_iter content ;;
  text_parts <-- text_parts_of parts ;;
  py_join nl (filter truthy text_parts).

(** [MCPClient.call_tool]. *)
Definition call_tool (name : string) (arguments : json) (timeout : option Z)
  : M json :=
  response <- request "tools/call"
                (JObj [("name", JStr name); ("arguments", arguments)]) timeout ;;
  has_error <- lift (py_contains "error" response) ;;
  if has_error then
    err <- lift (dict_get response "error" JNull) ;;
    raise (MCPError (ToolsCallFailed name err))
  else
    result <- lift (dict_get response "result" (JObj [])) ;;
    is_error <- lift (dict_get result "isError" (JBool false)) ;;
    if truthy is_error then
      content <- lift (dict_get result "content" (JArr [])) ;;
      text <- lift (text_from_content content) ;;
      raise (MCPError (ToolReturnedError name text))
    else lift (dict_get result "content" (JArr [])).

(** [MCPClient.stop]; the grace period of [wait] is 5 seconds. *)
Definition stop : M unit :=
  c <- get_self ;;
  match poll (process c) with
  | None =>
      put_process (terminate (process c)) ;;;
      c <- get_self ;;
      let (exited, p) := wait (process c) in
      put_process p ;;;
      if exited then ret tt
      else
        c <- get_self ;;
        put_process (kill (process c))
  | Some _ => ret tt
  end.

(** [MCPClient.stderr_tail]. *)
Definition stderr_tail (c : MCPClient) : string :=
  join nl (items (_stderr_lines c)).

End Client.

End SmokeTest.

(** ** [tools/mcp_phone_playability.py] *)

Module PhonePlayability.

(** [b"\x89PNG\r\n\x1a\n"]. *)
Definition PNG_SIGNATURE : list byte :=
  [x89; x50; x4e; x47; x0d; x0a; x1a; x0a].

Fixpoint bytes_eqb (a b : list byte) : bool :=
  match a, b with
  | [], [] => true
  | x :: a', y :: b' => Byte.eqb x y && bytes_eqb a' b'
  | _, _ => false
  end.

(** [raw[lo:hi]] for [0 <= lo <= hi]. *)
Definition slice (lo hi : nat) (raw : list byte) : list byte :=
  firstn (hi - lo) (skipn lo raw).

(** The unsigned integer a byte string spells, most significant byte
    first. *)
Definition be_uint (bs : list byte) : Z :=
  fold_left (fun acc b => acc * 256 + Z.of_N (Byte.to_N b)) bs 0.

(** [struct.unpack(">II", bs)]. *)
Definition unpack_II (bs : list byte) : result (Z * Z) :=
  if (List.length bs =? 8)%nat
  then Ok (be_uint (firstn 4 bs), be_uint (skipn 4 bs))
  else Raise StructError.

Section Png.

Context {b64 : Base64Lib}.

(** [base64.b64decode(v)]. *)
Definition py_b64decode (v : json) : result (list byte) :=
  match v with
  | JStr s =>
      match b64decode s with
      | Some raw => Ok raw
      | None => Raise ValueError
      end
  | _ => Raise TypeError
  end.

(** The [for] loop: the first part whose type is ["image"]. *)
Fixpoint find_image (parts : list json) : result (option json) :=
  match parts with
  | [] => Ok None
  | part :: rest =>
      ty <-- dict_get part "type" JNull ;;
      if py_eq_str ty "image" then Ok (Some part) else find_image rest
  end.

Definition parse_png_size_from_image_content (content : json)
  : result (Z * Z) :=
  parts <-- py_iter content ;;
  found <-- find_image parts ;;
  match found with
  | None => Raise (MCPError NoImageContent)
  | Some image_part =>
      data_b64 <-- dict_get image_part "data" (JStr "") ;;
      if negb (truthy data_b64) then Raise (MCPError MissingPayload)
      else
        raw <-- py_b64decode data_b64 ;;
        if (List.length raw <? 24)%nat
           || negb (bytes_eqb (slice 0 8 raw) PNG_SIGNATURE)
        then Raise (MCPError InvalidPng)
        else
          wh <-- unpack_II (slice 16 24 raw) ;;
          Ok wh
  end.

End Png.

End PhonePlayability.

(** ** Reference libraries

    Executable stand-ins for the library interfaces, used to run the client
    on concrete inputs: a base64 decoder after [binascii.a2b_base64] in its
    default mode, a compact JSON printer, and a reader that inverts the
    printer on a given list of values. *)

Module Reference.

Definition b64_value (c : ascii) : option N :=
  let n := N_of_ascii c in
  (if (65 <=? n) && (n <=? 90) then Some (n - 65)
   else if (97 <=? n) && (n <=? 122) then Some (n - 71)
   else if (48 <=? n) && (n <=? 57) then Some (n + 4)
   else if n =? 43 then Some 62
   else if n =? 47 then Some 63
   else None)%N.

Definition byte_of_N (n : N) : byte :=
  match Byte.of_N (n mod 256) with
  | Some b => b
  | None => x00
  end.

(** [quad_pos] counts the digits of the current group of four, [leftchar]
    holds the bits not yet written, [pads] the padding characters seen since
    the last digit. Characters outside the alphabet are skipped. *)
Fixpoint a2b_loop (cs : list ascii) (quad_pos : nat) (leftchar : N)
  (pads : nat) (out : list byte) : option (list byte) :=
  match cs with
  | [] => if (quad_pos =? 0)%nat then Some out else None
  | c :: rest =>
      if Ascii.eqb c "=" then
        if (2 <=? quad_pos)%nat then
          if (4 <=? quad_pos + S pads)%nat then Some out
          else a2b_loop rest quad_pos leftchar (S pads) out
        else a2b_loop rest quad_pos leftchar pads out
      else
        match b64_value c with
        | None => a2b_loop rest quad_pos leftchar pads out
        | Some v =>
            match quad_pos with
            | 0%nat => a2b_loop rest 1 v 0 out
            | 1%nat =>
                a2b_loop rest 2 (N.land v 15) 0
                  (out ++ [byte_of_N (N.lor (N.shiftl leftchar 2) (N.shiftr v 4))])
            | 2%nat =>
                a2b_loop rest 3 (N.land v 3) 0
                  (out ++ [byte_of_N (N.lor (N.shiftl leftchar 4) (N.shiftr v 2))])
            | _ =>
                a2b_loop rest 0 0%N 0
                  (out ++ [byte_of_N (N.lor (N.shiftl leftchar 6) v)])
            end
        end
  end.

Definition a2b_base64 (s : string) : option (list byte) :=
  let cs := list_ascii_of_string s in
  if forallb (fun c => (N_of_ascii c <? 128)%N) cs
  then a2b_loop cs 0 0%N 0 []
  else None.

#[export] Instance base64 : Base64Lib := {| b64decode := a2b_base64 |}.

Definition quote : string := String (ascii_of_nat 34) EmptyString.

Definition dumps_float (f : spec_float) : string :=
  match f with
  | S754_zero false => "0.0"
  | S754_zero true => "-0.0"
  | S754_infinity false => "Infinity"
  | S754_infinity true => "-Infinity"
  | S754_nan => "NaN"
  | S754_finite s m e =>
      (if s then "-" else "") ++ NilZero.string_of_uint (Pos.to_uint m)
      ++ "p" ++ NilZero.string_of_int (Z.to_int e)
  end.

Fixpoint dumps (v : json) : string :=
  match v with
  | JNull => "null"
  | JBool true => "true"
  | JBool false => "false"
  | JInt n => NilZero.string_of_int (Z.to_int n)
  | JFloat f => dumps_float f
  | JStr s => quote ++ s ++ quote
  | JArr items => "[" ++ join ", " (map dumps items) ++ "]"
  | JObj fields =>
      "{" ++ join ", " (map (fun kv : string * json => let (k, x) := kv in
                                       quote ++ k ++ quote ++ ": " ++ dumps x)
                            fields) ++ "}"
  end.

(** The first of [known] that prints as [s]. *)
Definition loads (known : list json) (s : string) : option json :=
  find (fun v => String.eqb (dumps v) s) known.

Definition codec (known : list json) : JsonLib :=
  {| json_loads := loads known; json_dumps := dumps |}.

End Reference.

(** ** Vocabulary of the specification

    The data model of the specification (typed content parts), its wording
    of [textOf], and the drivers that run a list of calls on a session. *)

Module Spec.

Import SmokeTest.

(** A content part of a tool result. *)
Inductive content_part : Type :=
| TextPart (text : string)
| ImagePart (data : string) (mime : string).

(** The dict a content part arrives as. *)
Definition part_json (p : content_part) : json :=
  match p with
  | TextPart text => JObj [("type", JStr "text"); ("text", JStr text)]
  | ImagePart data mime =>
      JObj [("type", JStr "image"); ("data", JStr data); ("mimeType", JStr mime)]
  end.

(** The texts of the text parts, in order. *)
Fixpoint texts (parts : list content_part) : list string :=
  match parts with
  | [] => []
  | TextPart text :: rest => text :: texts rest
  | ImagePart _ _ :: rest => texts rest
  end.

(** [textOf] in the words of the specification: all text parts, joined
    with newline separators. *)
Definition textOf_spec (parts : list content_part) : string :=
  join nl (texts parts).

Definition nonempty (s : string) : bool := negb (String.eqb s "").

(** A part is a dict; its [type] member is [ty]. *)
Definition is_dict (part : json) : Prop := exists fields, part = JObj fields.

Definition has_type (ty : string) (part : json) : bool :=
  match part with
  | JObj fields =>
      match assoc "type" fields with
      | Some v => py_eq_str v ty
      | None => false
      end
  | _ => false
  end.

(** [JObj fields] is the first image part of a list of parts. *)
Definition first_image (parts : list json) (fields : list (string * json))
  : Prop :=
  exists before after,
    parts = (before ++ JObj fields :: after)%list
    /\ Forall is_dict before
    /\ Forall (fun p => has_type "image" p = false) before
    /\ has_type "image" (JObj fields) = true.

(** The last [n] items of a list. *)
Definition lastn {A} (n : nat) (l : list A) : list A :=
  skipn (List.length l - n) l.

(** The part of a session that reading the response stream leaves alone:
    every field of the client and of its process but [stdout]. *)
Definition core (s : session)
  : string * Z * bool * Z * deque string * option pipe * list string * proc_status :=
  let c := self s in
  let p := process c in
  (server_cmd c, request_timeout c, verbose c, _next_id c, _stderr_lines c,
   stdin p, stderr p, status p).

(** Everything in a session but the command stream. *)
Definition unwritten (s : session)
  : string * Z * bool * Z * deque string * option (list out_event)
    * list string * proc_status * list Z * list string :=
  let c := self s in
  let p := process c in
  (server_cmd c, request_timeout c, verbose c, _next_id c, _stderr_lines c,
   stdout p, stderr p, status p, clock s, console s).

(** The events still to come on the response stream. *)
Definition events (s : session) : list out_event :=
  match stdout (process (self s)) with
  | Some evs => evs
  | None => []
  end.

(** The session after [lines] more were written to an open command
    stream; nothing else differs. *)
Definition after_writing (s : session) (written lines : list string) : session :=
  with_self s (with_process (self s)
                 (with_stdin (process (self s))
                             (Some (PipeOpen (written ++ lines)%list)))).

(** The session with [evs] left on the response stream. *)
Definition with_events (s : session) (evs : list out_event) : session :=
  with_self s (with_process (self s) (with_stdout (process (self s)) (Some evs))).

(** The session after the read loop has spent one clock reading on a
    line it does not return: [ticks] and [evs] are what is left of the clock
    and of the response stream; in verbose mode a line that is not blank is
    reported on the console. *)
Definition after_discarding (s : session) (line : string) (ticks : list Z)
  (evs : list out_event) : session :=
  let s' := with_events (with_clock s ticks) evs in
  if verbose (self s) && nonempty (strip line)
  then with_console s' (console s
         ++ [("[mcp-stdout] Non-JSON line ignored: " ++ strip line)%string])%list
  else s'.

Section Drivers.

Context {lib : JsonLib}.

(** One [notify] per entry of [calls], in order. *)
Fixpoint notify_each (calls : list (string * json)) : M unit :=
  match calls with
  | [] => ret tt
  | (method, params) :: rest => notify method params ;;; notify_each rest
  end.

(** The lines [notify_each calls] writes. *)
Definition notify_lines (calls : list (string * json)) : list string :=
  map (fun call : string * json =>
         (json_dumps (notify_payload (fst call) (snd call)) ++ nl)%string) calls.

(** [try: r = client.request(...) except Exception as e: r = e]. *)
Definition try_request (method : string) (params : json) (timeout : option Z)
  : M (result json) := fun s =>
  match request method params timeout s with
  | Some (r, s') => Some (Ok r, s')
  | None => None
  end.

(** One [request] per entry of [calls], in order, whatever the outcome of
    the earlier ones; each outcome is logged with the value [_next_id] had
    when the call was made, which is the id [request] takes. *)
Fixpoint request_each (calls : list (string * json * option Z))
  : M (list (Z * result json)) :=
  match calls with
  | [] => ret []
  | (method, params, timeout) :: rest =>
      c <- get_self ;;
      r <- try_request method params timeout ;;
      log <- request_each rest ;;
      ret ((_next_id c, r) :: log)
  end.

(** The lines [request_each calls] writes when the first id is [n]. *)
Fixpoint request_lines (n : Z) (calls : list (string * json * option Z))
  : list string :=
  match calls with
  | [] => []
  | (method, params, _) :: rest =>
      (json_dumps (request_payload n method params) ++ nl)%string
      :: request_lines (n + 1) rest
  end.

(** [n], [n + 1], ..., [k] of them. *)
Fixpoint ids_from (n : Z) (k : nat) : list Z :=
  match k with
  | O => []
  | S k' => n :: ids_from (n + 1) k'
  end.

End Drivers.

(** The four bytes of an unsigned 32-bit integer, most significant first. *)
Definition byte_of_Z (z : Z) : byte :=
  match Byte.of_N (Z.to_N (z mod 256)) with
  | Some b => b
  | None => x00
  end.

Definition uint32_be (n : Z) : list byte :=
  [byte_of_Z (n / 16777216); byte_of_Z (n / 65536); byte_of_Z (n / 256);
   byte_of_Z n].

End Spec.

(** ** Concrete inputs *)

Module Examples.

Import SmokeTest Spec.

(** The first 24 bytes of a 640 x 360 PNG file, in base64. *)
Definition png_640x360 : string := "iVBORw0KGgoAAAANSUhEUgAAAoAAAAFo".

(** A server whose diagnostic stream holds two lines. *)
Definition idle_process : Popen :=
  mkPopen (Some (PipeOpen [])) (Some [])
          [("warn: a" ++ nl)%string; ("warn: b" ++ nl)%string]
          (Running (Some 0)).

Definition idle_session : session :=
  mkSession (init "godot-mcp" 20000 false idle_process) [] [].

(** Messages of a server. *)
Definition stray_response : json :=
  JObj [("jsonrpc", JStr "2.0"); ("id", JInt 7); ("result", JObj [])].

Definition matching_response : json :=
  JObj [("jsonrpc", JStr "2.0"); ("id", JInt 1); ("result", JObj [])].

Definition tool_error_response : json :=
  JObj [("jsonrpc", JStr "2.0"); ("id", JInt 1);
        ("result", JObj [("content", JArr [JObj [("type", JStr "text");
                                                  ("text", JStr "node not found")]]);
                         ("isError", JBool true)])].

Definition second_response : json :=
  JObj [("jsonrpc", JStr "2.0"); ("id", JInt 2); ("result", JObj [("tools", JArr [])])].

#[export] Instance example_codec : JsonLib :=
  Reference.codec [stray_response; matching_response; second_response;
                   tool_error_response].

Definition line_of (v : json) : string := (Reference.dumps v ++ nl)%string.

Definition serving (evs : list out_event) : Popen :=
  mkPopen (Some (PipeOpen [])) (Some evs) [] (Running (Some 0)).

Definition session_on (evs : list out_event) (ticks : list Z) : session :=
  mkSession (init "godot-mcp" 20000 false (serving evs)) ticks [].

(** A response to id 7 arrives before the response to id 1. *)
Definition stray_session : session :=
  session_on [Ready (line_of stray_response); Ready (line_of matching_response)]
             [0; 10; 20; 30; 40; 50; 60; 70].

(** The response to id 1 is there, and nothing else. *)
Definition prompt_session : session :=
  session_on [Ready (line_of matching_response)] [0; 10; 20; 30].

(** The responses to ids 1 and 2 arrive in turn. *)
Definition two_call_session : session :=
  session_on [Ready (line_of matching_response); Ready (line_of second_response)]
             [0; 10; 20; 30; 40; 50; 60; 70].

Definition two_calls : list (string * json * option Z) :=
  [("initialize", JObj [("capabilities", JObj [])], Some 45000);
   ("tools/list", JObj [], None)].

(** A log line and a blank line arrive before the response to id 1. *)
Definition noisy_session : session :=
  session_on [Ready ("Godot Engine v4.3" ++ nl)%string; Ready nl;
              Ready (line_of matching_response)]
             [0; 10; 20; 30; 40; 50].

(** The tool answers with its error flag set. *)
Definition tool_error_session : session :=
  session_on [Ready (line_of tool_error_response)] [0; 10; 20; 30].

(** The server is gone. *)
Definition exited_session : session :=
  mkSession (init "godot-mcp" 20000 false
               (mkPopen (Some PipeBroken) (Some [Ready ""]) [] (Exited 1)))
            [] [].

(** The server ignores the terminate signal. *)
Definition stubborn_session : session :=
  mkSession (init "godot-mcp" 20000 false
               (mkPopen (Some (PipeOpen [])) (Some []) [] (Running None)))
            [] [].

(** The 8 bytes of the PNG signature alone, in base64. *)
Definition png_signature_only : string := "iVBORw0KGgo=".

(** 24 bytes that do not start with the PNG signature, in base64. *)
Definition not_a_png : string := "AAAAAAAAAAAAAAAAAAAAAAAAAAAAAAAA".

Definition text_part (text : string) : list (string * json) :=
  [("type", JStr "text"); ("text", JStr text)].

Definition image_part (data : string) : list (string * json) :=
  [("type", JStr "image"); ("data", JStr data); ("mimeType", JStr "image/png")].

Definition image_part_without_data : list (string * json) :=
  [("type", JStr "image"); ("mimeType", JStr "image/png")].

End Examples.

(** ** The rest of the harness

    The remaining methods of [MCPClient] ([parse_json_text], [initialize],
    [list_tools]) and the log helpers of [tools/mcp_smoke_test.py], and the
    snapshot readers of [BalanceRunner] in [tools/mcp_ai_balance_pass.py].
    [str(v)] is one more library parameter; all that is used of it is that
    the [str] of a string is the string itself. *)

Class StrLib : Type := {
  py_str : json -> string;
  py_str_str : forall s, py_str (JStr s) = s
}.

(** [int(s)] for a string: [None] where Python raises [ValueError]. *)
Class IntLib : Type := {
  int_of_str : string -> option Z
}.

Module Harness.

Import SmokeTest.

(** [str(n)] for an [int]. *)
Definition decimal (n : Z) : string := NilZero.string_of_int (Z.to_int n).

(** [isinstance(v, dict)]. *)
Definition is_dictb (v : json) : bool :=
  match v with
  | JObj _ => true
  | _ => false
  end.

(** [l[:stop]]: a negative [stop] counts from the end. *)
Definition slice_to {A} (stop : Z) (l : list A) : list A :=
  if 0 <=? stop then firstn (Z.to_nat stop) l
  else firstn (List.length l - Z.to_nat (- stop)) l.

(** [s.replace("\n", " ")]. *)
Fixpoint replace_nl (s : string) : string :=
  match s with
  | EmptyString => EmptyString
  | String c rest =>
      String (if Ascii.eqb c nl_char then " "%char else c) (replace_nl rest)
  end.

Section Logs.

Context {lib : JsonLib} {strlib : StrLib}.

(** [parse_log_messages]. *)
Definition parse_log_messages (text : string) : list json :=
  let stripped := strip text in
  if String.eqb stripped "" || String.eqb stripped "No log messages" then []
  else
    match json_loads stripped with
    | None => [JObj [("message", JStr stripped)]]
    | Some (JObj fields) =>
        match (match assoc "messages" fields with
               | Some v => v
               | None => JArr []
               end) with
        | JArr messages => filter is_dictb messages
        | _ => []
        end
    | Some (JArr items) => filter is_dictb items
    | Some _ => []
    end.

(** The body of the [for] loop of [summarize_errors]: the snippet of one
    message. *)
Definition snippet_of (msg : json) : result string :=
  message <-- dict_get msg "message" (JStr "") ;;
  let text := replace_nl (strip (py_str message)) in
  file <-- dict_get msg "file" (JStr "") ;;
  let file_name := py_str file in
  line <-- dict_get msg "line" (JInt 0) ;;
  if negb (String.eqb file_name "")
  then Ok (file_name ++ ":" ++ py_str line ++ " " ++ text)
  else Ok text.

Fixpoint snippets_of (msgs : list json) : result (list string) :=
  match msgs with
  | [] => Ok []
  | msg :: rest =>
      snippet <-- snippet_of msg ;;
      snippets <-- snippets_of rest ;;
      Ok (snippet :: snippets)
  end.

(** [summarize_errors]; [limit] defaults to 3. *)
Definition summarize_errors (messages : list json) (limit : Z) : result string :=
  match messages with
  | [] => Ok "none"
  | _ =>
      snippets <-- snippets_of (slice_to limit messages) ;;
      Ok (join " | "
            (if limit <? Z.of_nat (List.length messages)
             then (snippets
                   ++ [("... +" ++ decimal (Z.of_nat (List.length messages) - limit)
                        ++ " more")%string])%list
             else snippets))
  end.

End Logs.

(** *** Failures of the harness

    The remaining raise sites of [MCPError], and what a harness function
    ends with: a value, or an exception of the client or of the harness. *)

Inductive harness_error : Type :=
| ExpectedJsonText (prefix : string)   (* "Expected JSON text but got: ..." *)
| InitializeFailed (err : json)        (* "initialize failed: ..." *)
| ToolsListFailed (err : json)         (* "tools/list failed: ..." *)
| MainSnapshotFailed.                  (* "failed to read main snapshot" *)

Inductive thrown : Type :=
| Thrown (e : exn)
| ThrownMCPError (e : harness_error)
| ThrownOverflowError.

Inductive outcome (A : Type) : Type :=
| Returned (a : A)
| Failed (e : thrown).

Arguments Returned {A} a.
Arguments Failed {A} e.

Definition H (A : Type) : Type := session -> option (outcome A * session).

Definition hret {A} (a : A) : H A := fun s => Some (Returned a, s).
Definition hraise {A} (e : thrown) : H A := fun s => Some (Failed e, s).
Definition hbind {A B} (m : H A) (k : A -> H B) : H B := fun s =>
  match m s with
  | Some (Returned a, s') => k a s'
  | Some (Failed e, s') => Some (Failed e, s')
  | None => None
  end.

(** A computation of the client, run inside the harness. *)
Definition of_client {A} (m : M A) : H A := fun s =>
  match m s with
  | Some (Ok a, s') => Some (Returned a, s')
  | Some (Raise e, s') => Some (Failed (Thrown e), s')
  | None => None
  end.

Notation "x <~ m ;; k" := (hbind m (fun x => k))
  (at level 61, m at next level, right associativity).

Section Calls.

Context {lib : JsonLib}.

(** [MCPClient.parse_json_text]; [text[:160]] goes into the message. *)
Definition parse_json_text (text : string) : outcome json :=
  match json_loads text with
  | Some v => Returned v
  | None => Failed (ThrownMCPError (ExpectedJsonText (substring 0 160 text)))
  end.

Definition PROTOCOL_VERSION : string := "2024-11-05".

Definition initialize_params : json :=
  JObj [("protocolVersion", JStr PROTOCOL_VERSION);
        ("capabilities", JObj []);
        ("clientInfo", JObj [("name", JStr "aoem-mcp-smoke");
                             ("version", JStr "1.0")])].

(** [MCPClient.initialize]; 45 seconds are 45000 milliseconds. *)
Definition initialize : H unit :=
  c <~ of_client get_self ;;
  response <~ of_client (request "initialize" initialize_params
                           (Some (Z.max 45000 (request_timeout c)))) ;;
  has_error <~ of_client (lift (py_contains "error" response)) ;;
  if has_error then
    err <~ of_client (lift (dict_get response "error" JNull)) ;;
    hraise (ThrownMCPError (InitializeFailed err))
  else of_client (notify "notifications/initialized" (JObj [])).

(** [MCPClient.list_tools]. *)
Definition list_tools : H json :=
  response <~ of_client (request "tools/list" (JObj []) None) ;;
  has_error <~ of_client (lift (py_contains "error" response)) ;;
  if has_error then
    err <~ of_client (lift (dict_get response "error" JNull)) ;;
    hraise (ThrownMCPError (ToolsListFailed err))
  else
    result <~ of_client (lift (dict_get response "result" (JObj []))) ;;
    of_client (lift (dict_get result "tools" (JArr []))).

(** [BalanceRunner._tool_text], and [tool_text] of the [main] functions. *)
Definition _tool_text (name : string) (arguments : json) (timeout : option Z)
  : H string :=
  content <~ of_client (call_tool name arguments timeout) ;;
  of_client (lift (text_from_content content)).

(** [BalanceRunner._get_main_snapshot]. *)
Definition _get_main_snapshot : H json :=
  text <~ _tool_text "node" (JObj [("action", JStr "get_properties");
                                   ("node_path", JStr "/root/Main")]) None ;;
  fun s => Some (parse_json_text text, s).

(** [time.sleep(seconds)]: a negative length is a [ValueError]; the time
    spent shows in the clock readings that follow. *)
Definition sleep (seconds : Z) : H unit :=
  if seconds <? 0 then hraise (Thrown ValueError) else hret tt.

(** The [for] loop of [_get_main_snapshot_with_retry] with [n] turns left,
    and what follows it. *)
Fixpoint retry_loop (n : nat) (delay_s : Z) (last_error : option thrown)
  : H json :=
  match n with
  | O =>
      match last_error with
      | Some e => hraise e
      | None => hraise (ThrownMCPError MainSnapshotFailed)
      end
  | S n' => fun s =>
      match _get_main_snapshot s with
      | None => None
      | Some (Returned snapshot, s') => Some (Returned snapshot, s')
      | Some (Failed e, s') =>
          (_ <~ sleep delay_s ;; retry_loop n' delay_s (Some e)) s'
      end
  end.

(** [BalanceRunner._get_main_snapshot_with_retry]; [attempts] defaults to 5
    and [delay_s] to one second. *)
Definition _get_main_snapshot_with_retry (attempts : Z) (delay_s : Z) : H json :=
  retry_loop (Z.to_nat attempts) delay_s None.

End Calls.

(** *** [BalanceRunner._estimate_stall_seconds] *)

(** Addition of two Python floats (IEEE 754 binary64). *)
Definition float_add (x y : spec_float) : spec_float := SFadd 53 1024 x y.

(** [0.0]. *)
Definition float_zero : spec_float := S754_zero false.

(** [int(f)] for a float: the integer part, towards zero. *)
Definition int_of_float (f : spec_float) : outcome Z :=
  match f with
  | S754_zero _ => Returned 0
  | S754_finite s m e =>
      let magnitude :=
        if 0 <=? e then Z.pos m * 2 ^ e else Z.pos m / 2 ^ (- e) in
      Returned (if s then - magnitude else magnitude)
  | S754_infinity _ => Failed ThrownOverflowError
  | S754_nan => Failed (Thrown ValueError)
  end.

Definition obind {A B} (o : outcome A) (k : A -> outcome B) : outcome B :=
  match o with
  | Returned a => k a
  | Failed e => Failed e
  end.

Notation "x <~~ o ;; k" := (obind o (fun x => k))
  (at level 61, o at next level, right associativity).

Definition of_result {A} (r : result A) : outcome A :=
  match r with
  | Ok a => Returned a
  | Raise e => Failed (Thrown e)
  end.

Section Stall.

Context {ints : IntLib}.

(** [int(v)]. *)
Definition py_int (v : json) : outcome Z :=
  match v with
  | JInt n => Returned n
  | JBool b => Returned (if b then 1 else 0)
  | JFloat f => int_of_float f
  | JStr s =>
      match int_of_str s with
      | Some n => Returned n
      | None => Failed (Thrown ValueError)
      end
  | _ => Failed (Thrown TypeError)
  end.

(** The tuple [key] of one snapshot: age, villagers, military, buildings. *)
Definition snapshot_key (snap : json) : outcome (Z * Z * Z * Z) :=
  age <~~ (v <~~ of_result (dict_get snap "balance_ai_age" (JInt 1)) ;; py_int v) ;;
  villagers <~~ (v <~~ of_result (dict_get snap "balance_ai_villagers" (JInt 0)) ;;
                 py_int v) ;;
  military <~~ (v <~~ of_result (dict_get snap "balance_ai_military" (JInt 0)) ;;
                py_int v) ;;
  buildings <~~ (v <~~ of_result (dict_get snap "balance_ai_buildings" (JInt 0)) ;;
                 py_int v) ;;
  Returned (age, villagers, military, buildings).

Definition key_eqb (a b : Z * Z * Z * Z) : bool :=
  match a, b with
  | (a1, a2, a3, a4), (b1, b2, b3, b4) =>
      (a1 =? b1) && (a2 =? b2) && (a3 =? b3) && (a4 =? b4)
  end.

(** [key[0]]. *)
Definition key_age (k : Z * Z * Z * Z) : Z := fst (fst (fst k)).

(** The [for] loop over the snapshots. *)
Fixpoint stall_loop (snaps : list json) (previous_key : option (Z * Z * Z * Z))
  (stall sample_seconds : spec_float) : outcome spec_float :=
  match snaps with
  | [] => Returned stall
  | snap :: rest =>
      key <~~ snapshot_key snap ;;
      let stalled :=
        match previous_key with
        | Some previous => key_eqb key previous && (key_age key <? 3)
        | None => false
        end in
      stall_loop rest (Some key)
                 (if stalled then float_add stall sample_seconds else stall)
                 sample_seconds
  end.

Definition _estimate_stall_seconds (snapshots : list json)
  (sample_seconds : spec_float) : outcome spec_float :=
  if (List.length snapshots <? 2)%nat then Returned float_zero
  else stall_loop snapshots None float_zero sample_seconds.

End Stall.

End Harness.

(** ** More vocabulary *)

Module Observe.

Import SmokeTest Spec.

(** [isinstance(v, str)]. *)
Definition is_strb (v : json) : bool :=
  match v with
  | JStr _ => true
  | _ => false
  end.

(** [part.get("text", "")] of a dict. *)
Definition text_member (part : json) : json :=
  match part with
  | JObj fields =>
      match assoc "text" fields with
      | Some v => v
      | None => JStr ""
      end
  | _ => JNull
  end.

(** [sample] added [n] times to [0.0], one addition after the other. *)
Fixpoint float_times (n : nat) (sample : spec_float) : spec_float :=
  match n with
  | O => Harness.float_zero
  | S n' => Harness.float_add (float_times n' sample) sample
  end.

(** How many keys of a run repeat the key before them while the age is
    below 3. *)
Fixpoint stalled_samples (previous : option (Z * Z * Z * Z))
  (keys : list (Z * Z * Z * Z)) : nat :=
  match keys with
  | [] => 0
  | key :: rest =>
      let repeats :=
        match previous with
        | Some p => Harness.key_eqb key p && (Harness.key_age key <? 3)
        | None => false
        end in
      ((if repeats then 1 else 0) + stalled_samples (Some key) rest)%nat
  end.

(** A text part whose text is kept by the filter of [text_from_content]
    and is not a string. *)
Definition unjoinable (part : json) : bool :=
  has_type "text" part && truthy (text_member part)
  && negb (is_strb (text_member part)).

End Observe.

(** ** More concrete inputs *)

Module HarnessExamples.

Import SmokeTest Spec Harness.

(** [str(v)] for the examples: exact on strings, integers, booleans and
    [None]; the reference printer stands in for the rest. *)
Definition str_of (v : json) : string :=
  match v with
  | JStr s => s
  | JInt n => decimal n
  | JBool true => "True"
  | JBool false => "False"
  | JNull => "None"
  | _ => Reference.dumps v
  end.

#[export] Instance example_str : StrLib :=
  {| py_str := str_of; py_str_str := fun s => eq_refl |}.

(** [int(s)] for the examples: an optional minus sign and decimal digits. *)
Fixpoint digits_value (acc : Z) (s : string) : option Z :=
  match s with
  | EmptyString => Some acc
  | String c rest =>
      let n := Z.of_nat (nat_of_ascii c) in
      if (48 <=? n) && (n <=? 57) then digits_value (acc * 10 + (n - 48)) rest
      else None
  end.

Definition int_of (s : string) : option Z :=
  match s with
  | EmptyString => None
  | String "-" EmptyString => None
  | String "-" rest => option_map Z.opp (digits_value 0 rest)
  | _ => digits_value 0 s
  end.

#[export] Instance example_int : IntLib := {| int_of_str := int_of |}.

(** A log of two messages and a stray number. *)
Definition log_payload : json :=
  JArr [JObj [("message", JStr "Division by zero"); ("file", JStr "res://unit.gd");
              ("line", JInt 42)];
        JInt 7;
        JObj [("message", JStr "Null instance")]].

(** The snapshot of the main node, and the text that carries it. *)
Definition main_snapshot : json :=
  JObj [("balance_ai_age", JInt 1); ("balance_ai_villagers", JInt 6)].

Definition text_content (text : string) : json :=
  JArr [JObj [("type", JStr "text"); ("text", JStr text)]].

Definition tool_response (id : Z) (result : json) : json :=
  JObj [("jsonrpc", JStr "2.0"); ("id", JInt id); ("result", result)].

Definition error_response (id : Z) : json :=
  JObj [("jsonrpc", JStr "2.0"); ("id", JInt id);
        ("error", JObj [("code", JInt (-32601)); ("message", JStr "no such method")])].

Definition snapshot_response (id : Z) : json :=
  tool_response id (JObj [("content", text_content (Reference.dumps main_snapshot))]).

Definition failed_tool_response (id : Z) : json :=
  tool_response id (JObj [("content", text_content "node not found");
                          ("isError", JBool true)]).

Definition tools_response : json :=
  tool_response 1 (JObj [("tools", JArr [JObj [("name", JStr "editor")]])]).

Definition harness_codec : JsonLib :=
  Reference.codec [log_payload; main_snapshot; error_response 1;
                   snapshot_response 1; snapshot_response 2;
                   failed_tool_response 1; tools_response;
                   Examples.matching_response].

Definition line_of (v : json) : string := (Reference.dumps v ++ nl)%string.

Definition session_on (evs : list out_event) (ticks : list Z) : session :=
  mkSession (init "godot-mcp" 20000 false
               (mkPopen (Some (PipeOpen [])) (Some evs) [] (Running (Some 0))))
            ticks [].

(** The server says nothing while ten seconds pass between readings. *)
Definition silent_session : session :=
  session_on [NotReady; NotReady] [0; 10; 20; 10000; 20000; 30000].

(** The first snapshot request fails at the tool, the second succeeds. *)
Definition retry_session : session :=
  session_on [Ready (line_of (failed_tool_response 1));
              Ready (line_of (snapshot_response 2))]
             [0; 10; 20; 30; 40; 50; 60; 70].

(** Three samples of one village that does not grow, and then grows. *)
Definition stalled_snapshots : list json :=
  [main_snapshot; main_snapshot; main_snapshot;
   JObj [("balance_ai_age", JInt 1); ("balance_ai_villagers", JInt 7)]].

(** Half a second, as a float. *)
Definition half_second : spec_float := S754_finite false 4503599627370496 (-53).

End HarnessExamples.

(** ** Touch gestures of [tools/mcp_phone_playability.py] *)

Module Touch.

Definition decimal (n : Z) : string := NilZero.string_of_int (Z.to_int n).

Definition position (x y : Z) : json := JObj [("x", JInt x); ("y", JInt y)].

(** [touch_tap]; [index] defaults to 0. *)
Definition touch_tap (x y start_ms index : Z) : list json :=
  [JObj [("action_name",
          JStr ("pointer:screen_touch:" ++ decimal index ++ ":" ++ decimal x
                ++ ":" ++ decimal y ++ ":1"));
         ("index", JInt index);
         ("position", position x y);
         ("pressed", JBool true);
         ("start_ms", JInt start_ms);
         ("duration_ms", JInt 0)];
   JObj [("action_name",
          JStr ("pointer:screen_touch:" ++ decimal index ++ ":" ++ decimal x
                ++ ":" ++ decimal y ++ ":0"));
         ("index", JInt index);
         ("position", position x y);
         ("pressed", JBool false);
         ("start_ms", JInt (start_ms + 70));
         ("duration_ms", JInt 0)]].

(** [touch_drag]; [index] defaults to 0. *)
Definition touch_drag (x0 y0 x1 y1 start_ms index : Z) : list json :=
  [JObj [("action_name",
          JStr ("pointer:screen_touch:" ++ decimal index ++ ":" ++ decimal x0
                ++ ":" ++ decimal y0 ++ ":1"));
         ("index", JInt index);
         ("position", position x0 y0);
         ("pressed", JBool true);
         ("start_ms", JInt start_ms);
         ("duration_ms", JInt 0)];
   JObj [("action_name",
          JStr ("pointer:screen_drag:" ++ decimal index ++ ":" ++ decimal x1
                ++ ":" ++ decimal y1 ++ ":" ++ decimal (x1 - x0)
                ++ ":" ++ decimal (y1 - y0)));
         ("index", JInt index);
         ("position", position x1 y1);
         ("relative", position (x1 - x0) (y1 - y0));
         ("start_ms", JInt (start_ms + 110));
         ("duration_ms", JInt 0)];
   JObj [("action_name",
          JStr ("pointer:screen_touch:" ++ decimal index ++ ":" ++ decimal x1
                ++ ":" ++ decimal y1 ++ ":0"));
         ("index", JInt index);
         ("position", position x1 y1);
         ("pressed", JBool false);
         ("start_ms", JInt (start_ms + 190));
         ("duration_ms", JInt 0)]].

(** A gesture of a scenario, as the scenarios write them one after the
    other with [+]. *)
Inductive gesture : Type :=
| Tap (x y start_ms : Z)
| Drag (x0 y0 x1 y1 start_ms : Z).

Definition inputs_of (g : gesture) : list json :=
  match g with
  | Tap x y start_ms => touch_tap x y start_ms 0
  | Drag x0 y0 x1 y1 start_ms => touch_drag x0 y0 x1 y1 start_ms 0
  end.

Definition gesture_start (g : gesture) : Z :=
  match g with
  | Tap _ _ start_ms => start_ms
  | Drag _ _ _ _ start_ms => start_ms
  end.

(** Each gesture starts no earlier than the last input of the gesture
    before it: 70 ms after the start of a tap, 190 ms after that of a drag. *)
Fixpoint spaced (gs : list gesture) : Prop :=
  match gs with
  | g :: (g' :: _) as rest =>
      gesture_start g + (match g with Tap _ _ _ => 70 | Drag _ _ _ _ _ => 190 end)
      <= gesture_start g'
      /\ spaced rest
  | _ => True
  end.

(** [input["start_ms"]] of an input. *)
Definition start_ms_of (input : json) : Z :=
  match input with
  | JObj fields =>
      match assoc "start_ms" fields with
      | Some (JInt n) => n
      | _ => 0
      end
  | _ => 0
  end.

(** Is the input a press ([Some true]), a release ([Some false]), or
    neither? *)
Definition pressed_of (input : json) : option bool :=
  match input with
  | JObj fields =>
      match assoc "pressed" fields with
      | Some (JBool b) => Some b
      | _ => None
      end
  | _ => None
  end.

End Touch.

(** ** Exceptions the handlers do not name

    [_read_message] and [parse_log_messages] guard [json.loads] with
    [except json.JSONDecodeError] and nothing else, and the [readline] of
    [_read_message] stands before the [try]. The two library calls raise
    more than that: [json.loads] raises [RecursionError] on a text that
    nests deeper than the interpreter goes and [ValueError] on an integer of
    more digits than [int] converts, and the [readline] of a text-mode pipe
    raises [UnicodeDecodeError] on bytes that are not text in the encoding
    of the pipe. [loads_fault] and [readline_fault] say on which texts that
    happens; the end of the stream is not one of them. Where they answer
    [None] the calls end as [json_loads] and [SmokeTest.readline] say. *)

Class FaultLib : Type := {
  loads_fault : string -> option exn;
  readline_fault : string -> option exn;
  readline_eof : readline_fault "" = None
}.

Module Uncaught.

Import SmokeTest Spec.

(** How a call of [json.loads] ends. *)
Inductive loaded : Type :=
| Decoded (value : json)
| JSONDecodeError
| OtherError (e : exn).

Section Decoding.

Context {lib : JsonLib} {faults : FaultLib}.

(** [json.loads(text)]. *)
Definition loads (text : string) : loaded :=
  match loads_fault text with
  | Some e => OtherError e
  | None =>
      match json_loads text with
      | Some value => Decoded value
      | None => JSONDecodeError
      end
  end.

(** [self.process.stdout.readline()], called when a line is ready: the
    stream holds the bytes of the line, which [readline] returns as its
    characters unless they are not text. *)
Definition readline : M string :=
  line <- SmokeTest.readline ;;
  match readline_fault line with
  | Some e => raise e
  | None => ret line
  end.

Fixpoint read_loop (fuel : nat) (deadline : Z) : M json :=
  match fuel with
  | O => fun _ => None
  | S fuel' =>
      now <- monotonic ;;
      let remaining := deadline - now in
      if remaining <=? 0 then raise (MCPError TimedOutWaitingForMessage)
      else
        ready <- select (Z.min 200 remaining) ;;
        if negb ready then read_loop fuel' deadline
        else
          line <- readline ;;
          if String.eqb line "" then
            c <- get_self ;;
            raise (MCPError (ServerExited (poll (process c))))
          else
            let line := strip line in
            if String.eqb line "" then read_loop fuel' deadline
            else
              match loads line with
              | OtherError e => raise e
              | JSONDecodeError =>
                  (c <- get_self ;;
                   when (verbose c)
                        (print ("[mcp-stdout] Non-JSON line ignored: " ++ line))) ;;;
                  read_loop fuel' deadline
              | Decoded message =>
                  (c <- get_self ;;
                   if verbose c then
                     has_id <- lift (py_contains "id" message) ;;
                     when (negb has_id) (print ("[mcp-notify] " ++ line))
                   else ret tt) ;;;
                  ret message
              end
  end.

(** The [while True] loop of [_read_message], run until it leaves. *)
Definition read_until (deadline : Z) : M json := fun s =>
  read_loop (S (List.length (clock s))) deadline s.

(** [MCPClient._read_message]. *)
Definition _read_message (timeout : Z) : M json :=
  c <- get_self ;;
  match stdout (process c) with
  | None => raise (MCPError StdoutUnavailable)
  | Some _ =>
      now <- monotonic ;;
      read_until (now + timeout)
  end.

(** [parse_log_messages]. *)
Definition parse_log_messages (text : string) : result (list json) :=
  let stripped := strip text in
  if String.eqb stripped "" || String.eqb stripped "No log messages" then Ok []
  else
    match loads stripped with
    | OtherError e => Raise e
    | JSONDecodeError => Ok [JObj [("message", JStr stripped)]]
    | Decoded (JObj fields) =>
        match (match assoc "messages" fields with
               | Some v => v
               | None => JArr []
               end) with
        | JArr messages => Ok (filter Harness.is_dictb messages)
        | _ => Ok []
        end
    | Decoded (JArr items) => Ok (filter Harness.is_dictb items)
    | Decoded _ => Ok []
    end.

(** A line the read loop takes from the stream and does not return: it is
    not the end of the stream, [readline] delivers it, and it is blank or
    [json.loads] answers it with [JSONDecodeError]. *)
Definition dropped (line : string) : Prop :=
  line <> ""
  /\ readline_fault line = None
  /\ (strip line = "" \/ loads (strip line) = JSONDecodeError).

(** An event of the stream at which the loop goes round once more. *)
Definition idle (ev : out_event) : Prop :=
  match ev with
  | NotReady => True
  | Ready line => dropped line
  end.

(** What the loop prints about the lines it drops: in verbose mode, one
    report for each line that is not blank. *)
Definition reports (c : MCPClient) (evs : list out_event) : list string :=
  if verbose c then
    flat_map (fun ev =>
                match ev with
                | Ready line =>
                    if nonempty (strip line)
                    then [("[mcp-stdout] Non-JSON line ignored: " ++ strip line)%string]
                    else []
                | NotReady => []
                end) evs
  else [].

End Decoding.

(** The session with [ticks] and [evs] left of the clock and of the
    response stream, and [printed] added to the console. *)
Definition after_reading (s : session) (ticks : list Z) (evs : list out_event)
  (printed : list string) : session :=
  with_console (with_events (with_clock s ticks) evs) (console s ++ printed)%list.

End Uncaught.

(** *** Texts on which CPython is known to raise

    [json.loads] runs out of recursion depth on a text that opens 100000
    arrays in a row, and [int] refuses a literal of more than 4300 digits;
    a pipe read as UTF-8 refuses the bytes that no UTF-8 text holds. *)

Module FaultExamples.

Import SmokeTest Spec.

(** How many times [c] stands at the head of [s]. *)
Fixpoint leading (c : ascii) (s : string) : N :=
  match s with
  | EmptyString => 0%N
  | String d rest => if Ascii.eqb c d then N.succ (leading c rest) else 0%N
  end.

Definition is_digit (c : ascii) : bool :=
  let n := N_of_ascii c in ((48 <=? n) && (n <=? 57))%N.

(** The number of characters of a text made of decimal digits only. *)
Fixpoint digits_only (s : string) : option N :=
  match s with
  | EmptyString => Some 0%N
  | String c rest =>
      if is_digit c then option_map N.succ (digits_only rest) else None
  end.

Definition cpython_loads_fault (text : string) : option exn :=
  if (100000 <=? leading "[" text)%N then Some RecursionError
  else
    match text, digits_only text with
    | String c _, Some n =>
        if negb (Ascii.eqb c "0") && (4300 <? n)%N then Some ValueError else None
    | _, _ => None
    end.

(** Bytes that stand in no UTF-8 text: 192, 193, and 245 and above. *)
Definition never_utf8 (c : ascii) : bool :=
  let n := N_of_ascii c in ((n =? 192) || (n =? 193) || (245 <=? n))%N.

Definition utf8_readline_fault (line : string) : option exn :=
  if existsb never_utf8 (list_ascii_of_string line)
  then Some UnicodeDecodeError
  else None.

Definition cpython_faults : FaultLib :=
  {| loads_fault := cpython_loads_fault;
     readline_fault := utf8_readline_fault;
     readline_eof := eq_refl |}.

(** 100000 opening brackets and a newline. *)
Definition deep_line : string := Pos.iter (String "[") nl 100000.

(** The server sends a line of opening brackets. *)
Definition deep_session : session :=
  Examples.session_on [Ready deep_line] [0; 10; 20].

(** The server sends a byte that is not text, and then the response. *)
Definition garbled_line : string := String (ascii_of_nat 255) nl.

Definition garbled_session : session :=
  Examples.session_on [Ready garbled_line;
                       Ready (Examples.line_of Examples.matching_response)]
                      [0; 10; 20; 30].

End FaultExamples.

(** * Properties *)

Import SmokeTest PhonePlayability Spec.

(** ** Running a computation step by step *)

Section Running.

Lemma bind_ok {A B} (m : M A) (k : A -> M B) (s s' : session) (a : A) :
  m s = Some (Ok a, s') -> bind m k s = k a s'.
Proof. intros H. unfold bind. now rewrite H. Qed.

Lemma bind_inv {A B} (m : M A) (k : A -> M B) (s s' : session) (r : result B) :
  bind m k s = Some (r, s') ->
  (exists a s1, m s = Some (Ok a, s1) /\ k a s1 = Some (r, s'))
  \/ (exists e, m s = Some (Raise e, s') /\ r = Raise e).
Proof.
  unfold bind. destruct (m s) as [[[a|e] s1]|]; [| |discriminate].
  - intros H. left. eauto.
  - intros [= <- <-]. right. eauto.
Qed.

End Running.

(** ** Content extraction: [text_from_content] *)

Section TextFromContent.

Lemma text_parts_of_typed (parts : list content_part) :
  text_parts_of (map part_json parts) = Ok (map JStr (texts parts)).
Proof.
  induction parts as [|[text|data mime] rest IH]; simpl.
  - reflexivity.
  - rewrite IH. reflexivity.
  - exact IH.
Qed.

Lemma filter_truthy_strings (l : list string) :
  filter truthy (map JStr l) = map JStr (filter nonempty l).
Proof.
  induction l as [|x l IH]; simpl; [reflexivity|].
  rewrite IH. unfold nonempty. destruct (String.eqb x ""); reflexivity.
Qed.

Lemma as_strings_strings (l : list string) : as_strings (map JStr l) = Ok l.
Proof.
  induction l as [|x l IH]; simpl; [reflexivity|]. now rewrite IH.
Qed.

Lemma filter_nonempty_id (l : list string) :
  Forall (fun t => t <> "") l -> filter nonempty l = l.
Proof.
  induction 1 as [|x l Hx _ IH]; simpl; [reflexivity|].
  assert (E : nonempty x = true).
  { unfold nonempty. destruct (String.eqb_spec x ""); [contradiction|reflexivity]. }
  rewrite E, IH. reflexivity.
Qed.

(** C5, as the code has it: [text_from_content] joins the non-empty texts
    of the text parts with newlines and skips the other parts (so it agrees
    with the wording of the specification whenever no text part is empty);
    the empty list gives the empty string; and on a text part "a", an image
    part and a text part "b" it gives "a", a newline, "b". *)
Theorem text_from_content_joins_nonempty_texts :
  (forall parts : list content_part,
      text_from_content (JArr (map part_json parts))
      = Ok (join nl (filter nonempty (texts parts))))
  /\ (forall parts : list content_part,
         Forall (fun t => t <> "") (texts parts) ->
         text_from_content (JArr (map part_json parts)) = Ok (textOf_spec parts))
  /\ text_from_content (JArr []) = Ok ""
  /\ (forall data mime,
         text_from_content
           (JArr (map part_json [TextPart "a"; ImagePart data mime; TextPart "b"]))
         = Ok ("a" ++ nl ++ "b")).
Proof.
  assert (H : forall parts : list content_part,
             text_from_content (JArr (map part_json parts))
             = Ok (join nl (filter nonempty (texts parts)))).
  { intros parts. unfold text_from_content, py_join. simpl.
    rewrite text_parts_of_typed. simpl.
    rewrite filter_truthy_strings, as_strings_strings. reflexivity. }
  split; [exact H|]. split; [|split].
  - intros parts Hne. rewrite H, filter_nonempty_id by exact Hne. reflexivity.
  - reflexivity.
  - intros data mime. rewrite H. reflexivity.
Qed.

(** C5, witness: the texts "x" and "y" around an image part. *)
Lemma text_from_content_joins_nonempty_texts_witness :
  text_from_content
    (JArr (map part_json [TextPart "x"; ImagePart "AAAA" "image/png"; TextPart "y"]))
  = Ok (textOf_spec [TextPart "x"; ImagePart "AAAA" "image/png"; TextPart "y"]).
Proof.
  apply (proj1 (proj2 text_from_content_joins_nonempty_texts)).
  simpl. repeat constructor; discriminate.
Defined.

(** C5, counterexample to the wording "all text parts": a text part whose
    text is empty is dropped, so no separator is written for it. *)
Lemma text_from_content_drops_empty_text :
  text_from_content
    (JArr (map part_json [TextPart "a"; TextPart ""; TextPart "b"]))
  = Ok ("a" ++ nl ++ "b")
  /\ text_from_content
       (JArr (map part_json [TextPart "a"; TextPart ""; TextPart "b"]))
     <> Ok (textOf_spec [TextPart "a"; TextPart ""; TextPart "b"]).
Proof.
  split; [reflexivity|]. vm_compute. discriminate.
Qed.

End TextFromContent.

(** ** Content extraction: [parse_png_size_from_image_content] *)

Section PngSize.

Context {b64 : Base64Lib}.

Lemma bytes_eqb_eq (a b : list byte) : bytes_eqb a b = true <-> a = b.
Proof.
  revert b. induction a as [|x a IH]; intros [|y b]; simpl;
    try (split; [discriminate|discriminate]); try tauto.
  rewrite andb_true_iff, IH. split.
  - intros [Hxy ->]. now rewrite (Byte.byte_dec_bl _ _ Hxy).
  - intros E. injection E as -> ->. split; [now apply Byte.byte_dec_lb|reflexivity].
Qed.

Lemma find_image_none (parts : list json) :
  Forall is_dict parts ->
  Forall (fun p => has_type "image" p = false) parts ->
  find_image parts = Ok None.
Proof.
  induction 1 as [|p parts [fields ->] _ IH]; intros Hno; [reflexivity|].
  inversion Hno as [|? ? Hp Hrest]; subst. simpl in *.
  destruct (assoc "type" fields) as [v|]; simpl.
  - rewrite Hp. auto.
  - auto.
Qed.

Lemma find_image_first (parts : list json) (fields : list (string * json)) :
  first_image parts fields -> find_image parts = Ok (Some (JObj fields)).
Proof.
  intros (before & after & -> & Hd & Hno & Himg).
  induction Hd as [|p before [pf ->] _ IH].
  - simpl in *. destruct (assoc "type" fields) as [v|]; simpl.
    + now rewrite Himg.
    + discriminate.
  - inversion Hno as [|? ? Hp Hrest]; subst. simpl in *.
    destruct (assoc "type" pf) as [v|]; simpl.
    + rewrite Hp. auto.
    + auto.
Qed.

Lemma find_image_raises (parts : list json) (e : exn) :
  find_image parts = Raise e -> e = AttributeError.
Proof.
  induction parts as [|p parts IH]; simpl; [discriminate|].
  destruct p; simpl; try (intros [= <-]; reflexivity).
  destruct (assoc "type" fields) as [v|]; simpl.
  - destruct (py_eq_str v "image"); [discriminate|exact IH].
  - exact IH.
Qed.

Lemma to_N_byte_of_Z (z : Z) : Z.of_N (Byte.to_N (byte_of_Z z)) = z mod 256.
Proof.
  unfold byte_of_Z.
  assert (Hr : 0 <= z mod 256 < 256) by (apply Z.mod_pos_bound; lia).
  destruct (Byte.of_N (Z.to_N (z mod 256))) as [b|] eqn:E.
  - apply Byte.to_of_N in E. rewrite E. lia.
  - apply Byte.of_N_None_iff in E. lia.
Qed.

Lemma be_uint_uint32_be (n : Z) :
  0 <= n < 4294967296 -> be_uint (uint32_be n) = n.
Proof.
  intros Hn. unfold be_uint, uint32_be. simpl.
  rewrite !to_N_byte_of_Z.
  assert (H3 : (n / 16777216) mod 256 = n / 16777216).
  { apply Z.mod_small. split; [apply Z.div_pos; lia|].
    apply Z.div_lt_upper_bound; lia. }
  rewrite H3.
  pose proof (Z.div_mod n 256 ltac:(lia)) as D0.
  pose proof (Z.div_mod (n / 256) 256 ltac:(lia)) as D1.
  pose proof (Z.div_mod (n / 65536) 256 ltac:(lia)) as D2.
  replace (n / 65536) with (n / 256 / 256) in *
    by (rewrite Z.div_div by lia; reflexivity).
  replace (n / 16777216) with (n / 256 / 256 / 256) in *
    by (rewrite !Z.div_div by lia; reflexivity).
  lia.
Qed.

Lemma parse_png_at_first_image (parts : list json) (fields : list (string * json)) :
  first_image parts fields ->
  parse_png_size_from_image_content (JArr parts)
  = (data_b64 <-- dict_get (JObj fields) "data" (JStr "") ;;
     if negb (truthy data_b64) then Raise (MCPError MissingPayload)
     else
       raw <-- py_b64decode data_b64 ;;
       if (List.length raw <? 24)%nat
          || negb (bytes_eqb (slice 0 8 raw) PNG_SIGNATURE)
       then Raise (MCPError InvalidPng)
       else wh <-- unpack_II (slice 16 24 raw) ;; Ok wh).
Proof.
  intros Hfirst. unfold parse_png_size_from_image_content.
  cbn [py_iter rbind]. rewrite (find_image_first Hfirst). reflexivity.
Qed.

Lemma slice_16_24_length (raw : list byte) :
  List.length (slice 16 24 raw) = 8%nat <-> (24 <= List.length raw)%nat.
Proof.
  unfold slice. rewrite length_firstn, length_skipn. lia.
Qed.

Lemma nonempty_truthy (data : string) : data <> "" -> truthy (JStr data) = true.
Proof.
  intros Hne. simpl. destruct (String.eqb_spec data ""); [contradiction|reflexivity].
Qed.

(** C3: [parse_png_size_from_image_content] on a list of content parts
    (dicts). With no image part it raises "No image content returned"; when
    the data of the first image part is absent or empty it raises "Image
    content missing base64 payload"; when the decoded bytes do not start
    with the 8-byte PNG signature it raises "Screenshot payload is not a
    valid PNG"; and when they start with the signature and bytes 16 to 24
    spell a width and a height, big-endian, it returns that pair: (640, 360)
    for width 640 and height 360. *)
Theorem parse_png_size_cases :
  (forall parts,
      Forall is_dict parts ->
      Forall (fun p => has_type "image" p = false) parts ->
      parse_png_size_from_image_content (JArr parts)
      = Raise (MCPError NoImageContent))
  /\ (forall parts fields,
         first_image parts fields ->
         assoc "data" fields = None \/ assoc "data" fields = Some (JStr "") ->
         parse_png_size_from_image_content (JArr parts)
         = Raise (MCPError MissingPayload))
  /\ (forall parts fields data raw,
         first_image parts fields ->
         assoc "data" fields = Some (JStr data) -> data <> "" ->
         b64decode data = Some raw ->
         firstn 8 raw <> PNG_SIGNATURE ->
         parse_png_size_from_image_content (JArr parts)
         = Raise (MCPError InvalidPng))
  /\ (forall parts fields data raw w h,
         first_image parts fields ->
         assoc "data" fields = Some (JStr data) -> data <> "" ->
         b64decode data = Some raw ->
         firstn 8 raw = PNG_SIGNATURE ->
         slice 16 24 raw = (uint32_be w ++ uint32_be h)%list ->
         0 <= w < 4294967296 -> 0 <= h < 4294967296 ->
         parse_png_size_from_image_content (JArr parts) = Ok (w, h)).
Proof.
  split; [|split; [|split]].
  - intros parts Hd Hno. unfold parse_png_size_from_image_content.
    cbn [py_iter rbind]. rewrite (find_image_none Hd Hno). reflexivity.
  - intros parts fields Hfirst Hdata.
    rewrite (parse_png_at_first_image Hfirst). simpl.
    destruct Hdata as [-> | ->]; reflexivity.
  - intros parts fields data raw Hfirst Hdata Hne Hraw Hsig.
    rewrite (parse_png_at_first_image Hfirst).
    cbn [dict_get rbind]. rewrite Hdata, (nonempty_truthy Hne).
    cbn [negb py_b64decode rbind]. rewrite Hraw. cbn [rbind].
    assert (E : bytes_eqb (slice 0 8 raw) PNG_SIGNATURE = false).
    { destruct (bytes_eqb (slice 0 8 raw) PNG_SIGNATURE) eqn:E; [|reflexivity].
      apply bytes_eqb_eq in E. contradiction. }
    rewrite E, orb_true_r. reflexivity.
  - intros parts fields data raw w h Hfirst Hdata Hne Hraw Hsig Hdim Hw Hh.
    rewrite (parse_png_at_first_image Hfirst).
    cbn [dict_get rbind]. rewrite Hdata, (nonempty_truthy Hne).
    cbn [negb py_b64decode rbind]. rewrite Hraw. cbn [rbind].
    assert (Hlen : (24 <= List.length raw)%nat).
    { apply slice_16_24_length. rewrite Hdim. reflexivity. }
    assert (E1 : (List.length raw <? 24)%nat = false) by (apply Nat.ltb_ge; lia).
    assert (E2 : bytes_eqb (slice 0 8 raw) PNG_SIGNATURE = true)
      by (apply bytes_eqb_eq; exact Hsig).
    rewrite E1, E2, Hdim. cbn [orb negb].
    unfold unpack_II.
    change (List.length (uint32_be w ++ uint32_be h) =? 8)%nat with true.
    change (firstn 4 (uint32_be w ++ uint32_be h)) with (uint32_be w).
    change (skipn 4 (uint32_be w ++ uint32_be h)) with (uint32_be h).
    rewrite (be_uint_uint32_be Hw), (be_uint_uint32_be Hh). reflexivity.
Qed.

(** C10: a payload that decodes to fewer than 24 bytes is rejected as not
    a valid PNG, whatever its first bytes are; the dimensions are unpacked
    only from payloads of at least 24 bytes, so the unpack never fails. *)
Theorem parse_png_size_short_payload :
  (forall parts fields data raw,
      first_image parts fields ->
      assoc "data" fields = Some (JStr data) -> data <> "" ->
      b64decode data = Some raw ->
      (List.length raw < 24)%nat ->
      parse_png_size_from_image_content (JArr parts)
      = Raise (MCPError InvalidPng))
  /\ (forall content, parse_png_size_from_image_content content <> Raise StructError)
  /\ (forall parts fields w h,
         first_image parts fields ->
         parse_png_size_from_image_content (JArr parts) = Ok (w, h) ->
         exists data raw,
           assoc "data" fields = Some (JStr data)
           /\ b64decode data = Some raw
           /\ (24 <= List.length raw)%nat
           /\ unpack_II (slice 16 24 raw) = Ok (w, h)).
Proof.
  split; [|split].
  - intros parts fields data raw Hfirst Hdata Hne Hraw Hlen.
    rewrite (parse_png_at_first_image Hfirst).
    cbn [dict_get rbind]. rewrite Hdata, (nonempty_truthy Hne).
    cbn [negb py_b64decode rbind]. rewrite Hraw. cbn [rbind].
    assert (E : (List.length raw <? 24)%nat = true) by (apply Nat.ltb_lt; lia).
    rewrite E. reflexivity.
  - intros content. unfold parse_png_size_from_image_content.
    destruct (py_iter content) as [parts|e] eqn:Hit.
    2:{ cbn [rbind]. destruct content; simpl in Hit; congruence. }
    cbn [rbind]. destruct (find_image parts) as [[part|]|e] eqn:Hfind; cbn [rbind].
    + destruct (dict_get part "data" (JStr "")) as [data|e] eqn:Hget; cbn [rbind].
      2:{ destruct part; simpl in Hget; congruence. }
      destruct (negb (truthy data)); [discriminate|].
      destruct (py_b64decode data) as [raw|e] eqn:Hdec; cbn [rbind].
      2:{ destruct data; simpl in Hdec; try congruence.
          destruct (b64decode s); congruence. }
      destruct (List.length raw <? 24)%nat eqn:Hlen; [discriminate|].
      cbn [orb]. destruct (negb _); [discriminate|].
      apply Nat.ltb_ge in Hlen. apply slice_16_24_length in Hlen.
      unfold unpack_II. rewrite Hlen. discriminate.
    + discriminate.
    + apply find_image_raises in Hfind. subst e. discriminate.
  - intros parts fields w h Hfirst.
    rewrite (parse_png_at_first_image Hfirst). cbn [dict_get rbind].
    destruct (assoc "data" fields) as [v|]; [|discriminate].
    destruct (negb (truthy v)); [discriminate|].
    destruct v; cbn [py_b64decode rbind]; try discriminate.
    destruct (b64decode s) as [raw|] eqn:Hraw; cbn [rbind]; [|discriminate].
    destruct (List.length raw <? 24)%nat eqn:Hlen; [discriminate|].
    cbn [orb]. destruct (negb _); [discriminate|].
    apply Nat.ltb_ge in Hlen.
    destruct (unpack_II (slice 16 24 raw)) as [[w' h']|e] eqn:Hun;
      cbn [rbind]; [|discriminate].
    intros [= <- <-]. exists s, raw. auto.
Qed.

End PngSize.

Section PngSizeExamples.

Import Examples Reference.

Lemma first_image_after_text (text : string) (fields : list (string * json))
  (after : list json) :
  has_type "image" (JObj fields) = true ->
  first_image (JObj (text_part text) :: JObj fields :: after) fields.
Proof.
  intros Himg. exists [JObj (text_part text)], after.
  split; [reflexivity|]. split; [|split; [|exact Himg]].
  - constructor; [eexists; reflexivity|constructor].
  - constructor; [reflexivity|constructor].
Qed.

(** C3, witness: a text part followed by image parts, with the reference
    base64 decoder. *)
Lemma parse_png_size_cases_witness :
  parse_png_size_from_image_content
    (JArr [JObj (text_part "ok"); JObj (text_part "done")])
  = Raise (MCPError NoImageContent)
  /\ parse_png_size_from_image_content
       (JArr [JObj (text_part "ok"); JObj image_part_without_data])
     = Raise (MCPError MissingPayload)
  /\ parse_png_size_from_image_content
       (JArr [JObj (text_part "ok"); JObj (image_part not_a_png)])
     = Raise (MCPError InvalidPng)
  /\ parse_png_size_from_image_content
       (JArr [JObj (text_part "ok"); JObj (image_part png_640x360)])
     = Ok (640, 360).
Proof.
  destruct (@parse_png_size_cases Reference.base64) as (H1 & H2 & H3 & H4).
  split; [|split; [|split]].
  - apply H1.
    + repeat constructor; eexists; reflexivity.
    + repeat constructor.
  - apply (H2 _ image_part_without_data).
    + apply first_image_after_text. reflexivity.
    + left. reflexivity.
  - apply (H3 _ (image_part not_a_png) not_a_png
              (repeat x00 24)).
    + apply first_image_after_text. reflexivity.
    + reflexivity.
    + discriminate.
    + vm_compute. reflexivity.
    + discriminate.
  - apply (H4 _ (image_part png_640x360) png_640x360
              (PNG_SIGNATURE ++ [x00; x00; x00; x0d; x49; x48; x44; x52]
                 ++ uint32_be 640 ++ uint32_be 360)%list).
    + apply first_image_after_text. reflexivity.
    + reflexivity.
    + discriminate.
    + vm_compute. reflexivity.
    + reflexivity.
    + reflexivity.
    + lia.
    + lia.
Defined.

(** C10, witness: the payload is the PNG signature and nothing else. *)
Lemma parse_png_size_short_payload_witness :
  parse_png_size_from_image_content
    (JArr [JObj (text_part "ok"); JObj (image_part png_signature_only)])
  = Raise (MCPError InvalidPng).
Proof.
  apply (proj1 (@parse_png_size_short_payload Reference.base64)
           _ (image_part png_signature_only) png_signature_only PNG_SIGNATURE).
  - apply first_image_after_text. reflexivity.
  - reflexivity.
  - discriminate.
  - vm_compute. reflexivity.
  - simpl. lia.
Defined.

End PngSizeExamples.

(** ** The diagnostic buffer *)

Section StderrBuffer.

Lemma lastn_all {A} (n : nat) (l : list A) :
  (List.length l <= n)%nat -> lastn n l = l.
Proof.
  intros H. unfold lastn. replace (List.length l - n)%nat with 0%nat by lia.
  reflexivity.
Qed.

Lemma lastn_length {A} (n : nat) (l : list A) :
  List.length (lastn n l) = Nat.min n (List.length l).
Proof.
  unfold lastn. rewrite length_skipn. lia.
Qed.

Lemma lastn_app_lastn {A} (n : nat) (a b : list A) :
  lastn n (lastn n a ++ b) = lastn n (a ++ b).
Proof.
  destruct (Nat.le_gt_cases (List.length a) n) as [Hle|Hgt].
  - now rewrite (lastn_all _ Hle).
  - unfold lastn at 1 3. rewrite !length_app, lastn_length.
    unfold lastn. rewrite !skipn_app, !skipn_skipn, length_skipn.
    f_equal; [f_equal; lia|f_equal; lia].
Qed.

Lemma deque_append_items {A} (d : deque A) (x : A) :
  (List.length (items d) <= maxlen d)%nat ->
  items (deque_append d x) = lastn (maxlen d) (items d ++ [x]).
Proof.
  intros Hle. unfold deque_append, lastn. cbn [items maxlen].
  rewrite length_app. cbn [List.length].
  destruct (Nat.ltb_spec (maxlen d) (List.length (items d) + 1)) as [Hlt|Hge].
  - replace (List.length (items d) + 1 - maxlen d)%nat with 1%nat by lia.
    reflexivity.
  - replace (List.length (items d) + 1 - maxlen d)%nat with 0%nat by lia.
    reflexivity.
Qed.

Lemma deque_append_maxlen {A} (d : deque A) (x : A) :
  maxlen (deque_append d x) = maxlen d.
Proof. reflexivity. Qed.

Lemma deque_append_all {A} (xs : list A) (d : deque A) :
  (List.length (items d) <= maxlen d)%nat ->
  maxlen (fold_left deque_append xs d) = maxlen d
  /\ items (fold_left deque_append xs d) = lastn (maxlen d) (items d ++ xs).
Proof.
  revert d. induction xs as [|x xs IH]; intros d Hle; cbn [fold_left].
  - rewrite app_nil_r, lastn_all by exact Hle. auto.
  - destruct (IH (deque_append d x)) as [Hm Hi].
    + rewrite deque_append_items by exact Hle.
      rewrite lastn_length, deque_append_maxlen. lia.
    + rewrite Hm, Hi, deque_append_maxlen, deque_append_items by exact Hle.
      rewrite lastn_app_lastn, <- app_assoc. auto.
Qed.

Lemma drain_loop_S (fuel : nat) :
  drain_loop (S fuel)
  = (line <- stderr_readline ;;
     if String.eqb line "" then ret tt
     else
       stderr_append (rstrip_nl line) ;;;
       (c <- get_self ;;
        when (verbose c) (print ("[mcp-stderr] " ++ rstrip line))) ;;;
       drain_loop fuel).
Proof. reflexivity. Qed.

Lemma drain_loop_appends (lines : list string) (s : session) :
  stderr (process (self s)) = lines ->
  ~ In "" lines ->
  exists s',
    drain_loop (S (List.length lines)) s = Some (Ok tt, s')
    /\ _stderr_lines (self s')
       = fold_left deque_append (map rstrip_nl lines) (_stderr_lines (self s))
    /\ stderr (process (self s')) = []
    /\ _next_id (self s') = _next_id (self s).
Proof.
  revert s. induction lines as [|line lines IH]; intros s Hs Hno.
  - exists s. rewrite drain_loop_S.
    erewrite bind_ok
      by (unfold stderr_readline; now rewrite Hs).
    cbn. auto.
  - assert (Hline : String.eqb line "" = false).
    { destruct (String.eqb_spec line ""); [|reflexivity].
      subst line. exfalso. apply Hno. now left. }
    assert (Hno' : ~ In "" lines) by (intros Hin; apply Hno; now right).
    cbn [List.length]. rewrite drain_loop_S.
    erewrite bind_ok by (unfold stderr_readline; now rewrite Hs).
    rewrite Hline.
    erewrite bind_ok by reflexivity.
    destruct (verbose (self s)) eqn:Hv;
      (erewrite bind_ok
         by (unfold bind, get_self; cbn; rewrite Hv; reflexivity));
      match goal with
      | |- context [drain_loop _ ?st] =>
          destruct (IH st eq_refl Hno') as (s' & Hrun & Hbuf & Herr & Hid)
      end;
      exists s'; rewrite Hrun, Hbuf, Herr, Hid; repeat split; reflexivity.
Qed.

(** C4: the diagnostic buffer never holds more than its capacity, and
    after any sequence of appends it holds the last [capacity] lines in
    their order; filled from empty with [capacity + K] lines, it holds them
    without the first [K]. The client's buffer has capacity 200 and is
    filled by [_drain_stderr] with the lines of the diagnostic stream. *)
Theorem stderr_buffer_keeps_last_lines :
  (forall (d : deque string) (xs : list string),
      (List.length (items d) <= maxlen d)%nat ->
      maxlen (fold_left deque_append xs d) = maxlen d
      /\ (List.length (items (fold_left deque_append xs d)) <= maxlen d)%nat
      /\ items (fold_left deque_append xs d) = lastn (maxlen d) (items d ++ xs))
  /\ (forall (capacity K : nat) (xs : list string),
         List.length xs = (capacity + K)%nat ->
         items (fold_left deque_append xs (mkDeque capacity [])) = skipn K xs)
  /\ (forall cmd timeout verb spawned ticks printed lines,
         stderr spawned = lines ->
         ~ In "" lines ->
         exists s',
           _drain_stderr (mkSession (init cmd timeout verb spawned) ticks printed)
           = Some (Ok tt, s')
           /\ maxlen (_stderr_lines (self s')) = 200%nat
           /\ (List.length (items (_stderr_lines (self s'))) <= 200)%nat
           /\ items (_stderr_lines (self s')) = lastn 200 (map rstrip_nl lines)
           /\ stderr_tail (self s') = join nl (lastn 200 (map rstrip_nl lines))).
Proof.
  split; [|split].
  - intros d xs Hle. destruct (deque_append_all xs d Hle) as [Hm Hi].
    split; [exact Hm|]. split; [|exact Hi].
    rewrite Hi, lastn_length. lia.
  - intros capacity K xs Hlen.
    destruct (deque_append_all xs (mkDeque capacity []) (Nat.le_0_l _)) as [_ Hi].
    rewrite Hi. cbn [items maxlen app]. unfold lastn. rewrite Hlen.
    f_equal. lia.
  - intros cmd timeout verb spawned ticks printed lines Hs Hno.
    set (s := mkSession (init cmd timeout verb spawned) ticks printed).
    destruct (@drain_loop_appends lines s Hs Hno) as (s' & Hrun & Hbuf & _ & _).
    destruct (deque_append_all (map rstrip_nl lines) (_stderr_lines (self s))
                (Nat.le_0_l _)) as [Hm Hi].
    exists s'. unfold _drain_stderr. cbn [self process s init].
    rewrite Hs. split; [exact Hrun|].
    unfold stderr_tail. rewrite Hbuf, Hm, Hi. cbn [s self init items maxlen app].
    repeat split. rewrite lastn_length.
    cbn [init _stderr_lines maxlen items app]. lia.
Qed.

End StderrBuffer.

Section StderrBufferExamples.

Import Examples.

(** C4, witness: three lines pushed into an empty buffer of capacity two,
    and the reference client draining a diagnostic stream of two lines. *)
Lemma stderr_buffer_keeps_last_lines_witness :
  items (fold_left deque_append ["a"; "b"; "c"] (mkDeque 2 [])) = ["b"; "c"]
  /\ exists s',
      _drain_stderr idle_session = Some (Ok tt, s')
      /\ items (_stderr_lines (self s')) = ["warn: a"; "warn: b"].
Proof.
  destruct stderr_buffer_keeps_last_lines as (_ & Hfifo & Hdrain).
  split.
  - apply (Hfifo 2%nat 1%nat ["a"; "b"; "c"]). reflexivity.
  - destruct (Hdrain "godot-mcp" 20000 false idle_process [] []
                (stderr idle_process) eq_refl) as (s' & Hrun & _ & _ & Hitems & _).
    + simpl. intros [H|[H|[]]]; discriminate.
    + exists s'. split; [exact Hrun|exact Hitems].
Defined.

End StderrBufferExamples.

(** ** Notifications *)

Section Notify.

Context {lib : JsonLib}.

Lemma send_open (s : session) (written : list string) (payload : json) :
  stdin (process (self s)) = Some (PipeOpen written) ->
  _send payload s
  = Some (Ok tt, after_writing s written [(json_dumps payload ++ nl)%string]).
Proof.
  intros H. unfold _send, bind, get_self. cbv beta iota. rewrite H. reflexivity.
Qed.

Lemma after_writing_nothing (s : session) (written : list string) :
  stdin (process (self s)) = Some (PipeOpen written) ->
  after_writing s written [] = s.
Proof.
  destruct s as [[cmd timeout verb next buf [i o e st]] ticks printed].
  cbn. intros ->. unfold after_writing. cbn. now rewrite app_nil_r.
Qed.

Lemma after_writing_more (s : session) (written : list string)
  (line : string) (lines : list string) :
  after_writing (after_writing s written [line]) (written ++ [line]) lines
  = after_writing s written (line :: lines).
Proof.
  unfold after_writing. cbn. now rewrite <- app_assoc.
Qed.

Lemma notify_each_run (calls : list (string * json)) (s : session)
  (written : list string) :
  stdin (process (self s)) = Some (PipeOpen written) ->
  notify_each calls s = Some (Ok tt, after_writing s written (notify_lines calls)).
Proof.
  revert s written. induction calls as [|[method params] calls IH];
    intros s written Hopen.
  - cbn. now rewrite (after_writing_nothing _ Hopen).
  - cbn [notify_each notify_lines map fst snd]. unfold notify.
    erewrite bind_ok by (apply send_open; exact Hopen).
    erewrite IH by reflexivity.
    now rewrite after_writing_more.
Qed.

Lemma notify_each_frame (calls : list (string * json)) (s : session) :
  exists r s', notify_each calls s = Some (r, s') /\ unwritten s' = unwritten s.
Proof.
  revert s. induction calls as [|[method params] calls IH]; intros s.
  - exists (Ok tt), s. split; reflexivity.
  - cbn [notify_each]. unfold notify, bind at 1, _send, bind at 1, get_self.
    destruct (stdin (process (self s))) as [[written|]|].
    + unfold put_process.
      match goal with
      | |- context [notify_each calls ?st] =>
          destruct (IH st) as (r & s' & Hrun & Hsame)
      end.
      exists r, s'. split; [exact Hrun|]. rewrite Hsame. reflexivity.
    + exists (Raise BrokenPipeError), s. split; reflexivity.
    + exists (Raise (MCPError StdinUnavailable)), s. split; reflexivity.
Qed.

(** C9: sending N notifications never waits for anything: it always ends,
    without reading the response stream or the clock, and leaves the
    request-id counter and every other part of the session but the command
    stream as they were. On a session whose command stream is open it writes
    N lines to it, one per notification, none of whose messages has an [id]
    member, and returns normally. *)
Theorem notify_each_only_writes :
  (forall (calls : list (string * json)) (s : session),
      exists r s',
        notify_each calls s = Some (r, s')
        /\ unwritten s' = unwritten s
        /\ _next_id (self s') = _next_id (self s)
        /\ stdout (process (self s')) = stdout (process (self s))
        /\ clock s' = clock s)
  /\ (forall (calls : list (string * json)) (s : session) (written : list string),
         stdin (process (self s)) = Some (PipeOpen written) ->
         notify_each calls s
         = Some (Ok tt, after_writing s written (notify_lines calls))
         /\ List.length (notify_lines calls) = List.length calls
         /\ Forall (fun call : string * json =>
                      py_contains "id" (notify_payload (fst call) (snd call))
                      = Ok false)
                   calls).
Proof.
  split.
  - intros calls s. destruct (notify_each_frame calls s) as (r & s' & Hrun & Hsame).
    exists r, s'. split; [exact Hrun|]. split; [exact Hsame|].
    unfold unwritten in Hsame. injection Hsame as _ _ _ Hid _ Hout _ _ Hck _.
    auto.
  - intros calls s written Hopen. split; [|split].
    + apply notify_each_run. exact Hopen.
    + unfold notify_lines. apply length_map.
    + apply Forall_forall. intros [method params] _. reflexivity.
Qed.

End Notify.

(** ** The read loop *)

Section ReadLoop.

Context {lib : JsonLib}.

Lemma read_loop_S (fuel : nat) (deadline : Z) :
  read_loop (S fuel) deadline
  = (now <- monotonic ;;
     let remaining := deadline - now in
     if remaining <=? 0 then raise (MCPError TimedOutWaitingForMessage)
     else
       ready <- select (Z.min 200 remaining) ;;
       if negb ready then read_loop fuel deadline
       else
         line <- readline ;;
         if String.eqb line "" then
           c <- get_self ;;
           raise (MCPError (ServerExited (poll (process c))))
         else
           let line := strip line in
           if String.eqb line "" then read_loop fuel deadline
           else
             match json_loads line with
             | None =>
                 (c <- get_self ;;
                  when (verbose c)
                       (print ("[mcp-stdout] Non-JSON line ignored: " ++ line))) ;;;
                 read_loop fuel deadline
             | Some message =>
                 (c <- get_self ;;
                  if verbose c then
                    has_id <- lift (py_contains "id" message) ;;
                    when (negb has_id) (print ("[mcp-notify] " ++ line))
                  else ret tt) ;;;
                 ret message
             end).
Proof. reflexivity. Qed.

(** One turn of the loop, by what the clock and the response stream hold. *)
Lemma read_loop_turn (fuel : nat) (deadline : Z) (s : session) :
  read_loop (S fuel) deadline s
  = match clock s with
    | [] => None
    | t :: ticks =>
        if deadline - t <=? 0
        then Some (Raise (MCPError TimedOutWaitingForMessage), with_clock s ticks)
        else
          match stdout (process (self s)) with
          | Some (NotReady :: evs) =>
              read_loop fuel deadline (with_events (with_clock s ticks) evs)
          | Some (Ready line :: evs) =>
              let s2 := with_events (with_clock s ticks) evs in
              if String.eqb line "" then
                Some (Raise (MCPError (ServerExited (poll (process (self s))))), s2)
              else if String.eqb (strip line) "" then read_loop fuel deadline s2
              else
                match json_loads (strip line) with
                | None => read_loop fuel deadline (after_discarding s line ticks evs)
                | Some message =>
                    if verbose (self s) then
                      match py_contains "id" message with
                      | Ok has_id =>
                          Some (Ok message,
                                if negb has_id
                                then with_console s2
                                       (console s ++ [("[mcp-notify] " ++ strip line)%string])
                                else s2)
                      | Raise e => Some (Raise e, s2)
                      end
                    else Some (Ok message, s2)
                end
          | _ => read_loop fuel deadline (with_clock s ticks)
          end
    end.
Proof.
  rewrite read_loop_S. unfold bind at 1, monotonic.
  destruct (clock s) as [|t ticks] eqn:Hck; [reflexivity|]. cbv zeta.
  destruct (deadline - t <=? 0); [reflexivity|].
  unfold bind at 1, select. cbn [self process with_clock].
  destruct (stdout (process (self s))) as [[|[|line] evs]|] eqn:Hout;
    cbn [negb]; try reflexivity.
  unfold bind at 1, readline. cbn [self process with_clock]. rewrite Hout.
  destruct (String.eqb line ""); [reflexivity|].
  unfold after_discarding, nonempty.
  destruct (String.eqb (strip line) ""); [reflexivity|].
  destruct (json_loads (strip line)) as [message|].
  - unfold bind, get_self. cbn [self with_self with_events with_clock verbose
                                  with_process].
    destruct (verbose (self s)); [|reflexivity].
    unfold lift. destruct (py_contains "id" message) as [[|]|e]; reflexivity.
  - unfold bind at 1. unfold bind at 1, get_self.
    cbn [self with_self with_events with_clock verbose with_process].
    destruct (verbose (self s)); reflexivity.
Qed.

Lemma events_of_stdout (s : session) (evs : list out_event) :
  stdout (process (self s)) = Some evs -> events s = evs.
Proof. intros H. unfold events. now rewrite H. Qed.

(** What a run of the loop leaves behind and what it can end with. *)
Lemma read_loop_post (fuel : nat) (deadline : Z) (s s' : session) (r : result json) :
  read_loop fuel deadline s = Some (r, s') ->
  core s' = core s
  /\ (List.length (clock s') < List.length (clock s))%nat
  /\ match r with
     | Ok msg =>
         exists line,
           In (Ready line) (events s)
           /\ strip line <> "" /\ json_loads (strip line) = Some msg
     | Raise e =>
         e = MCPError TimedOutWaitingForMessage
         \/ (exists code, e = MCPError (ServerExited code))
         \/ e = TypeError
     end.
Proof.
  revert s. induction fuel as [|fuel IH]; intros s H; [discriminate|].
  rewrite read_loop_turn in H.
  destruct (clock s) as [|t ticks] eqn:Hck; [discriminate|].
  destruct (deadline - t <=? 0).
  { injection H as <- <-. cbn. repeat split; auto. }
  destruct (stdout (process (self s))) as [[|[|line] evs]|] eqn:Hout.
  - apply IH in H as (Hc & Hl & Hr). cbn in Hl.
    split; [exact Hc|]. split; [cbn; lia|exact Hr].
  - apply IH in H as (Hc & Hl & Hr). cbn in Hl.
    split; [exact Hc|]. split; [cbn; lia|].
    destruct r as [msg|e]; [|exact Hr].
    destruct Hr as (line & Hin & Hr). exists line. split; [|exact Hr].
    rewrite (events_of_stdout _ Hout). right. exact Hin.
  - cbv zeta in H. destruct (String.eqb_spec line "") as [->|Hline].
    { injection H as <- <-. cbn. repeat split; eauto. }
    destruct (String.eqb_spec (strip line) "") as [Hblank|Hblank].
    { apply IH in H as (Hc & Hl & Hr). cbn in Hl.
      split; [exact Hc|]. split; [cbn; lia|].
      destruct r as [msg|e]; [|exact Hr].
      destruct Hr as (line' & Hin & Hr). exists line'. split; [|exact Hr].
      rewrite (events_of_stdout _ Hout). right. exact Hin. }
    destruct (json_loads (strip line)) as [message|] eqn:Hload.
    + assert (Hfound : exists line',
                 In (Ready line') (events s)
                 /\ strip line' <> "" /\ json_loads (strip line') = Some message).
      { exists line. rewrite (events_of_stdout _ Hout). split; [now left|auto]. }
      destruct (verbose (self s)).
      * destruct (py_contains "id" message) as [has_id|e] eqn:Hid.
        -- injection H as <- <-. destruct has_id; cbn; repeat split; auto.
        -- injection H as <- <-. cbn. repeat split; auto.
           destruct message; cbn in Hid; try discriminate; injection Hid as <-; auto.
      * injection H as <- <-. cbn. repeat split; auto.
    + apply IH in H as (Hc & Hl & Hr).
      assert (Hc' : core (after_discarding s line ticks evs) = core s)
        by (unfold after_discarding; destruct (_ && _); reflexivity).
      assert (Hl' : clock (after_discarding s line ticks evs) = ticks)
        by (unfold after_discarding; destruct (_ && _); reflexivity).
      assert (He' : events (after_discarding s line ticks evs) = evs)
        by (unfold after_discarding; destruct (_ && _); reflexivity).
      rewrite Hc' in Hc. rewrite Hl' in Hl. rewrite He' in Hr.
      split; [exact Hc|]. split; [cbn; lia|].
      destruct r as [msg|e]; [|exact Hr].
      destruct Hr as (line' & Hin & Hr). exists line'. split; [|exact Hr].
      rewrite (events_of_stdout _ Hout). right. exact Hin.
  - apply IH in H as (Hc & Hl & Hr). cbn in Hl.
    split; [exact Hc|]. split; [cbn; lia|exact Hr].
Qed.

Lemma read_until_skips (deadline : Z) (s : session) (t : Z) (ticks : list Z)
  (line : string) (evs : list out_event) :
  clock s = t :: ticks ->
  0 < deadline - t ->
  stdout (process (self s)) = Some (Ready line :: evs) ->
  line <> "" ->
  strip line = "" \/ json_loads (strip line) = None ->
  read_until deadline s = read_until deadline (after_discarding s line ticks evs).
Proof.
  intros Hck Hleft Hout Hline Hjunk.
  assert (Hl' : clock (after_discarding s line ticks evs) = ticks)
    by (unfold after_discarding; destruct (_ && _); reflexivity).
  unfold read_until. rewrite Hl', Hck. cbn [List.length].
  rewrite read_loop_turn, Hck, Hout.
  replace (deadline - t <=? 0) with false by (symmetry; apply Z.leb_gt; lia).
  cbv zeta.
  destruct (String.eqb_spec line ""); [contradiction|].
  destruct (String.eqb_spec (strip line) "") as [Hblank|Hblank].
  - unfold after_discarding, nonempty. rewrite Hblank. cbn [String.eqb negb].
    rewrite andb_false_r. reflexivity.
  - destruct Hjunk as [Hjunk|Hjunk]; [contradiction|]. rewrite Hjunk. reflexivity.
Qed.

Lemma read_message_post (timeout : Z) (s s' : session) (r : result json) :
  _read_message timeout s = Some (r, s') ->
  core s' = core s
  /\ (List.length (clock s') <= List.length (clock s))%nat
  /\ match r with
     | Ok msg =>
         exists line,
           In (Ready line) (events s)
           /\ strip line <> "" /\ json_loads (strip line) = Some msg
     | Raise e =>
         e = MCPError StdoutUnavailable
         \/ e = MCPError TimedOutWaitingForMessage
         \/ (exists code, e = MCPError (ServerExited code))
         \/ e = TypeError
     end.
Proof.
  unfold _read_message, bind at 1, get_self.
  destruct (stdout (process (self s))) as [evs|] eqn:Hout.
  - unfold bind, monotonic. destruct (clock s) as [|t ticks] eqn:Hck; [discriminate|].
    unfold read_until. intros H. apply read_loop_post in H as (Hc & Hl & Hr).
    cbn in Hl. split; [exact Hc|]. split; [cbn; lia|].
    destruct r as [msg|e]; [exact Hr|tauto].
  - intros [= <- <-]. repeat split; auto.
Qed.

End ReadLoop.

(** ** The read loop and the exceptions it lets through *)

Section UncaughtExceptions.

Context {lib : JsonLib} {faults : FaultLib}.

(** One turn of the loop, by what the clock and the response stream hold. *)
Lemma uncaught_read_loop_turn (fuel : nat) (deadline : Z) (s : session) :
  Uncaught.read_loop (S fuel) deadline s
  = match clock s with
    | [] => None
    | t :: ticks =>
        if deadline - t <=? 0
        then Some (Raise (MCPError TimedOutWaitingForMessage), with_clock s ticks)
        else
          match stdout (process (self s)) with
          | Some (NotReady :: evs) =>
              Uncaught.read_loop fuel deadline (with_events (with_clock s ticks) evs)
          | Some (Ready line :: evs) =>
              let s2 := with_events (with_clock s ticks) evs in
              match readline_fault line with
              | Some e => Some (Raise e, s2)
              | None =>
                  if String.eqb line "" then
                    Some (Raise (MCPError (ServerExited (poll (process (self s))))), s2)
                  else if String.eqb (strip line) "" then
                    Uncaught.read_loop fuel deadline s2
                  else
                    match Uncaught.loads (strip line) with
                    | Uncaught.OtherError e => Some (Raise e, s2)
                    | Uncaught.JSONDecodeError =>
                        Uncaught.read_loop fuel deadline
                          (after_discarding s line ticks evs)
                    | Uncaught.Decoded message =>
                        if verbose (self s) then
                          match py_contains "id" message with
                          | Ok has_id =>
                              Some (Ok message,
                                    if negb has_id
                                    then with_console s2
                                           (console s
                                            ++ [("[mcp-notify] " ++ strip line)%string])
                                    else s2)
                          | Raise e => Some (Raise e, s2)
                          end
                        else Some (Ok message, s2)
                    end
              end
          | _ => Uncaught.read_loop fuel deadline (with_clock s ticks)
          end
    end.
Proof.
  cbn [Uncaught.read_loop]. unfold bind at 1, monotonic.
  destruct (clock s) as [|t ticks] eqn:Hck; [reflexivity|]. cbv zeta.
  destruct (deadline - t <=? 0); [reflexivity|].
  unfold bind at 1, select. cbn [self process with_clock].
  destruct (stdout (process (self s))) as [[|[|line] evs]|] eqn:Hout;
    cbn [negb]; try reflexivity.
  unfold bind at 1, Uncaught.readline, bind at 1, readline.
  cbn [self process with_clock]. rewrite Hout.
  destruct (readline_fault line) as [e|]; [reflexivity|]. unfold ret at 1.
  destruct (String.eqb line ""); [reflexivity|].
  unfold after_discarding, nonempty.
  destruct (String.eqb (strip line) ""); [reflexivity|].
  destruct (Uncaught.loads (strip line)) as [message| |e].
  - unfold bind, get_self. cbn [self with_self with_events with_clock verbose
                                  with_process].
    destruct (verbose (self s)); [|reflexivity].
    unfold lift. destruct (py_contains "id" message) as [[|]|e]; reflexivity.
  - unfold bind at 1. unfold bind at 1, get_self.
    cbn [self with_self with_events with_clock verbose with_process].
    destruct (verbose (self s)); reflexivity.
  - reflexivity.
Qed.


Lemma reports_app (c : MCPClient) (evs evs' : list out_event) :
  Uncaught.reports c (evs ++ evs')
  = (Uncaught.reports c evs ++ Uncaught.reports c evs')%list.
Proof.
  unfold Uncaught.reports. destruct (verbose c); [|reflexivity].
  apply flat_map_app.
Qed.

Lemma after_reading_twice (s : session) (ticks ticks' : list Z)
  (evs evs' : list out_event) (printed printed' : list string) :
  Uncaught.after_reading (Uncaught.after_reading s ticks evs printed)
    ticks' evs' printed'
  = Uncaught.after_reading s ticks' evs' (printed ++ printed').
Proof.
  unfold Uncaught.after_reading. cbn. now rewrite app_assoc.
Qed.

Lemma after_reading_later (s : session) (ck ticks : list Z)
  (evs : list out_event) (printed : list string) :
  Uncaught.after_reading (with_clock s ck) ticks evs printed
  = Uncaught.after_reading s ticks evs printed.
Proof. reflexivity. Qed.

Lemma after_reading_nothing (s : session) (ticks : list Z)
  (evs : list out_event) :
  clock s = ticks ->
  stdout (process (self s)) = Some evs ->
  Uncaught.after_reading s ticks evs [] = s.
Proof.
  destruct s as [[cmd timeout verb next buf [i o e st]] ck printed].
  cbn. intros <- ->. unfold Uncaught.after_reading. cbn.
  now rewrite app_nil_r.
Qed.

Lemma reports_nil (c : MCPClient) : Uncaught.reports c [] = [].
Proof. unfold Uncaught.reports. now destruct (verbose c). Qed.

(** A turn on an event at which the loop goes round: one reading of the
    clock and the event are used up, the deadline stays. *)
Lemma idle_turn (fuel : nat) (deadline : Z) (s : session) (t : Z)
  (ticks : list Z) (ev : out_event) (evs : list out_event) :
  clock s = t :: ticks ->
  t < deadline ->
  stdout (process (self s)) = Some (ev :: evs) ->
  Uncaught.idle ev ->
  Uncaught.read_loop (S fuel) deadline s
  = Uncaught.read_loop fuel deadline
      (Uncaught.after_reading s ticks evs (Uncaught.reports (self s) [ev])).
Proof.
  intros Hck Hleft Hout Hidle.
  rewrite uncaught_read_loop_turn, Hck, Hout.
  replace (deadline - t <=? 0) with false by (symmetry; apply Z.leb_gt; lia).
  unfold Uncaught.after_reading, Uncaught.reports.
  destruct ev as [|line].
  - f_equal. cbn. destruct (verbose (self s)); now rewrite app_nil_r.
  - destruct Hidle as (Hline & Hfault & Hjunk). cbv zeta. rewrite Hfault.
    destruct (String.eqb_spec line ""); [contradiction|].
    unfold after_discarding, nonempty. cbn [flat_map].
    destruct (String.eqb_spec (strip line) "") as [Hblank|Hblank].
    + f_equal. cbn. destruct (verbose (self s)); now rewrite app_nil_r.
    + destruct Hjunk as [Hjunk|Hjunk]; [contradiction|]. rewrite Hjunk.
      f_equal. cbn [negb andb]. rewrite andb_true_r.
      destruct (verbose (self s)); cbn; now rewrite ?app_nil_r.
Qed.

(** The loop passes a run of such events, one reading of the clock each. *)
Lemma idle_turns (quiet : list out_event) :
  forall (ticks : list Z) (fuel : nat) (deadline : Z) (s : session)
         (rest : list Z) (evs : list out_event),
    clock s = (ticks ++ rest)%list ->
    List.length ticks = List.length quiet ->
    stdout (process (self s)) = Some (quiet ++ evs)%list ->
    Forall Uncaught.idle quiet ->
    Forall (fun t => t < deadline) ticks ->
    Uncaught.read_loop (List.length quiet + S fuel) deadline s
    = Uncaught.read_loop (S fuel) deadline
        (Uncaught.after_reading s rest evs (Uncaught.reports (self s) quiet)).
Proof.
  induction quiet as [|ev quiet IH];
    intros ticks fuel deadline s rest evs Hck Hlen Hout Hidle Hearly.
  - destruct ticks; [|discriminate]. cbn [List.length Nat.add app] in *.
    rewrite reports_nil, (after_reading_nothing _ Hck Hout). reflexivity.
  - destruct ticks as [|t ticks]; [discriminate|].
    inversion Hidle as [|? ? Hev Hquiet]; subst.
    inversion Hearly as [|? ? Ht Hticks]; subst.
    cbn [List.length Nat.add]. cbn [app] in Hck, Hout.
    rewrite (idle_turn _ _ Hck Ht Hout Hev).
    rewrite (IH ticks fuel deadline _ rest evs);
      [|reflexivity|cbn in Hlen; lia|reflexivity|exact Hquiet|exact Hticks].
    rewrite after_reading_twice.
    change (ev :: quiet) with ([ev] ++ quiet)%list. rewrite reports_app.
    reflexivity.
Qed.


(** A turn on a line that [json.loads] decodes. *)
Lemma decoded_turn (fuel : nat) (deadline : Z) (s : session) (t : Z)
  (rest : list Z) (line : string) (evs : list out_event) (msg : json)
  (has_id : bool) :
  clock s = t :: rest ->
  t < deadline ->
  stdout (process (self s)) = Some (Ready line :: evs) ->
  line <> "" ->
  readline_fault line = None ->
  strip line <> "" ->
  Uncaught.loads (strip line) = Uncaught.Decoded msg ->
  py_contains "id" msg = Ok has_id ->
  Uncaught.read_loop (S fuel) deadline s
  = Some (Ok msg,
          Uncaught.after_reading s rest evs
            (if verbose (self s) && negb has_id
             then [("[mcp-notify] " ++ strip line)%string]
             else [])).
Proof.
  intros Hck Hleft Hout Hline Hfault Hblank Hload Hid.
  rewrite uncaught_read_loop_turn, Hck, Hout.
  replace (deadline - t <=? 0) with false by (symmetry; apply Z.leb_gt; lia).
  cbv zeta. rewrite Hfault.
  destruct (String.eqb_spec line ""); [contradiction|].
  destruct (String.eqb_spec (strip line) ""); [contradiction|].
  rewrite Hload, Hid. unfold Uncaught.after_reading.
  destruct (verbose (self s)), has_id; cbn; rewrite ?app_nil_r; reflexivity.
Qed.

(** A turn that starts at the deadline or after it. *)
Lemma late_turn (fuel : nat) (deadline : Z) (s : session) (t : Z)
  (rest : list Z) :
  clock s = t :: rest ->
  deadline <= t ->
  Uncaught.read_loop (S fuel) deadline s
  = Some (Raise (MCPError TimedOutWaitingForMessage), with_clock s rest).
Proof.
  intros Hck Hlate. rewrite uncaught_read_loop_turn, Hck.
  replace (deadline - t <=? 0) with true by (symmetry; apply Z.leb_le; lia).
  reflexivity.
Qed.

Lemma uncaught_read_message_run (timeout : Z) (s : session) (t0 : Z)
  (ticks : list Z) (evs : list out_event) :
  clock s = t0 :: ticks ->
  stdout (process (self s)) = Some evs ->
  Uncaught._read_message timeout s
  = Uncaught.read_until (t0 + timeout) (with_clock s ticks).
Proof.
  intros Hck Hout. unfold Uncaught._read_message, bind at 1, get_self.
  rewrite Hout. unfold bind, monotonic. rewrite Hck. reflexivity.
Qed.

(** [_read_message] with its loop at the first event that is not passed
    over: [quiet] has been read in as many turns. *)
Lemma read_message_after_idle (timeout : Z) (s : session) (t0 : Z)
  (ticks rest : list Z) (quiet evs : list out_event) :
  clock s = t0 :: (ticks ++ rest)%list ->
  stdout (process (self s)) = Some (quiet ++ evs)%list ->
  Forall Uncaught.idle quiet ->
  List.length ticks = List.length quiet ->
  Forall (fun x => x < t0 + timeout) ticks ->
  rest <> [] ->
  Uncaught._read_message timeout s
  = Uncaught.read_loop (S (List.length rest)) (t0 + timeout)
      (Uncaught.after_reading s rest evs (Uncaught.reports (self s) quiet)).
Proof.
  intros Hck Hout Hidle Hlen Hearly Hrest.
  rewrite (uncaught_read_message_run _ _ Hck Hout). unfold Uncaught.read_until.
  cbn [clock with_clock]. destruct rest as [|t rest]; [contradiction|].
  replace (S (List.length (ticks ++ t :: rest)))
    with (List.length quiet + S (S (List.length rest)))%nat
    by (rewrite length_app; cbn [List.length]; lia).
  rewrite (@idle_turns quiet ticks (S (List.length rest)) (t0 + timeout)
             (with_clock s (ticks ++ t :: rest)) (t :: rest) evs);
    [|reflexivity|exact Hlen|exact Hout|exact Hidle|exact Hearly].
  reflexivity.
Qed.

(** What a run of the loop can end with, and on which line. *)
Lemma uncaught_read_loop_post (fuel : nat) (deadline : Z) (s s' : session)
  (r : result json) :
  Uncaught.read_loop fuel deadline s = Some (r, s') ->
  match r with
  | Ok msg =>
      exists line,
        In (Ready line) (events s)
        /\ ~ Uncaught.dropped line
        /\ readline_fault line = None
        /\ Uncaught.loads (strip line) = Uncaught.Decoded msg
  | Raise e =>
      e = MCPError TimedOutWaitingForMessage
      \/ (In (Ready "") (events s)
          /\ exists code, e = MCPError (ServerExited code))
      \/ (exists line msg,
             In (Ready line) (events s)
             /\ ~ Uncaught.dropped line
             /\ Uncaught.loads (strip line) = Uncaught.Decoded msg
             /\ py_contains "id" msg = Raise e)
      \/ (exists line,
             In (Ready line) (events s)
             /\ ~ Uncaught.dropped line
             /\ (readline_fault line = Some e
                 \/ Uncaught.loads (strip line) = Uncaught.OtherError e))
  end.
Proof.
  revert s. induction fuel as [|fuel IH]; intros s H; [discriminate|].
  rewrite uncaught_read_loop_turn in H.
  destruct (clock s) as [|t ticks] eqn:Hck; [discriminate|].
  destruct (deadline - t <=? 0).
  { injection H as <- <-. auto. }
  assert (Hlater : forall line evs s1,
             stdout (process (self s)) = Some (line :: evs) ->
             events s1 = evs ->
             Uncaught.read_loop fuel deadline s1 = Some (r, s') ->
             match r with
             | Ok msg =>
                 exists line,
                   In (Ready line) (events s)
                   /\ ~ Uncaught.dropped line
                   /\ readline_fault line = None
                   /\ Uncaught.loads (strip line) = Uncaught.Decoded msg
             | Raise e =>
                 e = MCPError TimedOutWaitingForMessage
                 \/ (In (Ready "") (events s)
                     /\ exists code, e = MCPError (ServerExited code))
                 \/ (exists line msg,
                        In (Ready line) (events s)
                        /\ ~ Uncaught.dropped line
                        /\ Uncaught.loads (strip line) = Uncaught.Decoded msg
                        /\ py_contains "id" msg = Raise e)
                 \/ (exists line,
                        In (Ready line) (events s)
                        /\ ~ Uncaught.dropped line
                        /\ (readline_fault line = Some e
                            \/ Uncaught.loads (strip line) = Uncaught.OtherError e))
             end).
  { intros ev evs s1 Hout Hevs Hrun. apply IH in Hrun.
    rewrite (events_of_stdout _ Hout). rewrite Hevs in Hrun.
    destruct r as [msg|e].
    - destruct Hrun as (line & Hin & Hrun). exists line. split; [now right|exact Hrun].
    - destruct Hrun as [Hrun|[(Hin & Hrun)|[(line & msg & Hin & Hrun)|(line & Hin & Hrun)]]];
        [auto| | |].
      + right. left. split; [now right|exact Hrun].
      + right. right. left. exists line, msg. split; [now right|exact Hrun].
      + right. right. right. exists line. split; [now right|exact Hrun]. }
  destruct (stdout (process (self s))) as [[|[|line] evs]|] eqn:Hout.
  - apply IH in H. exact H.
  - refine (Hlater _ _ _ eq_refl _ H). reflexivity.
  - cbv zeta in H. rewrite (events_of_stdout _ Hout).
    destruct (readline_fault line) as [e|] eqn:Hfault.
    { injection H as <- <-. right. right. right. exists line.
      split; [now left|]. split; [|now left].
      intros (_ & Hnone & _). congruence. }
    destruct (String.eqb_spec line "") as [->|Hline].
    { injection H as <- <-. right. left. split; [now left|eauto]. }
    destruct (String.eqb_spec (strip line) "") as [Hblank|Hblank].
    { rewrite <- (events_of_stdout _ Hout).
      refine (Hlater _ _ _ eq_refl _ H). reflexivity. }
    assert (Hkept : Uncaught.loads (strip line) <> Uncaught.JSONDecodeError ->
               ~ Uncaught.dropped line).
    { intros Hnot (_ & _ & [Hb|Hj]); contradiction. }
    destruct (Uncaught.loads (strip line)) as [message| |e] eqn:Hload.
    + assert (Hnot : ~ Uncaught.dropped line) by (apply Hkept; discriminate).
      destruct (verbose (self s)).
      * destruct (py_contains "id" message) as [has_id|e] eqn:Hid.
        -- injection H as <- <-. exists line. split; [now left|auto].
        -- injection H as <- <-. right. right. left. exists line, message.
           split; [now left|auto].
      * injection H as <- <-. exists line. split; [now left|auto].
    + rewrite <- (events_of_stdout _ Hout).
      refine (Hlater _ _ _ eq_refl _ H).
      unfold after_discarding. destruct (_ && _); reflexivity.
    + injection H as <- <-. right. right. right. exists line.
      split; [now left|]. split; [apply Hkept; discriminate|now right].
  - apply IH in H. exact H.
Qed.


(** Where neither library call raises anything but [JSONDecodeError], the
    loop is the loop of [SmokeTest]. *)
Lemma read_loop_without_faults (fuel : nat) (deadline : Z) (s : session) :
  (forall text, loads_fault text = None) ->
  (forall line, readline_fault line = None) ->
  Uncaught.read_loop fuel deadline s = read_loop fuel deadline s.
Proof.
  intros Hloads Hreadline. revert s.
  induction fuel as [|fuel IH]; intros s; [reflexivity|].
  rewrite uncaught_read_loop_turn, read_loop_turn.
  destruct (clock s) as [|t ticks]; [reflexivity|].
  destruct (deadline - t <=? 0); [reflexivity|].
  destruct (stdout (process (self s))) as [[|[|line] evs]|]; try apply IH.
  cbv zeta. rewrite Hreadline.
  destruct (String.eqb line ""); [reflexivity|].
  destruct (String.eqb (strip line) ""); [apply IH|].
  unfold Uncaught.loads. rewrite Hloads.
  destruct (json_loads (strip line)); [reflexivity|apply IH].
Qed.

Lemma read_message_without_faults (timeout : Z) (s : session) :
  (forall text, loads_fault text = None) ->
  (forall line, readline_fault line = None) ->
  Uncaught._read_message timeout s = _read_message timeout s.
Proof.
  intros Hloads Hreadline.
  unfold Uncaught._read_message, _read_message, bind at 1 3, get_self.
  destruct (stdout (process (self s))); [|reflexivity].
  unfold bind, monotonic. destruct (clock s); [reflexivity|].
  apply read_loop_without_faults; assumption.
Qed.


End UncaughtExceptions.

Section UncaughtExamples.

Import Examples FaultExamples.



End UncaughtExamples.

(** ** Requests *)

Section Request.

Context {lib : JsonLib}.

(** One turn of the loop of [request], by what the clock holds and what
    [_read_message] comes back with. *)
Lemma request_loop_turn (fuel : nat) (request_id : Z) (method : string)
  (started limit : Z) (s : session) :
  request_loop (S fuel) request_id method started limit s
  = match clock s with
    | [] => None
    | t :: ticks =>
        if limit - (t - started) <=? 0
        then Some (Raise (MCPError (TimedOutWaitingFor method)), with_clock s ticks)
        else
          match _read_message (limit - (t - started)) (with_clock s ticks) with
          | None => None
          | Some (Raise e, s2) => Some (Raise e, s2)
          | Some (Ok msg, s2) =>
              match dict_get msg "id" JNull with
              | Raise e => Some (Raise e, s2)
              | Ok id =>
                  if py_eq_int id request_id then Some (Ok msg, s2)
                  else request_loop fuel request_id method started limit s2
              end
          end
    end.
Proof.
  cbn [request_loop]. unfold bind at 1, monotonic.
  destruct (clock s) as [|t ticks]; [reflexivity|]. cbv zeta.
  destruct (limit - (t - started) <=? 0); [reflexivity|].
  unfold bind at 1.
  destruct (_read_message (limit - (t - started)) (with_clock s ticks))
    as [[[msg|e] s2]|]; try reflexivity.
  unfold bind at 1, lift.
  destruct (dict_get msg "id" JNull) as [id|e]; [|reflexivity].
  destruct (py_eq_int id request_id); reflexivity.
Qed.

(** What a run of the loop leaves behind and what it can end with. *)
Lemma request_loop_post (fuel : nat) (request_id : Z) (method : string)
  (started limit : Z) (s s' : session) (r : result json) :
  request_loop fuel request_id method started limit s = Some (r, s') ->
  core s' = core s
  /\ (List.length (clock s') < List.length (clock s))%nat
  /\ match r with
     | Ok msg =>
         exists id, dict_get msg "id" JNull = Ok id /\ py_eq_int id request_id = true
     | Raise e =>
         e = MCPError (TimedOutWaitingFor method)
         \/ e = MCPError StdoutUnavailable
         \/ e = MCPError TimedOutWaitingForMessage
         \/ (exists code, e = MCPError (ServerExited code))
         \/ e = TypeError
         \/ e = AttributeError
     end.
Proof.
  revert s. induction fuel as [|fuel IH]; intros s H; [discriminate|].
  rewrite request_loop_turn in H.
  destruct (clock s) as [|t ticks] eqn:Hck; [discriminate|].
  destruct (limit - (t - started) <=? 0).
  { injection H as <- <-. cbn. repeat split; auto. }
  destruct (_read_message (limit - (t - started)) (with_clock s ticks))
    as [[[msg|e] s2]|] eqn:Hread; [| |discriminate].
  - apply read_message_post in Hread as (Hc & Hl & _). cbn in Hl.
    destruct (dict_get msg "id" JNull) as [id|e] eqn:Hid.
    + destruct (py_eq_int id request_id) eqn:Heq.
      * injection H as <- <-. split; [exact Hc|]. split; [cbn; lia|]. eauto.
      * apply IH in H as (Hc' & Hl' & Hr).
        split; [now rewrite Hc'|]. split; [cbn; lia|exact Hr].
    + injection H as <- <-. split; [exact Hc|]. split; [cbn; lia|].
      destruct msg; cbn in Hid; try discriminate; injection Hid as <-; tauto.
  - injection H as <- <-.
    apply read_message_post in Hread as (Hc & Hl & Hr). cbn in Hl.
    split; [exact Hc|]. split; [cbn; lia|]. tauto.
Qed.

(** Fuel beyond the length of the clock changes nothing. *)
Lemma request_loop_fuel (f1 f2 : nat) (request_id : Z) (method : string)
  (started limit : Z) (s : session) :
  (List.length (clock s) < f1)%nat ->
  (List.length (clock s) < f2)%nat ->
  request_loop f1 request_id method started limit s
  = request_loop f2 request_id method started limit s.
Proof.
  revert f2 s. induction f1 as [|f1 IH]; intros f2 s H1 H2; [lia|].
  destruct f2 as [|f2]; [lia|].
  rewrite !request_loop_turn.
  destruct (clock s) as [|t ticks] eqn:Hck; [reflexivity|].
  destruct (limit - (t - started) <=? 0); [reflexivity|].
  destruct (_read_message (limit - (t - started)) (with_clock s ticks))
    as [[[msg|e] s2]|] eqn:Hread; try reflexivity.
  apply read_message_post in Hread as (_ & Hl & _). cbn in Hl, H1, H2.
  destruct (dict_get msg "id" JNull) as [id|e]; [|reflexivity].
  destruct (py_eq_int id request_id); [reflexivity|].
  apply IH; lia.
Qed.

Lemma await_response_skips (request_id : Z) (method : string)
  (started limit : Z) (s s2 : session) (t : Z) (ticks : list Z)
  (msg id : json) :
  clock s = t :: ticks ->
  0 < limit - (t - started) ->
  _read_message (limit - (t - started)) (with_clock s ticks) = Some (Ok msg, s2) ->
  dict_get msg "id" JNull = Ok id ->
  py_eq_int id request_id = false ->
  await_response request_id method started limit s
  = await_response request_id method started limit s2.
Proof.
  intros Hck Hleft Hread Hid Hne. unfold await_response.
  rewrite request_loop_turn, Hck, Hread, Hid, Hne.
  replace (limit - (t - started) <=? 0) with false by (symmetry; apply Z.leb_gt; lia).
  apply read_message_post in Hread as (_ & Hl & _). cbn in Hl.
  apply request_loop_fuel; cbn; lia.
Qed.

(** [request] in one piece: the id is taken and the counter moved before
    anything is sent. *)
Lemma request_run (method : string) (params : json) (timeout : option Z)
  (s : session) :
  request method params timeout s
  = let request_id := _next_id (self s) in
    let s1 := with_self s (with_next_id (self s) (request_id + 1)) in
    match stdin (process (self s)) with
    | None => Some (Raise (MCPError StdinUnavailable), s1)
    | Some PipeBroken => Some (Raise BrokenPipeError, s1)
    | Some (PipeOpen written) =>
        let s2 := after_writing s1 written
                    [(json_dumps (request_payload request_id method params) ++ nl)%string] in
        match clock s with
        | [] => None
        | started :: ticks =>
            await_response request_id method started
              (match timeout with Some t => t | None => request_timeout (self s) end)
              (with_clock s2 ticks)
        end
    end.
Proof.
  unfold request. unfold bind at 1, get_self. unfold bind at 1, put_self.
  unfold bind at 1, _send. unfold bind at 1, get_self.
  cbn [self with_self process with_next_id]. cbv zeta.
  destruct (stdin (process (self s))) as [[written|]|]; try reflexivity.
  unfold put_process. cbn [self with_self process with_next_id].
  unfold bind at 1, monotonic. cbn [clock with_self].
  destruct (clock s) as [|started ticks]; reflexivity.
Qed.

Lemma request_post (method : string) (params : json) (timeout : option Z)
  (s s' : session) (r : result json) :
  request method params timeout s = Some (r, s') ->
  _next_id (self s') = _next_id (self s) + 1
  /\ (forall written,
         stdin (process (self s)) = Some (PipeOpen written) ->
         stdin (process (self s'))
         = Some (PipeOpen
                   (written ++ [(json_dumps (request_payload (_next_id (self s))
                                                            method params) ++ nl)%string])))
  /\ match r with
     | Ok msg =>
         exists id,
           dict_get msg "id" JNull = Ok id
           /\ py_eq_int id (_next_id (self s)) = true
     | Raise e =>
         e = MCPError StdinUnavailable
         \/ e = BrokenPipeError
         \/ e = MCPError (TimedOutWaitingFor method)
         \/ e = MCPError StdoutUnavailable
         \/ e = MCPError TimedOutWaitingForMessage
         \/ (exists code, e = MCPError (ServerExited code))
         \/ e = TypeError
         \/ e = AttributeError
     end.
Proof.
  rewrite request_run. cbv zeta.
  destruct (stdin (process (self s))) as [[written|]|] eqn:Hin.
  - destruct (clock s) as [|started ticks]; [discriminate|].
    unfold await_response. intros H.
    apply request_loop_post in H as (Hc & _ & Hr).
    unfold core, after_writing in Hc. cbn in Hc. injection Hc as _ _ _ Hid _ Hstdin _ _.
    split; [exact Hid|]. split.
    + intros w [= <-]. exact Hstdin.
    + destruct r as [msg|e]; [exact Hr|tauto].
  - intros [= <- <-]. cbn. split; [reflexivity|]. split; [congruence|tauto].
  - intros [= <- <-]. cbn. split; [reflexivity|]. split; [congruence|tauto].
Qed.

Lemma ids_from_lower (n : Z) (k : nat) (x : Z) : In x (ids_from n k) -> n <= x.
Proof.
  revert n. induction k as [|k IH]; intros n; cbn; [tauto|].
  intros [<-|Hin]; [lia|]. apply IH in Hin. lia.
Qed.

Lemma ids_from_sorted (n : Z) (k : nat) : StronglySorted Z.lt (ids_from n k).
Proof.
  revert n. induction k as [|k IH]; intros n; cbn; constructor; [apply IH|].
  apply Forall_forall. intros x Hin. apply ids_from_lower in Hin. lia.
Qed.

Lemma ids_from_nodup (n : Z) (k : nat) : NoDup (ids_from n k).
Proof.
  revert n. induction k as [|k IH]; intros n; cbn; constructor; [|apply IH].
  intros Hin. apply ids_from_lower in Hin. lia.
Qed.

Lemma request_each_post (calls : list (string * json * option Z))
  (s s' : session) (log : list (Z * result json)) :
  request_each calls s = Some (Ok log, s') ->
  map fst log = ids_from (_next_id (self s)) (List.length calls)
  /\ _next_id (self s') = _next_id (self s) + Z.of_nat (List.length calls)
  /\ (forall written,
         stdin (process (self s)) = Some (PipeOpen written) ->
         stdin (process (self s'))
         = Some (PipeOpen (written ++ request_lines (_next_id (self s)) calls)))
  /\ (forall i msg,
         In (i, Ok msg) log ->
         exists id, dict_get msg "id" JNull = Ok id /\ py_eq_int id i = true).
Proof.
  revert s log. induction calls as [|[[method params] timeout] calls IH];
    intros s log H.
  - injection H as <- <-. cbn. rewrite Z.add_0_r.
    repeat split; auto.
    + intros written ->. now rewrite app_nil_r.
    + intros i msg [].
  - cbn [request_each] in H. unfold bind at 1, get_self in H.
    apply bind_inv in H as [(r & s1 & Hreq & H)|(e & Hreq & _)].
    2:{ unfold try_request in Hreq.
        destruct (request method params timeout s) as [[r0 s0]|]; discriminate. }
    unfold try_request in Hreq.
    destruct (request method params timeout s) as [[r0 s0]|] eqn:Hrun;
      [|discriminate].
    injection Hreq as <- <-.
    apply request_post in Hrun as (Hid & Hsent & Hr).
    apply bind_inv in H as [(rest & s2 & Hrest & H)|(e & _ & Habs)];
      [|discriminate].
    injection H as <- <-.
    apply IH in Hrest as (Hids & Hnext & Hlines & Hlog).
    cbn [map fst List.length ids_from request_lines].
    split; [now rewrite Hids, Hid|].
    split; [rewrite Hnext, Hid; lia|].
    split.
    + intros written Hopen. rewrite (Hlines _ (Hsent _ Hopen)), Hid, <- app_assoc.
      reflexivity.
    + intros i msg [[= <- ->]|Hin]; [exact Hr|now apply Hlog].
Qed.

(** C2: in any sequence of requests on a session, the request made while
    the counter is [n] takes the id [n], sends it in its message and leaves
    the counter at [n + 1], whatever the outcome; so the ids taken are
    consecutive, strictly increasing and never repeated; and a response that
    a request returns carries an id equal to the id the request sent (as
    Python compares them: when the response's id is an integer, the same
    integer). *)
Theorem request_ids_fresh_and_matched :
  forall (calls : list (string * json * option Z)) (s s' : session)
         (log : list (Z * result json)),
    request_each calls s = Some (Ok log, s') ->
    map fst log = ids_from (_next_id (self s)) (List.length calls)
    /\ StronglySorted Z.lt (map fst log)
    /\ NoDup (map fst log)
    /\ _next_id (self s') = _next_id (self s) + Z.of_nat (List.length calls)
    /\ (forall written,
           stdin (process (self s)) = Some (PipeOpen written) ->
           stdin (process (self s'))
           = Some (PipeOpen (written ++ request_lines (_next_id (self s)) calls)))
    /\ (forall n method params,
           dict_get (request_payload n method params) "id" JNull = Ok (JInt n))
    /\ (forall i msg,
           In (i, Ok msg) log ->
           exists id,
             dict_get msg "id" JNull = Ok id
             /\ py_eq_int id i = true
             /\ (forall k, id = JInt k -> k = i)).
Proof.
  intros calls s s' log H.
  apply request_each_post in H as (Hids & Hnext & Hlines & Hlog).
  split; [exact Hids|]. rewrite Hids.
  split; [apply ids_from_sorted|]. split; [apply ids_from_nodup|].
  split; [exact Hnext|]. split; [exact Hlines|]. split; [reflexivity|].
  intros i msg Hin. destruct (Hlog i msg Hin) as (id & Hget & Heq).
  exists id. split; [exact Hget|]. split; [exact Heq|].
  intros k ->. cbn in Heq. now apply Z.eqb_eq.
Qed.


(** C6: when the response to [tools/call] has no [error] member and its
    result has [isError] set to true, [call_tool] raises "Tool '...'
    returned error: ..." with the text of the result's content (of an empty
    content when the result has none), in the state the request left. *)
Theorem call_tool_raises_on_error_flag :
  forall name arguments timeout s s' fields result_fields content text,
    request "tools/call" (JObj [("name", JStr name); ("arguments", arguments)])
            timeout s
    = Some (Ok (JObj fields), s') ->
    assoc "error" fields = None ->
    assoc "result" fields = Some (JObj result_fields) ->
    assoc "isError" result_fields = Some (JBool true) ->
    content = match assoc "content" result_fields with
              | Some c => c
              | None => JArr []
              end ->
    text_from_content content = Ok text ->
    call_tool name arguments timeout s
    = Some (Raise (MCPError (ToolReturnedError name text)), s').
Proof.
  intros name arguments timeout s s' fields result_fields content text
         Hreq Herr Hres Hflag Hcontent Htext.
  unfold call_tool. erewrite bind_ok by exact Hreq.
  unfold bind, lift. cbn [py_contains dict_get].
  rewrite Herr, Hres. cbn [dict_get]. rewrite Hflag. cbn [truthy].
  rewrite <- Hcontent, Htext. reflexivity.
Qed.

End Request.

Section RequestExamples.

Import Examples.



(** C2, witness: two requests in a row take the ids 1 and 2. *)
Lemma request_ids_fresh_and_matched_witness :
  exists log s',
    request_each two_calls two_call_session = Some (Ok log, s')
    /\ map fst log = [1; 2]
    /\ _next_id (self s') = 3.
Proof.
  edestruct (@request_ids_fresh_and_matched example_codec two_calls two_call_session)
    as (Hids & _ & _ & Hnext & _); [vm_compute; reflexivity|].
  eexists. eexists. split; [vm_compute; reflexivity|].
  split; [exact Hids|exact Hnext].
Defined.

(** C6, witness: the tool answers with [isError] set and one text part. *)
Lemma call_tool_raises_on_error_flag_witness :
  exists s',
    call_tool "get_node" (JObj []) None tool_error_session
    = Some (Raise (MCPError (ToolReturnedError "get_node" "node not found")), s').
Proof.
  eexists.
  eapply (@call_tool_raises_on_error_flag example_codec).
  - vm_compute. reflexivity.
  - reflexivity.
  - reflexivity.
  - reflexivity.
  - reflexivity.
  - reflexivity.
Defined.

(** C9, witness: the notification that ends the handshake. *)
Lemma notify_each_only_writes_witness :
  notify_each [("notifications/initialized", JObj [])] prompt_session
  = Some (Ok tt,
          after_writing prompt_session []
            (notify_lines [("notifications/initialized", JObj [])])).
Proof.
  apply (proj2 (@notify_each_only_writes example_codec)
           [("notifications/initialized", JObj [])] prompt_session []).
  reflexivity.
Defined.

End RequestExamples.

(** ** Shutdown *)

Section Stop.

(** [stop] by the status of the process. *)
Lemma stop_run (s : session) :
  stop s
  = Some (Ok tt,
          match status (process (self s)) with
          | Exited _ => s
          | Running (Some code) | Terminating (Some code) =>
              with_self s (with_process (self s)
                             (with_status (process (self s)) (Exited code)))
          | Running None | Terminating None =>
              with_self s (with_process (self s)
                             (with_status (process (self s)) Killed))
          | Killed =>
              with_self s (with_process (self s)
                             (with_status (process (self s)) (Exited (-9))))
          end).
Proof.
  destruct s as [[cmd timeout verb next buf [i o e st]] ticks printed].
  destruct st as [[code|]|[code|]| |code]; reflexivity.
Qed.

Lemma stop_exited (s : session) (code : Z) :
  poll (process (self s)) = Some code -> stop s = Some (Ok tt, s).
Proof.
  intros Hpoll. rewrite stop_run. unfold poll in Hpoll.
  destruct (status (process (self s))); try discriminate. reflexivity.
Qed.

(** A [stop] on a process that was killed and not waited for collects
    it. *)
Lemma stop_collects_killed (s : session) :
  status (process (self s)) = Killed ->
  stop s
  = Some (Ok tt,
          with_self s (with_process (self s)
                         (with_status (process (self s)) (Exited (-9))))).
Proof.
  intros Hkilled. rewrite stop_run, Hkilled. reflexivity.
Qed.

(** C8, as the code has it: [stop] returns, without raising, every time it is
    called, the second time as the first, and changes nothing but the
    status of the process. When the process has exited, [stop] changes
    nothing at all; and that is the state the first [stop] leaves, so that
    the second is a no-op, unless the first had to kill the process, which
    it does for a process that does not answer the terminate signal within
    the grace period, and only then. *)
Theorem stop_again_returns :
  (forall s, exists s1 s2,
      stop s = Some (Ok tt, s1)
      /\ stop s1 = Some (Ok tt, s2)
      /\ s1 = with_self s (with_process (self s)
                             (with_status (process (self s))
                                          (status (process (self s1)))))
      /\ (status (process (self s1)) = Killed
          <-> status (process (self s)) = Running None
              \/ status (process (self s)) = Terminating None)
      /\ (status (process (self s1)) <> Killed ->
          (exists code, poll (process (self s1)) = Some code) /\ s2 = s1))
  /\ (forall s code,
         poll (process (self s)) = Some code -> stop s = Some (Ok tt, s)).
Proof.
  split; [|exact stop_exited].
  intros s. rewrite stop_run.
  destruct s as [[cmd timeout verb next buf [i o e st]] ticks printed].
  cbn [self process status].
  destruct st as [[code|]|[code|]| |code]; eexists; eexists;
    (split; [reflexivity|]); (split; [rewrite stop_run; reflexivity|]);
    cbn [self process status with_self with_process with_status];
    (split; [reflexivity|]); unfold poll; cbn [status];
    repeat match goal with
           | |- _ /\ _ => split
           | |- _ <-> _ => split
           | |- _ -> _ => intros H
           | H : _ \/ _ |- _ => destruct H as [H|H]
           | H : ?x <> ?x |- _ => exfalso; apply H; reflexivity
           | H : _ = _ |- _ => discriminate H
           | |- exists _, _ => eexists
           | |- _ = _ => reflexivity
           | |- _ \/ _ => (left; reflexivity) || (right; reflexivity)
           end.
Qed.

End Stop.

Section StopExamples.

Import Examples.

(** C8, counterexample: the server of [stubborn_session] ignores the
    terminate signal, so the first [stop] kills it and returns while [poll]
    still answers [None]; the second [stop] is then not a no-op: it signals
    and waits again, and leaves another state, in which the process has
    exited with code [-9]. *)
Lemma second_stop_collects_killed_process :
  exists s1 s2,
    stop stubborn_session = Some (Ok tt, s1)
    /\ poll (process (self s1)) = None
    /\ stop s1 = Some (Ok tt, s2)
    /\ poll (process (self s2)) = Some (-9)
    /\ s2 <> s1.
Proof.
  eexists. eexists.
  split; [reflexivity|]. split; [reflexivity|]. split; [reflexivity|].
  split; [reflexivity|]. discriminate.
Qed.

(** C8, witness: the server has exited with code 1 before [stop]; and the
    server of [idle_session] answers the terminate signal, so the second
    [stop] leaves the session as the first one left it. *)
Lemma stop_again_returns_witness :
  stop exited_session = Some (Ok tt, exited_session)
  /\ exists s1,
      stop idle_session = Some (Ok tt, s1)
      /\ status (process (self s1)) = Exited 0
      /\ stop s1 = Some (Ok tt, s1).
Proof.
  destruct stop_again_returns as [Hany Hexited].
  split.
  - apply (Hexited exited_session 1). reflexivity.
  - destruct (Hany idle_session) as (s1 & s2 & Hrun & Hagain & _ & _ & Hsame).
    exists s1. rewrite stop_run in Hrun. injection Hrun as <-.
    split; [reflexivity|]. split; [reflexivity|].
    destruct Hsame as [_ Heq]; [discriminate|].
    rewrite Heq in Hagain. exact Hagain.
Defined.

End StopExamples.

(** ** Deadlines *)

Section Deadlines.

Context {lib : JsonLib}.

(** Nothing but "not ready" comes on the response stream. *)
Lemma silent_tail (s : session) (ev : out_event) (evs : list out_event) :
  stdout (process (self s)) = Some (ev :: evs) ->
  Forall (eq NotReady) (events s) ->
  ev = NotReady /\ Forall (eq NotReady) evs.
Proof.
  intros Hout Hsilent. rewrite (events_of_stdout _ Hout) in Hsilent.
  inversion Hsilent; subst. auto.
Qed.

Lemma read_loop_ends (ticks : list Z) (fuel : nat) (deadline : Z) (s : session) :
  clock s = ticks ->
  (List.length ticks < fuel)%nat ->
  Exists (fun t => deadline <= t) ticks ->
  exists r s', read_loop fuel deadline s = Some (r, s').
Proof.
  revert fuel s. induction ticks as [|t ticks IH]; intros fuel s Hck Hfuel Hpast.
  - inversion Hpast.
  - destruct fuel as [|fuel]; [cbn in Hfuel; lia|]. cbn in Hfuel.
    rewrite read_loop_turn, Hck.
    destruct (Z.leb_spec (deadline - t) 0) as [Hle|Hgt]; [eauto|].
    assert (Hrest : Exists (fun t' => deadline <= t') ticks)
      by (inversion Hpast; subst; [lia|assumption]).
    assert (Hstep : forall s1, clock s1 = ticks ->
               exists r s', read_loop fuel deadline s1 = Some (r, s'))
      by (intros s1 H1; apply IH; [exact H1|lia|exact Hrest]).
    destruct (stdout (process (self s))) as [[|[|line] evs]|]; try (apply Hstep; reflexivity).
    cbv zeta. destruct (String.eqb line ""); [eauto|].
    destruct (String.eqb (strip line) ""); [apply Hstep; reflexivity|].
    destruct (json_loads (strip line)) as [message|].
    + destruct (verbose (self s)); [|eauto].
      destruct (py_contains "id" message); eauto.
    + apply Hstep. unfold after_discarding. destruct (_ && _); reflexivity.
Qed.

Lemma read_loop_silent (ticks : list Z) (fuel : nat) (deadline : Z) (s : session) :
  clock s = ticks ->
  (List.length ticks < fuel)%nat ->
  Exists (fun t => deadline <= t) ticks ->
  Forall (eq NotReady) (events s) ->
  exists s',
    read_loop fuel deadline s
    = Some (Raise (MCPError TimedOutWaitingForMessage), s')
    /\ core s' = core s.
Proof.
  revert fuel s. induction ticks as [|t ticks IH];
    intros fuel s Hck Hfuel Hpast Hsilent.
  - inversion Hpast.
  - destruct fuel as [|fuel]; [cbn in Hfuel; lia|]. cbn in Hfuel.
    rewrite read_loop_turn, Hck.
    destruct (Z.leb_spec (deadline - t) 0) as [Hle|Hgt].
    { eexists. split; reflexivity. }
    assert (Hrest : Exists (fun t' => deadline <= t') ticks)
      by (inversion Hpast; subst; [lia|assumption]).
    destruct (stdout (process (self s))) as [[|ev evs]|] eqn:Hout.
    + destruct (IH fuel (with_clock s ticks) eq_refl ltac:(lia) Hrest Hsilent)
        as (s' & Hrun & Hc). exists s'. split; [exact Hrun|exact Hc].
    + destruct (silent_tail _ Hout Hsilent) as [-> Hevs].
      destruct (IH fuel (with_events (with_clock s ticks) evs) eq_refl
                  ltac:(lia) Hrest Hevs) as (s' & Hrun & Hc).
      exists s'. split; [exact Hrun|exact Hc].
    + destruct (IH fuel (with_clock s ticks) eq_refl ltac:(lia) Hrest Hsilent)
        as (s' & Hrun & Hc). exists s'. split; [exact Hrun|exact Hc].
Qed.

Lemma read_message_run (timeout : Z) (s : session) (t0 : Z) (ticks : list Z)
  (evs : list out_event) :
  clock s = t0 :: ticks ->
  stdout (process (self s)) = Some evs ->
  _read_message timeout s = read_until (t0 + timeout) (with_clock s ticks).
Proof.
  intros Hck Hout. unfold _read_message, bind at 1, get_self. rewrite Hout.
  unfold bind, monotonic. rewrite Hck. reflexivity.
Qed.

Lemma read_message_silent (timeout : Z) (s : session) (t0 : Z) (ticks : list Z)
  (evs : list out_event) :
  clock s = t0 :: ticks ->
  stdout (process (self s)) = Some evs ->
  Exists (fun t => t0 + timeout <= t) ticks ->
  Forall (eq NotReady) evs ->
  exists s',
    _read_message timeout s = Some (Raise (MCPError TimedOutWaitingForMessage), s')
    /\ core s' = core s.
Proof.
  intros Hck Hout Hpast Hsilent. rewrite (read_message_run _ _ Hck Hout).
  unfold read_until.
  destruct (@read_loop_silent ticks (S (List.length ticks)) (t0 + timeout)
              (with_clock s ticks) eq_refl ltac:(lia) Hpast) as (s' & Hr & Hc).
  - unfold events. cbn. rewrite Hout. exact Hsilent.
  - exists s'. split; [exact Hr|exact Hc].
Qed.


(** A request whose limit has already passed when the loop first looks at
    the clock fails with "Timed out waiting for response to ..." after the
    message has been written and the counter moved, and without reading the
    response stream. A request to a server that stays silent fails with
    "Timed out waiting for MCP response" once the clock passes what was left
    of the limit; the message was written and the id is used up. *)
Theorem request_times_out :
  (forall method params timeout s written c0 c1 ticks,
      stdin (process (self s)) = Some (PipeOpen written) ->
      clock s = c0 :: c1 :: ticks ->
      match timeout with Some t => t | None => request_timeout (self s) end
      - (c1 - c0) <= 0 ->
      request method params timeout s
      = Some (Raise (MCPError (TimedOutWaitingFor method)),
              with_clock
                (after_writing
                   (with_self s (with_next_id (self s) (_next_id (self s) + 1)))
                   written
                   [(json_dumps (request_payload (_next_id (self s)) method params)
                     ++ nl)%string])
                ticks))
  /\ (forall method params timeout s written evs c0 c1 c2 ticks,
         stdin (process (self s)) = Some (PipeOpen written) ->
         stdout (process (self s)) = Some evs ->
         Forall (eq NotReady) evs ->
         clock s = c0 :: c1 :: c2 :: ticks ->
         let left :=
           match timeout with Some t => t | None => request_timeout (self s) end
           - (c1 - c0) in
         0 < left ->
         Exists (fun t => c2 + left <= t) ticks ->
         exists s',
           request method params timeout s
           = Some (Raise (MCPError TimedOutWaitingForMessage), s')
           /\ _next_id (self s') = _next_id (self s) + 1
           /\ stdin (process (self s'))
              = Some (PipeOpen
                        (written
                         ++ [(json_dumps (request_payload (_next_id (self s))
                                                         method params) ++ nl)%string]))).
Proof.
  split.
  - intros method params timeout s written c0 c1 ticks Hin Hck Hleft.
    rewrite request_run. cbv zeta. rewrite Hin, Hck.
    unfold await_response. rewrite request_loop_turn. cbn [clock with_clock].
    cbn [self with_self with_next_id after_writing request_timeout with_process].
    destruct (Z.leb_spec
                (match timeout with Some t => t | None => request_timeout (self s) end
                 - (c1 - c0)) 0) as [_|Hgt]; [reflexivity|lia].
  - intros method params timeout s written evs c0 c1 c2 ticks Hin Hout Hsilent
           Hck left Hleft Hpast.
    rewrite request_run. cbv zeta. rewrite Hin, Hck.
    unfold await_response. rewrite request_loop_turn. cbn [clock with_clock].
    cbn [self with_self with_next_id after_writing request_timeout with_process].
    fold left.
    destruct (Z.leb_spec left 0) as [Hle|_]; [lia|].
    match goal with
    | |- context [_read_message left ?st] =>
        destruct (@read_message_silent left st c2 ticks evs eq_refl Hout Hpast Hsilent)
          as (s' & Hread & Hc)
    end.
    exists s'. rewrite Hread. split; [reflexivity|].
    unfold core in Hc. cbn in Hc. injection Hc as _ _ _ Hid _ Hstdin _ _.
    split; [exact Hid|exact Hstdin].
Qed.

End Deadlines.

(** ** Log messages *)

Section LogMessages.

Import Harness.

Context {lib : JsonLib} {strlib : StrLib} {faults : FaultLib}.

Lemma is_dictb_dict (v : json) : is_dictb v = true <-> is_dict v.
Proof.
  split.
  - destruct v; try discriminate. intros _. eexists. reflexivity.
  - intros [fields ->]. reflexivity.
Qed.

Lemma filter_dicts (items : list json) : Forall is_dict (filter is_dictb items).
Proof.
  apply Forall_forall. intros v Hin. apply filter_In in Hin as [_ Hd].
  now apply is_dictb_dict.
Qed.

Lemma parse_log_messages_all_dicts (text : string) :
  Forall is_dict (parse_log_messages text).
Proof.
  unfold parse_log_messages. cbv zeta.
  destruct (_ || _); [constructor|].
  destruct (json_loads (strip text)) as [payload|].
  - destruct payload; try constructor; try apply filter_dicts.
    destruct (assoc "messages" fields) as [[]|]; try constructor.
    apply filter_dicts.
  - repeat constructor. eexists. reflexivity.
Qed.

(** [parse_log_messages] returns dicts only, whatever the text: the members
    of the decoded list (or of the list under [messages]) that are dicts, in
    their order, and nothing when the decoded value has no such list, or when
    the text is blank or says "No log messages". *)
Theorem parse_log_messages_yields_dicts :
  forall text,
    Forall is_dict (parse_log_messages text)
    /\ (forall items,
          json_loads (strip text) = Some (JArr items) ->
          strip text <> "" -> strip text <> "No log messages" ->
          parse_log_messages text = filter is_dictb items)
    /\ (forall fields items,
          json_loads (strip text) = Some (JObj fields) ->
          assoc "messages" fields = Some (JArr items) ->
          strip text <> "" -> strip text <> "No log messages" ->
          parse_log_messages text = filter is_dictb items)
    /\ (forall payload,
          json_loads (strip text) = Some payload ->
          (forall items, payload <> JArr items) ->
          (forall fields items,
              payload = JObj fields -> assoc "messages" fields <> Some (JArr items)) ->
          parse_log_messages text = [])
    /\ (strip text = "" \/ strip text = "No log messages" ->
        parse_log_messages text = []).
Proof.
  intros text. split; [apply parse_log_messages_all_dicts|].
  unfold parse_log_messages. cbv zeta.
  split; [|split; [|split]]; [| | |intros [-> | ->]; reflexivity].
  - intros items Hload Hne Hnone. rewrite Hload.
    destruct (String.eqb_spec (strip text) ""); [contradiction|].
    destruct (String.eqb_spec (strip text) "No log messages"); [contradiction|].
    reflexivity.
  - intros fields items Hload Hmsgs Hne Hnone. rewrite Hload, Hmsgs.
    destruct (String.eqb_spec (strip text) ""); [contradiction|].
    destruct (String.eqb_spec (strip text) "No log messages"); [contradiction|].
    reflexivity.
  - intros payload Hload Hnolist Hnomsgs. rewrite Hload.
    destruct (_ || _); [reflexivity|].
    destruct payload; try reflexivity.
    + exfalso. exact (Hnolist _ eq_refl).
    + destruct (assoc "messages" fields) as [[]|] eqn:Hm; try reflexivity.
      exfalso. exact (Hnomsgs _ _ eq_refl Hm).
Qed.

Lemma snippet_of_dict (fields : list (string * json)) :
  exists snippet, snippet_of (JObj fields) = Ok snippet.
Proof.
  unfold snippet_of. cbn [dict_get rbind]. destruct (negb _); eauto.
Qed.

Lemma snippet_of_other (v : json) :
  ~ is_dict v -> snippet_of v = Raise AttributeError.
Proof.
  intros Hnot. destruct v; try reflexivity. exfalso. apply Hnot. eexists. reflexivity.
Qed.

Lemma snippets_of_dicts (msgs : list json) :
  Forall is_dict msgs ->
  exists snippets,
    snippets_of msgs = Ok snippets /\ List.length snippets = List.length msgs.
Proof.
  induction 1 as [|msg msgs [fields ->] _ (snippets & IH & Hlen)].
  - exists []. auto.
  - destruct (snippet_of_dict fields) as [snippet Hs].
    exists (snippet :: snippets). cbn [snippets_of]. rewrite Hs. cbn [rbind].
    rewrite IH. cbn. auto.
Qed.

Lemma snippets_of_raises (msgs : list json) :
  ~ Forall is_dict msgs -> snippets_of msgs = Raise AttributeError.
Proof.
  induction msgs as [|msg msgs IH]; intros Hnot.
  - exfalso. apply Hnot. constructor.
  - cbn [snippets_of]. destruct msg;
      try reflexivity.
    destruct (snippet_of_dict fields) as [snippet Hs]. rewrite Hs. cbn [rbind].
    rewrite IH; [reflexivity|].
    intros Hall. apply Hnot. constructor; [eexists; reflexivity|exact Hall].
Qed.

(** [summarize_errors] looks at no more than the messages [messages[:limit]]:
    it returns a summary when these are all dicts, whatever follows them, and
    raises [AttributeError] when one of them is not a dict; no message at all
    gives "none". *)
Theorem summarize_errors_inspects_slice :
  forall messages limit,
    (Forall is_dict (slice_to limit messages) ->
     exists summary, summarize_errors messages limit = Ok summary)
    /\ (~ Forall is_dict (slice_to limit messages) ->
        summarize_errors messages limit = Raise AttributeError)
    /\ summarize_errors [] limit = Ok "none".
Proof.
  intros messages limit. split; [|split].
  - intros Hall. unfold summarize_errors. destruct messages as [|m ms]; [eauto|].
    destruct (snippets_of_dicts Hall) as (snippets & Hs & _).
    rewrite Hs. cbn [rbind]. eauto.
  - intros Hnot. unfold summarize_errors. destruct messages as [|m ms].
    + exfalso. apply Hnot. unfold slice_to.
      destruct (0 <=? limit); rewrite firstn_nil; constructor.
    + rewrite (snippets_of_raises Hnot). reflexivity.
  - reflexivity.
Qed.

Lemma slice_to_dicts {A} (P : A -> Prop) (stop : Z) (l : list A) :
  Forall P l -> Forall P (slice_to stop l).
Proof.
  intros Hall. unfold slice_to.
  assert (Hfirst : forall n, Forall P (firstn n l)).
  { intros n. rewrite <- (firstn_skipn n l) in Hall.
    now apply Forall_app in Hall as [Hfirst _]. }
  destruct (0 <=? stop); apply Hfirst.
Qed.

Lemma rstrip_by_idem (p : ascii -> bool) (s : string) :
  rstrip_by p (rstrip_by p s) = rstrip_by p s.
Proof.
  induction s as [|c s IH]; [reflexivity|]. cbn [rstrip_by].
  destruct (rstrip_by p s) as [|d s'] eqn:Hs.
  - destruct (p c) eqn:Hc; [reflexivity|]. cbn. now rewrite Hc.
  - cbn [rstrip_by]. cbn [rstrip_by] in IH. rewrite IH. reflexivity.
Qed.

Lemma rstrip_by_head (p : ascii -> bool) (c : ascii) (s : string) :
  p c = false -> exists s', rstrip_by p (String c s) = String c s'.
Proof.
  intros Hc. cbn [rstrip_by]. destruct (rstrip_by p s); [rewrite Hc|]; eauto.
Qed.

Lemma lstrip_by_head (p : ascii -> bool) (s : string) :
  lstrip_by p s = "" \/ exists c s', lstrip_by p s = String c s' /\ p c = false.
Proof.
  induction s as [|c s IH]; [now left|]. cbn [lstrip_by].
  destruct (p c) eqn:Hc; [exact IH|]. right. eauto.
Qed.

Lemma strip_idem (s : string) : strip (strip s) = strip s.
Proof.
  unfold strip. destruct (lstrip_by_head is_space s) as [->|(c & s' & -> & Hc)].
  - reflexivity.
  - destruct (@rstrip_by_head is_space c s' Hc) as [s'' Hs]. rewrite Hs.
    cbn [lstrip_by]. rewrite Hc, <- Hs. apply rstrip_by_idem.
Qed.

(** [summarize_errors] returns a summary of every list of dicts. *)
Lemma summarize_dicts (messages : list json) (limit : Z) :
  Forall is_dict messages ->
  exists summary, summarize_errors messages limit = Ok summary.
Proof.
  intros Hall. destruct messages as [|m ms]; [cbn; eauto|].
  unfold summarize_errors.
  destruct (@snippets_of_dicts (slice_to limit (m :: ms))) as (snippets & Hs & _).
  { apply slice_to_dicts. exact Hall. }
  rewrite Hs. cbn [rbind]. eauto.
Qed.

(** The summary of the one message made of a text that was not JSON. *)
Lemma summarize_plain_text (stripped : string) (limit : Z) :
  1 <= limit ->
  summarize_errors [JObj [("message", JStr stripped)]] limit
  = Ok (replace_nl (strip stripped)).
Proof.
  intros Hlimit. unfold summarize_errors, slice_to.
  replace (0 <=? limit) with true by (symmetry; apply Z.leb_le; lia).
  replace (Z.to_nat limit) with (S (Z.to_nat (limit - 1))) by lia.
  cbn [firstn snippets_of]. rewrite firstn_nil. cbn [snippets_of].
  unfold snippet_of. cbn [dict_get assoc String.eqb Ascii.eqb Bool.eqb rbind].
  rewrite !py_str_str. cbn [String.eqb negb rbind List.length].
  replace (limit <? Z.of_nat 1) with false by (symmetry; apply Z.ltb_ge; lia).
  reflexivity.
Qed.

(** [parse_log_messages] with the exceptions its handler does not name:
    they leave it as they are; otherwise it returns what
    [Harness.parse_log_messages] says. *)
Lemma uncaught_parse_log_messages (text : string) :
  Uncaught.parse_log_messages text
  = if String.eqb (strip text) "" || String.eqb (strip text) "No log messages"
    then Ok []
    else
      match loads_fault (strip text) with
      | Some e => Raise e
      | None => Ok (parse_log_messages text)
      end.
Proof.
  unfold Uncaught.parse_log_messages, parse_log_messages, Uncaught.loads.
  cbv zeta.
  destruct (_ || _); [reflexivity|].
  destruct (loads_fault (strip text)); [reflexivity|].
  destruct (json_loads (strip text)) as [[]|]; try reflexivity.
  destruct (assoc "messages" fields) as [[]|]; reflexivity.
Qed.

(** The two log helpers compose. [parse_log_messages] returns a list for
    every text but those on which [json.loads] raises something other than
    [JSONDecodeError]: that exception it lets through as it is, and it
    raises nothing else. Whatever list it returns, and whatever the limit,
    [summarize_errors] returns a summary of it and raises nothing. For a
    text that [json.loads] answers with [JSONDecodeError], and a limit of at
    least one, the summary is the stripped text with its newlines turned
    into spaces. *)
Theorem summarize_parsed_log :
  forall text limit,
    (forall e,
        Uncaught.parse_log_messages text = Raise e
        <-> strip text <> "" /\ strip text <> "No log messages"
            /\ Uncaught.loads (strip text) = Uncaught.OtherError e)
    /\ (forall messages,
          Uncaught.parse_log_messages text = Ok messages ->
          Forall is_dict messages
          /\ exists summary, summarize_errors messages limit = Ok summary)
    /\ ((forall e, Uncaught.loads (strip text) <> Uncaught.OtherError e) ->
        exists messages summary,
          Uncaught.parse_log_messages text = Ok messages
          /\ summarize_errors messages limit = Ok summary)
    /\ (strip text <> "" -> strip text <> "No log messages" ->
        Uncaught.loads (strip text) = Uncaught.JSONDecodeError ->
        1 <= limit ->
        Uncaught.parse_log_messages text
        = Ok [JObj [("message", JStr (strip text))]]
        /\ summarize_errors [JObj [("message", JStr (strip text))]] limit
           = Ok (replace_nl (strip text))).
Proof.
  intros text limit.
  assert (Hreturned : forall messages,
             Uncaught.parse_log_messages text = Ok messages ->
             Forall is_dict messages
             /\ exists summary, summarize_errors messages limit = Ok summary).
  { intros messages Hp.
    assert (Hall : Forall is_dict messages).
    { rewrite uncaught_parse_log_messages in Hp.
      destruct (_ || _); [injection Hp as <-; constructor|].
      destruct (loads_fault (strip text)); [discriminate|].
      injection Hp as <-. apply parse_log_messages_all_dicts. }
    split; [exact Hall|apply summarize_dicts; exact Hall]. }
  split; [|split; [exact Hreturned|split]].
  - intros e. unfold Uncaught.parse_log_messages, Uncaught.loads. cbv zeta.
    destruct (String.eqb_spec (strip text) "") as [Hblank|Hblank].
    { cbn [orb]. split; [discriminate|intros (H & _); contradiction]. }
    destruct (String.eqb_spec (strip text) "No log messages") as [Hnone|Hnone].
    { cbn [orb]. split; [discriminate|intros (_ & H & _); contradiction]. }
    cbn [orb].
    destruct (loads_fault (strip text)) as [e'|].
    + split; [intros [= ->]; auto|intros (_ & _ & [= ->]); reflexivity].
    + destruct (json_loads (strip text)) as [[]|];
        try (split; [discriminate|intros (_ & _ & H); discriminate H]).
      destruct (assoc "messages" fields) as [[]|];
        split; try discriminate; intros (_ & _ & H); discriminate H.
  - intros Hnofault.
    destruct (Uncaught.parse_log_messages text) as [messages|e] eqn:Hp.
    + destruct (Hreturned messages eq_refl) as (_ & summary & Hs). eauto.
    + exfalso. rewrite uncaught_parse_log_messages in Hp.
      destruct (_ || _); [discriminate|].
      destruct (loads_fault (strip text)) as [e'|] eqn:Hf; [|discriminate].
      apply (Hnofault e'). unfold Uncaught.loads. now rewrite Hf.
  - intros Hne Hnone Hload Hlimit. split.
    + unfold Uncaught.parse_log_messages. cbv zeta. rewrite Hload.
      destruct (String.eqb_spec (strip text) ""); [contradiction|].
      destruct (String.eqb_spec (strip text) "No log messages"); [contradiction|].
      reflexivity.
    + rewrite (summarize_plain_text _ Hlimit), strip_idem. reflexivity.
Qed.

End LogMessages.

(** ** Calls of the harness *)

Section HarnessCalls.

Import Harness.

Context {lib : JsonLib}.

Lemma substring_0_prefix (n : nat) (s : string) :
  String.prefix (substring 0 n s) s = true.
Proof.
  revert s. induction n as [|n IH]; intros [|c s]; cbn; try reflexivity.
  destruct (ascii_dec c c); [apply IH|contradiction].
Qed.

Lemma substring_0_length (n : nat) (s : string) :
  String.length (substring 0 n s) = Nat.min n (String.length s).
Proof.
  revert s. induction n as [|n IH]; intros [|c s]; cbn; try reflexivity.
  now rewrite IH.
Qed.

Lemma substring_0_all (n : nat) (s : string) :
  (String.length s <= n)%nat -> substring 0 n s = s.
Proof.
  revert s. induction n as [|n IH]; intros [|c s]; cbn; try reflexivity.
  - lia.
  - intros H. rewrite IH by lia. reflexivity.
Qed.

(** [parse_json_text] returns what [json.loads] returns, and when that
    fails raises "Expected JSON text but got: ..." with the first 160
    characters of the text: a prefix of the text, the whole of it when the
    text is no longer than that. *)
Theorem parse_json_text_reports_prefix :
  forall text,
    (forall v, json_loads text = Some v -> parse_json_text text = Returned v)
    /\ (json_loads text = None ->
        exists prefix,
          parse_json_text text = Failed (ThrownMCPError (ExpectedJsonText prefix))
          /\ String.prefix prefix text = true
          /\ String.length prefix = Nat.min 160 (String.length text)
          /\ ((String.length text <= 160)%nat -> prefix = text)).
Proof.
  intros text. unfold parse_json_text. split.
  - intros v ->. reflexivity.
  - intros ->. exists (substring 0 160 text). split; [reflexivity|].
    split; [apply substring_0_prefix|]. split; [apply substring_0_length|].
    apply substring_0_all.
Qed.

Lemma of_client_ok {A} (m : M A) (s s' : session) (a : A) :
  m s = Some (Ok a, s') -> of_client m s = Some (Returned a, s').
Proof. intros H. unfold of_client. now rewrite H. Qed.

Lemma of_client_raise {A} (m : M A) (s s' : session) (e : exn) :
  m s = Some (Raise e, s') -> of_client m s = Some (Failed (Thrown e), s').
Proof. intros H. unfold of_client. now rewrite H. Qed.

Lemma hbind_returned {A B} (m : H A) (k : A -> H B) (s s' : session) (a : A) :
  m s = Some (Returned a, s') -> hbind m k s = k a s'.
Proof. intros H0. unfold hbind. now rewrite H0. Qed.

Lemma hbind_failed {A B} (m : H A) (k : A -> H B) (s s' : session) (e : thrown) :
  m s = Some (Failed e, s') -> hbind m k s = Some (Failed e, s').
Proof. intros H0. unfold hbind. now rewrite H0. Qed.

(** [initialize] by the outcome of its request. *)
Lemma initialize_run (s : session) :
  initialize s
  = match request "initialize" initialize_params
            (Some (Z.max 45000 (request_timeout (self s)))) s with
    | None => None
    | Some (Raise e, s1) => Some (Failed (Thrown e), s1)
    | Some (Ok response, s1) =>
        match py_contains "error" response with
        | Raise e => Some (Failed (Thrown e), s1)
        | Ok true =>
            match dict_get response "error" JNull with
            | Ok err => Some (Failed (ThrownMCPError (InitializeFailed err)), s1)
            | Raise e => Some (Failed (Thrown e), s1)
            end
        | Ok false =>
            of_client (notify "notifications/initialized" (JObj [])) s1
        end
    end.
Proof.
  unfold initialize, hbind at 1, of_client at 1, get_self.
  unfold hbind at 1, of_client at 1.
  destruct (request "initialize" initialize_params
              (Some (Z.max 45000 (request_timeout (self s)))) s)
    as [[[response|e] s1]|]; try reflexivity.
  unfold hbind at 1, of_client at 1, lift.
  destruct (py_contains "error" response) as [[|]|e]; try reflexivity.
  unfold hbind, of_client, lift, hraise.
  destruct (dict_get response "error" JNull); reflexivity.
Qed.

(** The handshake in order: [initialize] sends its request with a limit of
    at least 45 seconds; when the response has no [error] member it then
    writes the [notifications/initialized] notification, and nothing else
    changes; when the response has an [error] member it raises "initialize
    failed: ..." with that member and writes no notification; and a failure
    of the request is passed on as it is. *)
Theorem initialize_notifies_after_success :
  forall s s1 written,
    stdin (process (self s1)) = Some (PipeOpen written) ->
    (forall fields,
        request "initialize" initialize_params
                (Some (Z.max 45000 (request_timeout (self s)))) s
        = Some (Ok (JObj fields), s1) ->
        assoc "error" fields = None ->
        initialize s
        = Some (Returned tt,
                after_writing s1 written
                  [(json_dumps (notify_payload "notifications/initialized" (JObj []))
                    ++ nl)%string]))
    /\ (forall fields err,
           request "initialize" initialize_params
                   (Some (Z.max 45000 (request_timeout (self s)))) s
           = Some (Ok (JObj fields), s1) ->
           assoc "error" fields = Some err ->
           initialize s
           = Some (Failed (ThrownMCPError (InitializeFailed err)), s1))
    /\ (forall e,
           request "initialize" initialize_params
                   (Some (Z.max 45000 (request_timeout (self s)))) s
           = Some (Raise e, s1) ->
           initialize s = Some (Failed (Thrown e), s1)).
Proof.
  intros s s1 written Hopen. split; [|split].
  - intros fields Hreq Herr. rewrite initialize_run, Hreq.
    cbn [py_contains]. rewrite Herr.
    apply of_client_ok. unfold notify. apply send_open. exact Hopen.
  - intros fields err Hreq Herr. rewrite initialize_run, Hreq.
    cbn [py_contains dict_get]. rewrite Herr. reflexivity.
  - intros e Hreq. rewrite initialize_run, Hreq. reflexivity.
Qed.

(** [call_tool] by the outcome of its request. *)
Lemma call_tool_run (name : string) (arguments : json) (timeout : option Z)
  (s : session) :
  call_tool name arguments timeout s
  = match request "tools/call"
            (JObj [("name", JStr name); ("arguments", arguments)]) timeout s with
    | None => None
    | Some (Raise e, s1) => Some (Raise e, s1)
    | Some (Ok response, s1) =>
        Some (has_error <-- py_contains "error" response ;;
              if has_error then
                err <-- dict_get response "error" JNull ;;
                Raise (MCPError (ToolsCallFailed name err))
              else
                result <-- dict_get response "result" (JObj []) ;;
                is_error <-- dict_get result "isError" (JBool false) ;;
                if truthy is_error then
                  content <-- dict_get result "content" (JArr []) ;;
                  text <-- text_from_content content ;;
                  Raise (MCPError (ToolReturnedError name text))
                else dict_get result "content" (JArr []),
              s1)
    end.
Proof.
  unfold call_tool, bind at 1.
  destruct (request "tools/call"
              (JObj [("name", JStr name); ("arguments", arguments)]) timeout s)
    as [[[response|e] s1]|]; try reflexivity.
  unfold bind at 1, lift.
  destruct (py_contains "error" response) as [[|]|e]; try reflexivity.
  - unfold bind, lift, raise.
    destruct (dict_get response "error" JNull); reflexivity.
  - unfold bind at 1, lift.
    destruct (dict_get response "result" (JObj [])) as [result|e]; [|reflexivity].
    unfold bind at 1, lift. cbn [rbind].
    destruct (dict_get result "isError" (JBool false)) as [flag|e]; [|reflexivity].
    cbn [rbind]. destruct (truthy flag); [|reflexivity].
    unfold bind at 1, lift.
    destruct (dict_get result "content" (JArr [])) as [content|e]; [|reflexivity].
    unfold bind, lift, raise. cbn [rbind].
    destruct (text_from_content content); reflexivity.
Qed.

(** What the response decides in [call_tool]. An [error] member comes
    first: the call raises "tools/call ... failed: ..." with it, whatever the
    result says. Without it, a response with no result returns the empty
    content; a result whose [isError] is absent or false returns its content,
    or the empty content when it has none; a result that is not an object
    raises [AttributeError]. *)
Theorem call_tool_reads_response :
  forall name arguments timeout s s1 fields,
    request "tools/call"
            (JObj [("name", JStr name); ("arguments", arguments)]) timeout s
    = Some (Ok (JObj fields), s1) ->
    (forall err,
        assoc "error" fields = Some err ->
        call_tool name arguments timeout s
        = Some (Raise (MCPError (ToolsCallFailed name err)), s1))
    /\ (assoc "error" fields = None ->
        assoc "result" fields = None ->
        call_tool name arguments timeout s = Some (Ok (JArr []), s1))
    /\ (forall result_fields,
           assoc "error" fields = None ->
           assoc "result" fields = Some (JObj result_fields) ->
           assoc "isError" result_fields = None
           \/ assoc "isError" result_fields = Some (JBool false) ->
           call_tool name arguments timeout s
           = Some (Ok (match assoc "content" result_fields with
                       | Some content => content
                       | None => JArr []
                       end), s1))
    /\ (forall result,
           assoc "error" fields = None ->
           assoc "result" fields = Some result ->
           ~ is_dict result ->
           call_tool name arguments timeout s = Some (Raise AttributeError, s1)).
Proof.
  intros name arguments timeout s s1 fields Hreq.
  rewrite call_tool_run, Hreq. cbn [py_contains dict_get rbind].
  split; [|split; [|split]].
  - intros err ->. reflexivity.
  - intros -> ->. reflexivity.
  - intros result_fields -> -> Hflag. cbn [dict_get rbind].
    destruct Hflag as [-> | ->]; reflexivity.
  - intros result -> -> Hnot. cbn [rbind]. destruct result; try reflexivity.
    exfalso. apply Hnot. eexists. reflexivity.
Qed.

(** [list_tools] by the outcome of its request. *)
Lemma list_tools_run (s : session) :
  list_tools s
  = match request "tools/list" (JObj []) None s with
    | None => None
    | Some (Raise e, s1) => Some (Failed (Thrown e), s1)
    | Some (Ok response, s1) =>
        match py_contains "error" response with
        | Raise e => Some (Failed (Thrown e), s1)
        | Ok true =>
            match dict_get response "error" JNull with
            | Ok err => Some (Failed (ThrownMCPError (ToolsListFailed err)), s1)
            | Raise e => Some (Failed (Thrown e), s1)
            end
        | Ok false =>
            match (result <-- dict_get response "result" (JObj []) ;;
                   dict_get result "tools" (JArr [])) with
            | Ok tools => Some (Returned tools, s1)
            | Raise e => Some (Failed (Thrown e), s1)
            end
        end
    end.
Proof.
  unfold list_tools, hbind at 1, of_client at 1.
  destruct (request "tools/list" (JObj []) None s) as [[[response|e] s1]|];
    try reflexivity.
  unfold hbind at 1, of_client at 1, lift.
  destruct (py_contains "error" response) as [[|]|e]; try reflexivity.
  - unfold hbind, of_client, lift, hraise.
    destruct (dict_get response "error" JNull); reflexivity.
  - unfold hbind, of_client, lift.
    destruct (dict_get response "result" (JObj [])) as [result|e]; [|reflexivity].
    cbn [rbind]. destruct (dict_get result "tools" (JArr [])); reflexivity.
Qed.

(** What the response decides in [list_tools]: an [error] member raises
    "tools/list failed: ..." with it; otherwise the tools of the result are
    returned, and the empty list when the response has no result or the
    result has no [tools] member. *)
Theorem list_tools_reads_response :
  forall s s1 fields,
    request "tools/list" (JObj []) None s = Some (Ok (JObj fields), s1) ->
    (forall err,
        assoc "error" fields = Some err ->
        list_tools s = Some (Failed (ThrownMCPError (ToolsListFailed err)), s1))
    /\ (assoc "error" fields = None ->
        assoc "result" fields = None ->
        list_tools s = Some (Returned (JArr []), s1))
    /\ (forall result_fields,
           assoc "error" fields = None ->
           assoc "result" fields = Some (JObj result_fields) ->
           list_tools s
           = Some (Returned (match assoc "tools" result_fields with
                             | Some tools => tools
                             | None => JArr []
                             end), s1)).
Proof.
  intros s s1 fields Hreq. rewrite list_tools_run, Hreq.
  cbn [py_contains dict_get rbind]. split; [|split].
  - intros err ->. reflexivity.
  - intros -> ->. reflexivity.
  - intros result_fields -> ->. reflexivity.
Qed.

Lemma call_tool_counter (name : string) (arguments : json) (timeout : option Z)
  (s s' : session) (r : result json) :
  call_tool name arguments timeout s = Some (r, s') ->
  _next_id (self s') = _next_id (self s) + 1.
Proof.
  rewrite call_tool_run.
  destruct (request "tools/call"
              (JObj [("name", JStr name); ("arguments", arguments)]) timeout s)
    as [[[response|e] s1]|] eqn:Hreq; [| |discriminate];
    apply request_post in Hreq as (Hid & _); intros [= _ <-]; exact Hid.
Qed.

Lemma get_main_snapshot_post (s s' : session) (r : outcome json) :
  _get_main_snapshot s = Some (r, s') ->
  _next_id (self s') = _next_id (self s) + 1
  /\ r <> Failed (ThrownMCPError MainSnapshotFailed).
Proof.
  unfold _get_main_snapshot, hbind at 1, _tool_text, hbind at 1, of_client at 1.
  destruct (call_tool "node"
              (JObj [("action", JStr "get_properties");
                     ("node_path", JStr "/root/Main")]) None s)
    as [[[content|e] s1]|] eqn:Hcall; [| |discriminate];
    apply call_tool_counter in Hcall.
  - unfold of_client, lift.
    destruct (text_from_content content) as [text|e].
    + intros [= <- <-]. split; [exact Hcall|].
      unfold parse_json_text. destruct (json_loads text); discriminate.
    + intros [= <- <-]. split; [exact Hcall|discriminate].
  - intros [= <- <-]. split; [exact Hcall|discriminate].
Qed.

Lemma retry_loop_post (n : nat) (delay_s : Z) (last : option thrown)
  (s s' : session) (r : outcome json) :
  0 <= delay_s ->
  retry_loop n delay_s last s = Some (r, s') ->
  match r with
  | Returned snapshot =>
      exists k,
        (1 <= k <= n)%nat
        /\ _next_id (self s') = _next_id (self s) + Z.of_nat k
        /\ exists s0, _get_main_snapshot s0 = Some (Returned snapshot, s')
  | Failed e =>
      _next_id (self s') = _next_id (self s) + Z.of_nat n
      /\ ((n = 0%nat /\ s' = s
           /\ e = match last with
                  | Some e' => e'
                  | None => ThrownMCPError MainSnapshotFailed
                  end)
          \/ ((0 < n)%nat
              /\ exists s0, _get_main_snapshot s0 = Some (Failed e, s')))
  end.
Proof.
  intros Hdelay. revert last s. induction n as [|n IH]; intros last s Hrun.
  - cbn [retry_loop] in Hrun. destruct last as [e'|];
      injection Hrun as <- <-; (split; [cbn; lia|left; auto]).
  - cbn [retry_loop] in Hrun.
    destruct (_get_main_snapshot s) as [[[snapshot|e1] s1]|] eqn:Hsnap;
      [| |discriminate].
    + injection Hrun as <- <-. pose proof Hsnap as Hid.
      apply get_main_snapshot_post in Hid as [Hid _].
      exists 1%nat. split; [lia|]. split; [exact Hid|eauto].
    + pose proof Hsnap as Hid. apply get_main_snapshot_post in Hid as [Hid _].
      unfold hbind, sleep in Hrun.
      replace (delay_s <? 0) with false in Hrun by (symmetry; apply Z.ltb_ge; lia).
      cbn [hret] in Hrun. apply IH in Hrun.
      destruct r as [snapshot|e].
      * destruct Hrun as (k & Hk & Hidk & Hs0). exists (S k).
        split; [lia|]. split; [lia|exact Hs0].
      * destruct Hrun as [Hidn Hlast]. split; [lia|]. right. split; [lia|].
        destruct Hlast as [(-> & -> & ->)|(_ & Hs0)]; [eauto|exact Hs0].
Qed.

(** [_get_main_snapshot_with_retry] with a delay that is not negative
    makes at most [attempts] requests. It returns the snapshot of the first
    attempt that succeeds, and then has made as many requests as that
    attempt's number. When every attempt fails it has made exactly
    [attempts] requests and raises the failure of the last attempt, as it
    was; with no attempt to make it raises "failed to read main snapshot" and
    leaves the session untouched. *)
Theorem snapshot_retry_is_bounded :
  forall attempts delay_s s s' r,
    0 <= delay_s ->
    _get_main_snapshot_with_retry attempts delay_s s = Some (r, s') ->
    match r with
    | Returned snapshot =>
        exists k,
          1 <= k <= attempts
          /\ _next_id (self s') = _next_id (self s) + k
          /\ exists s0, _get_main_snapshot s0 = Some (Returned snapshot, s')
    | Failed e =>
        _next_id (self s') = _next_id (self s) + Z.max 0 attempts
        /\ ((attempts <= 0 /\ s' = s /\ e = ThrownMCPError MainSnapshotFailed)
            \/ (1 <= attempts
                /\ e <> ThrownMCPError MainSnapshotFailed
                /\ exists s0, _get_main_snapshot s0 = Some (Failed e, s')))
    end.
Proof.
  intros attempts delay_s s s' r Hdelay Hrun.
  unfold _get_main_snapshot_with_retry in Hrun.
  apply retry_loop_post in Hrun; [|exact Hdelay].
  destruct r as [snapshot|e].
  - destruct Hrun as (k & Hk & Hid & Hs0). exists (Z.of_nat k).
    split; [lia|]. split; [exact Hid|exact Hs0].
  - destruct Hrun as [Hid Hlast]. split; [lia|].
    destruct Hlast as [(Hn & -> & ->)|(Hn & s0 & Hs0)].
    + left. split; [lia|auto].
    + right. split; [lia|]. split; [|eauto].
      apply get_main_snapshot_post in Hs0 as [_ Hne]. congruence.
Qed.

End HarnessCalls.

(** ** Malformed content *)

Section MalformedContent.

Import Observe.

Lemma text_parts_of_dicts (parts : list json) :
  Forall is_dict parts ->
  text_parts_of parts = Ok (map text_member (filter (has_type "text") parts)).
Proof.
  induction 1 as [|part parts [fields ->] _ IH]; [reflexivity|].
  cbn [text_parts_of dict_get rbind filter has_type].
  destruct (assoc "type" fields) as [ty|]; cbn [py_eq_str].
  - destruct (py_eq_str ty "text"); [|exact IH].
    rewrite IH. reflexivity.
  - exact IH.
Qed.

Lemma text_parts_of_raises (parts : list json) :
  ~ Forall is_dict parts -> text_parts_of parts = Raise AttributeError.
Proof.
  induction parts as [|part parts IH]; intros Hnot.
  - exfalso. apply Hnot. constructor.
  - destruct part; try reflexivity.
    assert (Hrest : text_parts_of parts = Raise AttributeError).
    { apply IH. intros Hall. apply Hnot. constructor; [eexists; reflexivity|exact Hall]. }
    cbn [text_parts_of dict_get rbind].
    destruct (py_eq_str _ "text"); [|exact Hrest].
    rewrite Hrest. reflexivity.
Qed.

Lemma as_strings_cases (items : list json) :
  (Forall (fun v => is_strb v = true) items -> exists ss, as_strings items = Ok ss)
  /\ (Exists (fun v => is_strb v = false) items -> as_strings items = Raise TypeError).
Proof.
  induction items as [|v items [IHok IHbad]]; split.
  - intros _. exists []. reflexivity.
  - intros Hex. inversion Hex.
  - intros Hall. inversion Hall as [|? ? Hv Hrest]; subst.
    destruct v; try discriminate. destruct (IHok Hrest) as [ss Hss].
    exists (s :: ss). cbn. now rewrite Hss.
  - intros Hex. destruct v; try reflexivity.
    inversion Hex as [? ? Hv|? ? Hrest]; subst; [discriminate|].
    cbn. now rewrite (IHbad Hrest).
Qed.

(** The failures of [text_from_content] on a list of parts: a part that is
    not a dict raises [AttributeError], wherever it stands; among dicts, a
    text part whose text is neither a string nor a false value (null, 0, an
    empty list) makes the join raise [TypeError]; otherwise a text is
    returned. A content that is not iterable raises [TypeError]. *)
Theorem text_from_content_failures :
  forall parts,
    (~ Forall is_dict parts ->
     text_from_content (JArr parts) = Raise AttributeError)
    /\ (Forall is_dict parts ->
        Exists (fun p => unjoinable p = true) parts ->
        text_from_content (JArr parts) = Raise TypeError)
    /\ (Forall is_dict parts ->
        Forall (fun p => unjoinable p = false) parts ->
        exists text, text_from_content (JArr parts) = Ok text)
    /\ text_from_content JNull = Raise TypeError.
Proof.
  intros parts. split; [|split; [|split]].
  - intros Hnot. unfold text_from_content. cbn [py_iter rbind].
    rewrite (text_parts_of_raises Hnot). reflexivity.
  - intros Hd Hbad. unfold text_from_content, py_join. cbn [py_iter rbind].
    rewrite (text_parts_of_dicts Hd). cbn [rbind].
    destruct (as_strings_cases
                (filter truthy (map text_member (filter (has_type "text") parts))))
      as [_ Hraise].
    rewrite Hraise; [reflexivity|].
    apply Exists_exists in Hbad as (p & Hin & Hp).
    unfold unjoinable in Hp. apply andb_true_iff in Hp as [Hp Hstr].
    apply andb_true_iff in Hp as [Hty Htruthy].
    apply Exists_exists. exists (text_member p). split.
    + apply filter_In. split; [|exact Htruthy].
      apply in_map. apply filter_In. auto.
    + now apply negb_true_iff.
  - intros Hd Hgood. unfold text_from_content, py_join. cbn [py_iter rbind].
    rewrite (text_parts_of_dicts Hd). cbn [rbind].
    destruct (as_strings_cases
                (filter truthy (map text_member (filter (has_type "text") parts))))
      as [Hok _].
    destruct Hok as [ss Hss]; [|rewrite Hss; cbn [rbind]; eauto].
    apply Forall_forall. intros v Hin.
    apply filter_In in Hin as [Hin Htruthy].
    apply in_map_iff in Hin as (p & <- & Hin).
    apply filter_In in Hin as [Hin Hty].
    assert (Hp : unjoinable p = false)
      by (rewrite Forall_forall in Hgood; now apply Hgood).
    unfold unjoinable in Hp. rewrite Hty, Htruthy in Hp. cbn in Hp.
    now apply negb_false_iff in Hp.
  - reflexivity.
Qed.

End MalformedContent.

Section MalformedImages.

Context {b64 : Base64Lib}.

(** In [parse_png_size_from_image_content] the first image part decides:
    the parts after it are never looked at, so the result is the same
    whatever they are; and a part before it that is not a dict raises
    [AttributeError], even when an image part follows. *)
Theorem parse_png_first_image_decides :
  forall before fields,
    Forall is_dict before ->
    Forall (fun p => has_type "image" p = false) before ->
    (has_type "image" (JObj fields) = true ->
     forall after after',
       parse_png_size_from_image_content (JArr (before ++ JObj fields :: after))
       = parse_png_size_from_image_content (JArr (before ++ JObj fields :: after')))
    /\ (forall bad after,
           ~ is_dict bad ->
           parse_png_size_from_image_content (JArr (before ++ bad :: after))
           = Raise AttributeError).
Proof.
  intros before fields Hd Hno. split.
  - intros Himg after after'.
    rewrite (@parse_png_at_first_image _ (before ++ JObj fields :: after) fields)
      by (exists before, after; auto).
    rewrite (@parse_png_at_first_image _ (before ++ JObj fields :: after') fields)
      by (exists before, after'; auto).
    reflexivity.
  - intros bad after Hbad.
    unfold parse_png_size_from_image_content. cbn [py_iter rbind].
    assert (Hfind : find_image (before ++ bad :: after) = Raise AttributeError).
    { induction Hd as [|p before [pf ->] _ IH].
      - destruct bad; try reflexivity. exfalso. apply Hbad. eexists. reflexivity.
      - inversion Hno as [|? ? Hp Hrest]; subst. cbn in Hp |- *.
        destruct (assoc "type" pf) as [v|]; cbn.
        + rewrite Hp. auto.
        + auto. }
    rewrite Hfind. reflexivity.
Qed.

(** A payload that is not base64 text: when the data of the first image
    part is a true value that is not a string the decoder raises
    [TypeError]; when it is a string the decoder rejects, [ValueError] (of
    which [binascii.Error] is a kind); neither is turned into an
    [MCPError]. *)
Theorem parse_png_undecodable_payload :
  forall parts fields,
    first_image parts fields ->
    (forall data,
        assoc "data" fields = Some data ->
        truthy data = true -> Observe.is_strb data = false ->
        parse_png_size_from_image_content (JArr parts) = Raise TypeError)
    /\ (forall data,
           assoc "data" fields = Some (JStr data) -> data <> "" ->
           b64decode data = None ->
           parse_png_size_from_image_content (JArr parts) = Raise ValueError).
Proof.
  intros parts fields Hfirst. rewrite (parse_png_at_first_image Hfirst).
  cbn [dict_get rbind]. split.
  - intros data -> Htruthy Hstr. rewrite Htruthy. cbn [negb].
    destruct data; try discriminate; reflexivity.
  - intros data -> Hne Hdec. rewrite (nonempty_truthy Hne).
    cbn [negb py_b64decode]. rewrite Hdec. reflexivity.
Qed.

End MalformedImages.

(** ** One request, start to end *)

Section RoundTrip.

Context {lib : JsonLib}.

(** When the command stream is unavailable or broken, [request] raises
    ("MCP stdin is unavailable", or [BrokenPipeError] from the write) before
    it looks at the clock or the response stream; nothing is written, but the
    counter has moved: the id is used up. *)
Theorem request_send_failure_uses_id :
  forall method params timeout s,
    (stdin (process (self s)) = None ->
     request method params timeout s
     = Some (Raise (MCPError StdinUnavailable),
             with_self s (with_next_id (self s) (_next_id (self s) + 1))))
    /\ (stdin (process (self s)) = Some PipeBroken ->
        request method params timeout s
        = Some (Raise BrokenPipeError,
                with_self s (with_next_id (self s) (_next_id (self s) + 1)))).
Proof.
  intros method params timeout s.
  split; intros Hin; rewrite request_run; cbv zeta; rewrite Hin; reflexivity.
Qed.

(** When the next line of the response stream decodes to an object whose
    id equals the id of the call, and the limit has not passed, [request]
    returns that object: it has written its message, moved the counter by
    one, used four readings of the clock and taken that one line from the
    stream; the events after it are still there, and nothing is printed,
    verbose or not. *)
Theorem request_returns_first_match :
  forall method params timeout s written line evs fields id c0 c1 c2 c3 ticks,
    stdin (process (self s)) = Some (PipeOpen written) ->
    stdout (process (self s)) = Some (Ready line :: evs) ->
    line <> "" -> strip line <> "" ->
    json_loads (strip line) = Some (JObj fields) ->
    assoc "id" fields = Some id ->
    py_eq_int id (_next_id (self s)) = true ->
    clock s = c0 :: c1 :: c2 :: c3 :: ticks ->
    let left :=
      match timeout with Some t => t | None => request_timeout (self s) end
      - (c1 - c0) in
    0 < left ->
    c3 < c2 + left ->
    request method params timeout s
    = Some (Ok (JObj fields),
            with_events
              (with_clock
                 (after_writing
                    (with_self s (with_next_id (self s) (_next_id (self s) + 1)))
                    written
                    [(json_dumps (request_payload (_next_id (self s)) method params)
                      ++ nl)%string])
                 ticks)
              evs).
Proof.
  intros method params timeout s written line evs fields id c0 c1 c2 c3 ticks
         Hin Hout Hline Hblank Hload Hid Heq Hck left Hleft Hdeadline.
  rewrite request_run. cbv zeta. rewrite Hin, Hck.
  unfold await_response. rewrite request_loop_turn. cbn [clock with_clock].
  cbn [self with_self with_next_id after_writing request_timeout with_process].
  fold left.
  destruct (Z.leb_spec left 0) as [Hle|_]; [lia|].
  match goal with
  | |- context [_read_message left ?st] =>
      rewrite (@read_message_run _ left st c2 (c3 :: ticks) (Ready line :: evs)
                 eq_refl Hout)
  end.
  unfold read_until. rewrite read_loop_turn. cbn [clock with_clock].
  destruct (Z.leb_spec (c2 + left - c3) 0) as [Hle|_]; [lia|].
  unfold after_writing.
  cbn [self process with_self with_process with_stdin with_clock with_next_id
       stdout].
  rewrite Hout. cbv zeta.
  destruct (String.eqb_spec line ""); [contradiction|].
  destruct (String.eqb_spec (strip line) ""); [contradiction|].
  rewrite Hload.
  assert (Hhas : py_contains "id" (JObj fields) = Ok true)
    by (cbn [py_contains]; now rewrite Hid).
  assert (Hget : dict_get (JObj fields) "id" JNull = Ok id)
    by (cbn [dict_get]; now rewrite Hid).
  cbn [verbose self with_self with_process with_clock with_next_id].
  destruct (verbose (self s)); rewrite ?Hhas; cbn [negb];
    rewrite Hget, Heq; reflexivity.
Qed.

End RoundTrip.

(** ** Stall estimate *)

Section StallEstimate.

Import Harness Observe.

Context {ints : IntLib}.

Lemma float_times_plus_one (n : nat) (sample : spec_float) :
  float_add (float_times n sample) sample = float_times (S n) sample.
Proof. reflexivity. Qed.

Lemma stall_loop_counts (snaps : list json) (keys : list (Z * Z * Z * Z)) :
  Forall2 (fun snap key => snapshot_key snap = Returned key) snaps keys ->
  forall previous n sample,
    stall_loop snaps previous (float_times n sample) sample
    = Returned (float_times (n + stalled_samples previous keys) sample).
Proof.
  induction 1 as [|snap key snaps keys Hkey _ IH]; intros previous n sample.
  - cbn. now rewrite Nat.add_0_r.
  - cbn [stall_loop stalled_samples]. rewrite Hkey. cbn [obind].
    destruct previous as [p|].
    + destruct (key_eqb key p && (key_age key <? 3)).
      * rewrite float_times_plus_one, IH. f_equal. f_equal. lia.
      * rewrite IH. f_equal.
    + rewrite IH. f_equal.
Qed.

Lemma stalled_samples_bound (previous : option (Z * Z * Z * Z))
  (keys : list (Z * Z * Z * Z)) :
  (stalled_samples previous keys
   <= match previous with
      | Some _ => List.length keys
      | None => List.length keys - 1
      end)%nat.
Proof.
  revert previous. induction keys as [|key keys IH]; intros previous.
  - destruct previous; cbn; lia.
  - cbn [stalled_samples List.length]. specialize (IH (Some key)). cbn in IH.
    destruct previous as [p|]; [destruct (_ && _)|]; lia.
Qed.

Lemma stalled_samples_mature (previous : option (Z * Z * Z * Z))
  (keys : list (Z * Z * Z * Z)) :
  Forall (fun key => 3 <= key_age key) keys ->
  stalled_samples previous keys = 0%nat.
Proof.
  intros Hall. revert previous.
  induction Hall as [|key keys Hage _ IH]; intros previous; [reflexivity|].
  cbn [stalled_samples]. rewrite IH.
  destruct previous as [p|]; [|reflexivity].
  replace (key_age key <? 3) with false by (symmetry; apply Z.ltb_ge; lia).
  now rewrite andb_false_r.
Qed.

Lemma key_eqb_refl (key : Z * Z * Z * Z) : key_eqb key key = true.
Proof.
  destruct key as [[[a b] c] d]. cbn. now rewrite !Z.eqb_refl.
Qed.

Lemma stalled_samples_constant (key : Z * Z * Z * Z) (m : nat) :
  key_age key < 3 ->
  stalled_samples (Some key) (repeat key m) = m.
Proof.
  intros Hage. induction m as [|m IH]; [reflexivity|].
  cbn [repeat stalled_samples]. rewrite IH, key_eqb_refl.
  replace (key_age key <? 3) with true by (symmetry; apply Z.ltb_lt; lia).
  reflexivity.
Qed.


End StallEstimate.

(** ** The added properties on concrete inputs *)

Section HarnessRuns.

Import Harness Observe Reference HarnessExamples.


(** The silent server: a request with no time left, and a request that
    waits until the clock has passed its limit. *)
Lemma request_times_out_witness :
  (exists s',
      @request harness_codec "tools/list" (JObj []) (Some 0) silent_session
      = Some (Raise (MCPError (TimedOutWaitingFor "tools/list")), s'))
  /\ exists s',
      @request harness_codec "tools/list" (JObj []) None silent_session
      = Some (Raise (MCPError TimedOutWaitingForMessage), s')
      /\ _next_id (self s') = 2.
Proof.
  destruct (@request_times_out harness_codec) as [Hnow Hsilent]. split.
  - eexists.
    apply (Hnow "tools/list" (JObj []) (Some 0) silent_session []
                0 10 [20; 10000; 20000; 30000]); [reflexivity|reflexivity|cbn; lia].
  - destruct (Hsilent "tools/list" (JObj []) None silent_session []
                [NotReady; NotReady] 0 10 20 [10000; 20000; 30000])
      as (s' & Hrun & Hid & _); try reflexivity.
    + repeat constructor.
    + apply Exists_exists. exists 30000.
      split; [cbn; tauto|vm_compute; discriminate].
    + exists s'. split; [exact Hrun|exact Hid].
Defined.

(** A log of two messages and a number: the number is left out. *)
Lemma parse_log_messages_yields_dicts_witness :
  @parse_log_messages harness_codec (" " ++ dumps log_payload ++ nl)
  = [JObj [("message", JStr "Division by zero"); ("file", JStr "res://unit.gd");
           ("line", JInt 42)];
     JObj [("message", JStr "Null instance")]].
Proof.
  destruct (@parse_log_messages_yields_dicts harness_codec
              (" " ++ dumps log_payload ++ nl)) as (_ & Hlist & _).
  rewrite (Hlist [JObj [("message", JStr "Division by zero");
                        ("file", JStr "res://unit.gd"); ("line", JInt 42)];
                  JInt 7;
                  JObj [("message", JStr "Null instance")]]).
  - reflexivity.
  - vm_compute. reflexivity.
  - vm_compute. discriminate.
  - vm_compute. discriminate.
Defined.

(** With a limit of one, only the first message has to be a dict. *)
Lemma summarize_errors_inspects_slice_witness :
  exists summary,
    summarize_errors [JObj [("message", JStr "Null instance")]; JInt 7] 1
    = Ok summary.
Proof.
  apply (proj1 (@summarize_errors_inspects_slice example_str
                  [JObj [("message", JStr "Null instance")]; JInt 7] 1)).
  repeat constructor. eexists. reflexivity.
Defined.

(** A line of engine output comes back as it is. *)
Lemma summarize_parsed_log_witness :
  @Uncaught.parse_log_messages harness_codec FaultExamples.cpython_faults
    ("  ERROR: scene not found" ++ nl)
  = Ok [JObj [("message", JStr "ERROR: scene not found")]]
  /\ @summarize_errors example_str
       [JObj [("message", JStr "ERROR: scene not found")]] 3
     = Ok "ERROR: scene not found".
Proof.
  apply (proj2 (proj2 (proj2
           (@summarize_parsed_log harness_codec example_str
              FaultExamples.cpython_faults
              ("  ERROR: scene not found" ++ nl) 3))));
    [vm_compute; discriminate|vm_compute; discriminate|reflexivity|lia].
Defined.

(** A text that is not JSON is reported whole when it is short. *)
Lemma parse_json_text_reports_prefix_witness :
  exists prefix,
    @parse_json_text harness_codec "not json"
    = Failed (ThrownMCPError (ExpectedJsonText prefix))
    /\ prefix = "not json".
Proof.
  destruct (proj2 (@parse_json_text_reports_prefix harness_codec "not json")
              eq_refl) as (prefix & Hrun & _ & _ & Hall).
  exists prefix. split; [exact Hrun|]. apply Hall. cbn. lia.
Defined.

(** The handshake with a server that answers at once. *)
Lemma initialize_notifies_after_success_witness :
  exists s',
    @initialize harness_codec
      (session_on [Ready (line_of Examples.matching_response)] [0; 10; 20; 30])
    = Some (Returned tt, s')
    /\ stdin (process (self s'))
       = Some (PipeOpen
                 [(dumps (request_payload 1 "initialize" initialize_params) ++ nl)%string;
                  (dumps (notify_payload "notifications/initialized" (JObj [])) ++ nl)%string]).
Proof.
  set (s := session_on [Ready (line_of Examples.matching_response)] [0; 10; 20; 30]).
  set (s1 := with_events
               (with_clock
                  (after_writing (with_self s (with_next_id (self s) 2)) []
                     [(dumps (request_payload 1 "initialize" initialize_params)
                       ++ nl)%string])
                  [])
               []).
  destruct (@initialize_notifies_after_success harness_codec s s1
              [(dumps (request_payload 1 "initialize" initialize_params) ++ nl)%string]
              eq_refl) as (Hok & _ & _).
  eexists. split.
  - apply (Hok [("jsonrpc", JStr "2.0"); ("id", JInt 1); ("result", JObj [])]).
    + vm_compute. reflexivity.
    + reflexivity.
  - reflexivity.
Defined.

(** A tool that fails at the transport level, whatever its result says. *)
Lemma call_tool_reads_response_witness :
  exists s',
    @call_tool harness_codec "editor" (JObj []) None
      (session_on [Ready (line_of (error_response 1))] [0; 10; 20; 30])
    = Some (Raise (MCPError
                     (ToolsCallFailed "editor"
                        (JObj [("code", JInt (-32601));
                               ("message", JStr "no such method")]))), s').
Proof.
  assert (Hreq : exists s1,
             @request harness_codec "tools/call"
               (JObj [("name", JStr "editor"); ("arguments", JObj [])]) None
               (session_on [Ready (line_of (error_response 1))] [0; 10; 20; 30])
             = Some (Ok (error_response 1), s1))
    by (eexists; vm_compute; reflexivity).
  destruct Hreq as [s1 Hreq]. exists s1.
  apply (proj1 (@call_tool_reads_response harness_codec _ _ _ _ _ _ Hreq)).
  reflexivity.
Defined.

(** The tools of a server that has one. *)
Lemma list_tools_reads_response_witness :
  exists s',
    @list_tools harness_codec
      (session_on [Ready (line_of tools_response)] [0; 10; 20; 30])
    = Some (Returned (JArr [JObj [("name", JStr "editor")]]), s').
Proof.
  assert (Hreq : exists s1,
             @request harness_codec "tools/list" (JObj []) None
               (session_on [Ready (line_of tools_response)] [0; 10; 20; 30])
             = Some (Ok tools_response, s1))
    by (eexists; vm_compute; reflexivity).
  destruct Hreq as [s1 Hreq]. exists s1.
  apply (proj2 (proj2 (@list_tools_reads_response harness_codec _ _ _ Hreq))
           [("tools", JArr [JObj [("name", JStr "editor")]])]);
    reflexivity.
Defined.

(** The second attempt succeeds: two requests were made. *)
Lemma snapshot_retry_is_bounded_witness :
  exists s',
    @_get_main_snapshot_with_retry harness_codec 5 1000 retry_session
    = Some (Returned main_snapshot, s')
    /\ exists k, 1 <= k <= 5 /\ _next_id (self s') = _next_id (self retry_session) + k.
Proof.
  eexists. split; [vm_compute; reflexivity|].
  match goal with
  | |- exists k, _ /\ _next_id (self ?st) = _ =>
      destruct (@snapshot_retry_is_bounded harness_codec 5 1000 retry_session st
                  (Returned main_snapshot)) as (k & Hk & Hid & _)
  end.
  - lia.
  - vm_compute. reflexivity.
  - exists k. split; [exact Hk|exact Hid].
Defined.

(** A number among the parts, and a text part whose text is a number. *)
Lemma text_from_content_failures_witness :
  text_from_content (JArr [JObj [("type", JStr "text"); ("text", JStr "a")]; JInt 1])
  = Raise AttributeError
  /\ text_from_content (JArr [JObj [("type", JStr "text"); ("text", JInt 5)]])
     = Raise TypeError.
Proof.
  split.
  - apply (proj1 (text_from_content_failures _)).
    intros Hall. inversion Hall as [|? ? _ Hrest]; subst.
    inversion Hrest as [|? ? [fields Hf] _]; subst. discriminate.
  - apply (proj1 (proj2 (text_from_content_failures _))).
    + repeat constructor. eexists. reflexivity.
    + constructor. reflexivity.
Defined.

(** What follows the image part does not matter, not even a number. *)
Lemma parse_png_first_image_decides_witness :
  parse_png_size_from_image_content
    (JArr [JObj (Examples.text_part "ok");
           JObj (Examples.image_part Examples.png_640x360); JInt 1])
  = parse_png_size_from_image_content
      (JArr [JObj (Examples.text_part "ok");
             JObj (Examples.image_part Examples.png_640x360)]).
Proof.
  apply (proj1 (@parse_png_first_image_decides Reference.base64
                  [JObj (Examples.text_part "ok")]
                  (Examples.image_part Examples.png_640x360)
                  ltac:(repeat constructor; eexists; reflexivity)
                  ltac:(repeat constructor))).
  reflexivity.
Defined.

(** A payload of one base64 digit cannot be decoded. *)
Lemma parse_png_undecodable_payload_witness :
  parse_png_size_from_image_content
    (JArr [JObj (Examples.text_part "ok"); JObj (Examples.image_part "A")])
  = Raise ValueError.
Proof.
  apply (proj2 (@parse_png_undecodable_payload Reference.base64
                  [JObj (Examples.text_part "ok"); JObj (Examples.image_part "A")]
                  (Examples.image_part "A")
                  (first_image_after_text "ok" (Examples.image_part "A") []
                     eq_refl)) "A").
  - reflexivity.
  - discriminate.
  - reflexivity.
Defined.

(** A request to a server that has exited. *)
Lemma request_send_failure_uses_id_witness :
  exists s',
    @request harness_codec "tools/list" (JObj []) None Examples.exited_session
    = Some (Raise BrokenPipeError, s')
    /\ _next_id (self s') = 2.
Proof.
  eexists. split.
  - apply (proj2 (@request_send_failure_uses_id harness_codec
                    "tools/list" (JObj []) None Examples.exited_session)).
    reflexivity.
  - reflexivity.
Defined.

(** A request answered at once. *)
Lemma request_returns_first_match_witness :
  exists s',
    @request harness_codec "tools/list" (JObj []) None
      (session_on [Ready (line_of tools_response); NotReady] [0; 10; 20; 30; 40])
    = Some (Ok tools_response, s')
    /\ stdout (process (self s')) = Some [NotReady]
    /\ clock s' = [40].
Proof.
  eexists. split.
  - apply (@request_returns_first_match harness_codec "tools/list" (JObj []) None
             (session_on [Ready (line_of tools_response); NotReady] [0; 10; 20; 30; 40])
             [] (line_of tools_response) [NotReady] _ (JInt 1) 0 10 20 30 [40]);
      try reflexivity.
    + discriminate.
    + vm_compute. discriminate.
  - split; reflexivity.
Defined.


End HarnessRuns.

(** ** Touch gestures *)

Section TouchGestures.

Import Touch.

Lemma inputs_not_before_start (g : gesture) :
  Forall (fun input => gesture_start g <= start_ms_of input) (inputs_of g).
Proof.
  destruct g; cbn; repeat constructor; cbn; lia.
Qed.

Lemma spaced_inputs_not_before (gs : list gesture) (lo : Z) :
  spaced gs ->
  match gs with g :: _ => lo <= gesture_start g | [] => True end ->
  Forall (fun input => lo <= start_ms_of input) (flat_map inputs_of gs).
Proof.
  revert lo. induction gs as [|g gs IH]; intros lo Hsp Hlo; [constructor|].
  cbn [flat_map]. apply Forall_app. split.
  - eapply Forall_impl; [|apply inputs_not_before_start].
    intros input Hin. cbn in Hin. lia.
  - destruct gs as [|g' gs]; [constructor|].
    destruct Hsp as [Hgap Hsp]. apply IH; [exact Hsp|].
    destruct g; lia.
Qed.

(** Gestures put one after the other, each starting no earlier than the
    last input of the one before, give inputs in time order: the start times
    never go down along the list. And every gesture presses once and releases
    once, so presses and releases are as many. *)
Theorem spaced_gestures_are_in_time_order :
  forall gs,
    (spaced gs ->
     StronglySorted Z.le (map start_ms_of (flat_map inputs_of gs)))
    /\ List.length (filter (fun i => match pressed_of i with
                                     | Some true => true
                                     | _ => false
                                     end) (flat_map inputs_of gs))
       = List.length (filter (fun i => match pressed_of i with
                                       | Some false => true
                                       | _ => false
                                       end) (flat_map inputs_of gs)).
Proof.
  intros gs. split.
  - induction gs as [|g gs IH]; intros Hsp; [constructor|].
    assert (Hrest : StronglySorted Z.le (map start_ms_of (flat_map inputs_of gs))).
    { apply IH. destruct gs as [|g' gs]; [exact I|]. apply Hsp. }
    assert (Hlater : forall lo,
               lo <= gesture_start g
                     + (match g with Tap _ _ _ => 70 | Drag _ _ _ _ _ => 190 end) ->
               Forall (Z.le lo) (map start_ms_of (flat_map inputs_of gs))).
    { intros lo Hlo. apply Forall_map.
      apply spaced_inputs_not_before.
      - destruct gs as [|g' gs]; [exact I|]. apply Hsp.
      - destruct gs as [|g' gs]; [exact I|]. destruct Hsp as [Hgap _]. lia. }
    cbn [flat_map]. rewrite map_app.
    destruct g as [x y t|x0 y0 x1 y1 t]; cbn [inputs_of touch_tap touch_drag map app];
      cbn [start_ms_of assoc String.eqb Ascii.eqb Bool.eqb];
      cbn [gesture_start] in Hlater.
    + constructor; [constructor; [exact Hrest|apply Hlater; lia]|].
      constructor; [lia|apply Hlater; lia].
    + constructor; [constructor; [constructor; [exact Hrest|apply Hlater; lia]|]|].
      * constructor; [lia|apply Hlater; lia].
      * constructor; [lia|]. constructor; [lia|apply Hlater; lia].
  - induction gs as [|g gs IH]; [reflexivity|].
    cbn [flat_map]. rewrite !filter_app, !length_app, IH.
    destruct g; reflexivity.
Qed.

(** The taps of the select-and-move scenario, 260 ms apart. *)
Lemma spaced_gestures_are_in_time_order_witness :
  StronglySorted Z.le
    (map start_ms_of (touch_tap 320 180 0 0 ++ touch_tap 400 120 260 0)).
Proof.
  apply (proj1 (spaced_gestures_are_in_time_order [Tap 320 180 0; Tap 400 120 260])).
  cbn. lia.
Defined.

End TouchGestures.
